(** * Nymble firmware task: host-side serial transfer and bit counting

    A shallow embedding of [send.py] (the transmit / receive session over
    a serial channel) and of [bcount.py] (the bit tally of a paragraph),
    with the properties of their behaviour proved over the embedding.

    Conventions of the embedding:
    - a Python [str] is a list of code points ([N]);
    - a Python [bytes] is a list of [Byte.byte];
    - a Python [int] is a [Z];
    - a reading of [time.time()] is a rational ([Q]): the arithmetic on
      times is the exact one, the rounding of binary floats is left out;
      where a property depends on the rounding (when the receive loop
      is left), the receiver is taken with a binary64 clock and the
      arithmetic of IEEE 754 (modules [B64], [Env64], [Recv64]);
    - the serial port, the clock and standard output are the outside
      world: every call is logged in a trace, and what the world answers
      comes from a script indexed by the number of calls made so far. *)

From Stdlib Require Import List ZArith NArith PArith QArith Lia Lqa Bool.
From Stdlib Require Import Strings.Byte Ascii String.
From Stdlib Require SpecFloat.
Import ListNotations.
Close Scope Q_scope.

(* ================================================================== *)
(** ** Python values *)

Module Py.

(** [str]: a sequence of code points. *)
Definition str := list N.

(** [bytes]. *)
Definition bytes := list byte.

(** A string literal of the source, as a [str]. *)
Definition lit (s : string) : str :=
  map N_of_ascii (list_ascii_of_string s).

(** [s.count(c)] for a one-character needle. *)
Definition count (c : N) (s : str) : Z :=
  Z.of_nat (count_occ N.eq_dec s c).

(** The digits of [bin(n)], most significant first, as the characters
    ['0'] (48) and ['1'] (49). *)
Fixpoint pos_digits (p : positive) (acc : str) : str :=
  match p with
  | xH => 49%N :: acc
  | xO q => pos_digits q (48%N :: acc)
  | xI q => pos_digits q (49%N :: acc)
  end.

(** [bin(n)] for [n >= 0]: the prefix ['0b'] and the digits; [bin(0)]
    is ['0b0']. *)
Definition bin (n : N) : str :=
  48%N :: 98%N ::
  match n with
  | N0 => [48%N]
  | Npos p => pos_digits p []
  end.

(** [int.bit_length()]. *)
Definition bit_length (n : N) : N := N.size n.

(** The number of 1-bits of [n], read off its bits one position at a
    time. *)
Definition popcount (n : N) : Z :=
  Z.of_nat (List.length
    (filter (fun i => N.testbit n (N.of_nat i))
            (seq 0 (N.to_nat (N.size n))))).

End Py.

(* ================================================================== *)
(** ** bcount.py *)

Module Bcount.

(** The three counters of [count_bits_in_paragraph]. *)
Record Counters := mkCounters {
  ones_count : Z;
  zeros_count : Z;
  count : Z
}.

(** The body of [for char in paragraph]. *)
Definition loop_body (c : Counters) (char : N) : Counters :=
  let binary_rep := skipn 2 (Py.bin char) in
  {| ones_count := ones_count c + Py.count 49%N binary_rep;
     zeros_count := zeros_count c + Py.count 48%N binary_rep;
     count := count c + 1 |}.

Definition count_bits_in_paragraph (paragraph : Py.str) : Z * Z * Z :=
  let c := fold_left loop_body paragraph (mkCounters 0 0 0) in
  (ones_count c, zeros_count c, count c).

(** What one character adds to the tally of ones and of zeros. *)
Definition char_ones (char : N) : Z := Py.count 49%N (skipn 2 (Py.bin char)).
Definition char_zeros (char : N) : Z := Py.count 48%N (skipn 2 (Py.bin char)).

Definition sumZ (l : list Z) : Z := fold_right Z.add 0%Z l.

End Bcount.

(* ================================================================== *)
(** ** UTF-8 as the Python codec does it *)

Module Utf8.

Definition byte_of_N (n : N) : byte :=
  match Byte.of_N n with
  | Some b => b
  | None => x00
  end.

(** Surrogate code points have no UTF-8 form: encoding them raises
    [UnicodeEncodeError]. *)
Definition is_surrogate (c : N) : bool :=
  ((55296 <=? c) && (c <=? 57343))%N.

(** [char.encode('utf-8')] for a one-character string, as CPython's
    encoder does it; [None] stands for the [UnicodeEncodeError] raised
    on a surrogate. *)
Definition encode_char (c : N) : option Py.bytes :=
  if (c <? 128)%N then
    Some [byte_of_N c]
  else if (c <? 2048)%N then
    Some [byte_of_N (N.lor 192 (N.shiftr c 6));
          byte_of_N (N.lor 128 (N.land c 63))]
  else if (c <? 65536)%N then
    if is_surrogate c then None
    else
      Some [byte_of_N (N.lor 224 (N.shiftr c 12));
            byte_of_N (N.lor 128 (N.land (N.shiftr c 6) 63));
            byte_of_N (N.lor 128 (N.land c 63))]
  else
    Some [byte_of_N (N.lor 240 (N.shiftr c 18));
          byte_of_N (N.lor 128 (N.land (N.shiftr c 12) 63));
          byte_of_N (N.lor 128 (N.land (N.shiftr c 6) 63));
          byte_of_N (N.lor 128 (N.land c 63))].

(** [s.encode('utf-8')]: the characters' encodings, one after the
    other. *)
Fixpoint encode (s : Py.str) : option Py.bytes :=
  match s with
  | [] => Some []
  | c :: rest =>
      match encode_char c, encode rest with
      | Some b, Some bs => Some (b ++ bs)
      | _, _ => None
      end
  end.

Definition is_continuation (b : byte) : bool :=
  ((128 <=? Byte.to_N b) && (Byte.to_N b <? 192))%N.

(** The second byte of a three-byte form that can never follow the
    lead byte [ch]: an overlong form after E0, a surrogate after ED. *)
Definition bad_second3 (ch : N) (b2 : byte) : bool :=
  negb (is_continuation b2) ||
  (if (Byte.to_N b2 <? 160)%N then (ch =? 224)%N else (ch =? 237)%N).

(** The same for a four-byte form: overlong after F0, beyond U+10FFFF
    after F4. *)
Definition bad_second4 (ch : N) (b2 : byte) : bool :=
  negb (is_continuation b2) ||
  (if (Byte.to_N b2 <? 144)%N then (ch =? 240)%N else (ch =? 244)%N).

Definition cp2 (ch : N) (b2 : byte) : N :=
  (N.shiftl ch 6 + Byte.to_N b2 - (N.shiftl 192 6 + 128))%N.

Definition cp3 (ch : N) (b2 b3 : byte) : N :=
  (N.shiftl ch 12 + N.shiftl (Byte.to_N b2) 6 + Byte.to_N b3
   - (N.shiftl 224 12 + N.shiftl 128 6 + 128))%N.

Definition cp4 (ch : N) (b2 b3 b4 : byte) : N :=
  (N.shiftl ch 18 + N.shiftl (Byte.to_N b2) 12
   + N.shiftl (Byte.to_N b3) 6 + Byte.to_N b4
   - (N.shiftl 240 18 + N.shiftl 128 12 + N.shiftl 128 6 + 128))%N.

(** [data.decode('utf-8', errors='ignore')]. The codec is the Python
    library's; this is CPython's decoder with the [ignore] handler. It
    reads one form at a time. On a malformed form it skips the bytes
    that were read before the offending one (one byte for a bad lead
    byte), and goes on; a form cut short by the end of the data is
    skipped whole. It never raises. *)
Fixpoint decode_ignore (data : Py.bytes) : Py.str :=
  match data with
  | [] => []
  | b1 :: t1 =>
    let ch := Byte.to_N b1 in
    if (ch <? 128)%N then ch :: decode_ignore t1
    else if (ch <? 194)%N then decode_ignore t1
    else if (ch <? 224)%N then
      match t1 with
      | [] => []
      | b2 :: t2 =>
        if is_continuation b2 then cp2 ch b2 :: decode_ignore t2
        else decode_ignore t1
      end
    else if (ch <? 240)%N then
      match t1 with
      | [] => []
      | b2 :: t2 =>
        if bad_second3 ch b2 then decode_ignore t1
        else
          match t2 with
          | [] => []
          | b3 :: t3 =>
            if is_continuation b3 then cp3 ch b2 b3 :: decode_ignore t3
            else decode_ignore t2
          end
      end
    else if (ch <? 245)%N then
      match t1 with
      | [] => []
      | b2 :: t2 =>
        if bad_second4 ch b2 then decode_ignore t1
        else
          match t2 with
          | [] => []
          | b3 :: t3 =>
            if negb (is_continuation b3) then decode_ignore t2
            else
              match t3 with
              | [] => []
              | b4 :: t4 =>
                if is_continuation b4
                then cp4 ch b2 b3 b4 :: decode_ignore t4
                else decode_ignore t3
              end
          end
      end
    else decode_ignore t1
  end.

(** A byte below 0x80. *)
Definition is_ascii_byte (b : byte) : bool := (Byte.to_N b <? 128)%N.

(** A byte that can start no form: a continuation byte, C0, C1, or
    F5 and above. *)
Definition is_invalid_start (b : byte) : bool :=
  ((128 <=? Byte.to_N b) && (Byte.to_N b <? 194) || (245 <=? Byte.to_N b))%N.

(** Bytes that start with a form of their own, if with anything: the
    first one is not a continuation byte. *)
Definition starts_form (text : Py.bytes) : Prop :=
  match text with
  | [] => True
  | a :: _ => is_continuation a = false
  end.

(** A code point of Unicode. *)
Definition is_code_point (c : N) : Prop := (c < 1114112)%N.

(** [str.isspace()] on one character. *)
Definition isspace (c : N) : bool :=
  ((9 <=? c) && (c <=? 13) || (28 <=? c) && (c <=? 32)
   || (c =? 133) || (c =? 160) || (c =? 5760)
   || (8192 <=? c) && (c <=? 8202)
   || (c =? 8232) || (c =? 8233) || (c =? 8239) || (c =? 8287)
   || (c =? 12288))%N.

Fixpoint lstrip (s : Py.str) : Py.str :=
  match s with
  | [] => []
  | c :: rest => if isspace c then lstrip rest else s
  end.

(** [s.strip()]. *)
Definition strip (s : Py.str) : Py.str :=
  rev (lstrip (rev (lstrip s))).

(** A Unicode scalar value: a code point that is no surrogate. The
    scalar values are the code points that have a UTF-8 form. *)
Definition is_scalar (c : N) : bool :=
  (c <? 1114112)%N && negb (is_surrogate c).

(** Well-formed UTF-8: [form] is the encoding of the scalar value
    [c]. *)
Definition well_formed (form : Py.bytes) (c : N) : Prop :=
  is_scalar c = true /\ encode_char c = Some form.

(** What a lossy decoding is, said without the decoder. The data is
    read from the left: where a well-formed form starts, it gives its
    scalar value and the reading goes on behind it; where none starts,
    the byte is dropped. Every byte of a well-formed form is kept, every
    other byte is dropped, and nothing is added. *)
Inductive lossy : Py.bytes -> Py.str -> Prop :=
| lossy_end : lossy [] []
| lossy_keep (form : Py.bytes) (c : N) (rest : Py.bytes) (s : Py.str) :
    well_formed form c ->
    lossy rest s ->
    lossy (form ++ rest) (c :: s)
| lossy_drop (b : byte) (rest : Py.bytes) (s : Py.str) :
    (forall form c tail, well_formed form c -> b :: rest <> form ++ tail) ->
    lossy rest s ->
    lossy (b :: rest) s.

End Utf8.

(* ================================================================== *)
(** ** The outside world: serial port, clock, standard output *)

Module Env.

(** The [time.time()] calls of [receive_data], by source line. *)
Inductive Site := L40 | L41 | L42 | L53 | L54 | L57 | L58 | L63 | L64.

Inductive Exn :=
| SerialException
| UnicodeEncodeError
| UnicodeDecodeError
| ZeroDivisionError.

(** What [print] is given. [SpeedRx v] is the line
    [SpeedRx: {v:.2f} bps], [ErrorDecoding e] the line
    [Error decoding received data: {e}]. *)
Inductive Output :=
| Text (s : Py.str)
| SpeedRx (speed_bps : Q)
| ErrorDecoding (e : Exn).

(** One call to the outside, with what came back. *)
Inductive Event :=
| EvWrite (data : Py.bytes) (ok : bool)
| EvInWaiting (n : Z)
| EvRead (data : Py.bytes)
| EvReadline (data : Py.bytes)
| EvTime (site : Site) (t : Q)
| EvSleep (secs : Q)
| EvPrint (out : Output)
| EvClose.

(** The calls made so far, the latest first. *)
Definition Trace := list Event.

(** What the world would answer to a call, whichever call it is. *)
Record Reply := mkReply {
  time_now : Q;
  in_waiting : Z;
  read1 : option byte;
  readline : Py.bytes;
  write_fails : bool
}.

(** The world's behaviour: its answer to the call number [k]. *)
Definition Script := nat -> Reply.

(** How a computation ends: with a value, with an exception, or still
    inside [while True] when the iterations looked at are used up. *)
Inductive Result (A : Type) :=
| Ok (a : A)
| Raise (e : Exn)
| Running.
Arguments Ok {A} a.
Arguments Raise {A} e.
Arguments Running {A}.

Definition M (A : Type) := Trace -> Result A * Trace.

Definition ret {A} (a : A) : M A := fun tr => (Ok a, tr).

Definition bind {A B} (m : M A) (k : A -> M B) : M B :=
  fun tr =>
    match m tr with
    | (Ok a, tr') => k a tr'
    | (Raise e, tr') => (Raise e, tr')
    | (Running, tr') => (Running, tr')
    end.

Definition raise {A} (e : Exn) : M A := fun tr => (Raise e, tr).

Definition running {A} : M A := fun tr => (Running, tr).

(** [try: body  except <catches> as e: handler e]. *)
Definition try_except {A} (body : M A) (catches : Exn -> bool)
    (handler : Exn -> M A) : M A :=
  fun tr =>
    match body tr with
    | (Raise e, tr') =>
        if catches e then handler e tr' else (Raise e, tr')
    | other => other
    end.

Definition Qlt_bool (a b : Q) : bool := negb (Qle_bool b a).

(** [a / b] on numbers: [ZeroDivisionError] when [b] is zero. *)
Definition py_div (a b : Q) : M Q :=
  if Qeq_bool b 0 then raise ZeroDivisionError else ret (a / b)%Q.

Section Calls.
Variable script : Script.

Definition reply (tr : Trace) : Reply := script (List.length tr).

(** [ser.write(data)]: raises on a transport error, else returns the
    number of bytes written. *)
Definition ser_write (data : Py.bytes) : M Z :=
  fun tr =>
    if write_fails (reply tr)
    then (Raise SerialException, EvWrite data false :: tr)
    else (Ok (Z.of_nat (List.length data)), EvWrite data true :: tr).

(** [ser.in_waiting]. *)
Definition ser_in_waiting : M Z :=
  fun tr =>
    let n := in_waiting (reply tr) in (Ok n, EvInWaiting n :: tr).

(** [ser.read(1)]: one byte, or none when the read times out. *)
Definition ser_read1 : M Py.bytes :=
  fun tr =>
    let data := match read1 (reply tr) with
                | Some b => [b]
                | None => []
                end in
    (Ok data, EvRead data :: tr).

(** [ser.readline()]. *)
Definition ser_readline : M Py.bytes :=
  fun tr =>
    let data := readline (reply tr) in (Ok data, EvReadline data :: tr).

(** [time.time()]. *)
Definition time_time (site : Site) : M Q :=
  fun tr =>
    let t := time_now (reply tr) in (Ok t, EvTime site t :: tr).

(** [time.sleep(secs)]. *)
Definition time_sleep (secs : Q) : M unit :=
  fun tr => (Ok tt, EvSleep secs :: tr).

(** [print(out)]. *)
Definition print (out : Output) : M unit :=
  fun tr => (Ok tt, EvPrint out :: tr).

(** [ser.close()]. *)
Definition ser_close : M unit :=
  fun tr => (Ok tt, EvClose :: tr).

End Calls.

End Env.

Declare Scope py_scope.
Delimit Scope py_scope with py.
Notation "x <- m ;; k" := (Env.bind m (fun x => k))
  (at level 61, m at next level, right associativity) : py_scope.
Notation "m ;;; k" := (Env.bind m (fun _ => k))
  (at level 61, right associativity) : py_scope.

(* ================================================================== *)
(** ** send.py *)

Module Send.
Import Env.
Local Open Scope py_scope.

(** The locals of [send_data]. *)
Record TxState := mkTx {
  chara : Py.str;
  sent_bytes : Z
}.

(** The locals of [receive_data]. *)
Record RxState := mkRx {
  received_data : Py.bytes;
  total_received_bytes : Z;
  start_receive_time : Q;
  last_activity_time : Q;
  last_report_time : Q;
  no_data : bool
}.

(** How one turn of [while True] ends. *)
Inductive Step :=
| Continue (st : RxState)
| Break (st : RxState).

Definition step_state (s : Step) : RxState :=
  match s with
  | Continue st => st
  | Break st => st
  end.

Definition TIMEOUT_THRESHOLD : Q := 3.

Definition is_UnicodeDecodeError (e : Exn) : bool :=
  match e with
  | UnicodeDecodeError => true
  | _ => false
  end.

(** [char.encode('utf-8')]. *)
Definition encode_utf8 (char : N) : M Py.bytes :=
  match Utf8.encode_char char with
  | Some data => ret data
  | None => raise UnicodeEncodeError
  end.

Section Program.
Variable script : Script.

(** Lines 27-33: the device's answer, if one is waiting. *)
Definition drain_response : M unit :=
  n <- ser_in_waiting script ;;
  if (n >? 0)%Z then
    try_except
      (line <- ser_readline script ;;
       let speed_data := Utf8.strip (Utf8.decode_ignore line) in
       match speed_data with
       | [] => ret tt
       | _ :: _ => print (Text speed_data)
       end)
      is_UnicodeDecodeError
      (fun _ => print (Text (Py.lit "Error decoding MCU response")))
  else ret tt.

(** Lines 21-33: [for count, char in enumerate(DATA_TO_SEND)], from
    index [count] on; [len] is [len(DATA_TO_SEND)]. *)
Fixpoint send_loop (len : Z) (count : Z) (chars : Py.str)
    (st : TxState) : M TxState :=
  match chars with
  | [] => ret st
  | char :: rest =>
      data <- encode_utf8 char ;;
      ser_write script data ;;;
      let st' := {| chara := chara st ++ [char];
                    sent_bytes := sent_bytes st + 1 |} in
      (if (count =? len - 1)%Z then time_sleep 1 else ret tt) ;;;
      drain_response ;;;
      send_loop len (count + 1) rest st'
  end.

Definition send_data (DATA_TO_SEND : Py.str) : M Z :=
  print (Text (Py.lit "Sending data to MCU...")) ;;;
  st <- send_loop (Z.of_nat (List.length DATA_TO_SEND)) 0 DATA_TO_SEND
          {| chara := []; sent_bytes := 0 |} ;;
  print (Text (Py.lit "All data sent. Ready to receive data from MCU..."
               ++ [10%N])) ;;;
  ret (sent_bytes st).

(** Lines 38-45. *)
Definition rx_init : M RxState :=
  t40 <- time_time script L40 ;;
  t41 <- time_time script L41 ;;
  t42 <- time_time script L42 ;;
  print (Text (Py.lit "Waiting for responses from MCU...")) ;;;
  ret {| received_data := [];
         total_received_bytes := 0;
         start_receive_time := t40;
         last_activity_time := t41;
         last_report_time := t42;
         no_data := true |}.

(** Lines 47-53. *)
Definition rx_poll (st : RxState) : M RxState :=
  n <- ser_in_waiting script ;;
  if (n >? 0)%Z then
    received_char <- ser_read1 script ;;
    match received_char with
    | [] => ret st
    | _ :: _ =>
        t <- time_time script L53 ;;
        ret {| received_data := received_data st ++ received_char;
               total_received_bytes := total_received_bytes st + 1;
               start_receive_time := start_receive_time st;
               last_activity_time := t;
               last_report_time := last_report_time st;
               no_data := false |}
    end
  else ret st.

(** Line 54: the test that guards [break]. *)
Definition rx_timed_out (st : RxState) : M bool :=
  t <- time_time script L54 ;;
  ret (Qlt_bool TIMEOUT_THRESHOLD (t - last_activity_time st)
       && Bool.eqb (no_data st) false).

(** Lines 57-64. *)
Definition rx_report (st : RxState) : M RxState :=
  t <- time_time script L57 ;;
  if Qle_bool 1 (t - last_report_time st) then
    t58 <- time_time script L58 ;;
    let elapsed_time := (t58 - start_receive_time st)%Q in
    (if Qlt_bool 0 elapsed_time then
       speed_bps <- py_div (inject_Z (total_received_bytes st * 8))
                           elapsed_time ;;
       print (SpeedRx speed_bps)
     else ret tt) ;;;
    t63 <- time_time script L63 ;;
    t64 <- time_time script L64 ;;
    ret {| received_data := received_data st;
           total_received_bytes := 0;
           start_receive_time := t63;
           last_activity_time := last_activity_time st;
           last_report_time := t64;
           no_data := no_data st |}
  else ret st.

(** Lines 47-64: one turn of [while True]. *)
Definition receive_iter (st : RxState) : M Step :=
  st1 <- rx_poll st ;;
  stop <- rx_timed_out st1 ;;
  if stop then ret (Break st1)
  else st2 <- rx_report st1 ;; ret (Continue st2).

(** The first [n] turns of [while True]: [Break] when the loop was
    left within them, [Continue] when it is still going. *)
Fixpoint receive_iters (n : nat) (st : RxState) : M Step :=
  match n with
  | O => ret (Continue st)
  | S k =>
      s <- receive_iter st ;;
      match s with
      | Break st' => ret (Break st')
      | Continue st' => receive_iters k st'
      end
  end.

(** Lines 46-64: [while True], looked at for [fuel] turns. *)
Definition receive_loop (fuel : nat) (st : RxState) : M RxState :=
  s <- receive_iters fuel st ;;
  match s with
  | Break st' => ret st'
  | Continue _ => running
  end.

(** Lines 66-70. *)
Definition rx_finish (st : RxState) : M unit :=
  try_except
    (let decoded_data := Utf8.decode_ignore (received_data st) in
     print (Text decoded_data))
    (fun _ => true)
    (fun e => print (ErrorDecoding e)).

Definition receive_data (fuel : nat) : M unit :=
  st0 <- rx_init ;;
  st <- receive_loop fuel st0 ;;
  rx_finish st.

(** Lines 74-76, on the port opened at line 15. *)
Definition main (DATA_TO_SEND : Py.str) (fuel : nat) : M unit :=
  send_data DATA_TO_SEND ;;;
  receive_data fuel ;;;
  ser_close.

End Program.

(** The payload of the source, line 13. *)
Definition DATA_TO_SEND : Py.str :=
  Py.lit "Finance Minister Arun Jaitley Tuesday hit out at former RBI governor Raghuram Rajan for predicting that the next banking crisis would be triggered by MSME lending, saying postmortem is easier than taking action when it was required. Rajan, who had as the chief economist at IMF warned of impending financial crisis of 2008, in a note to a parliamentary committee warned against ambitious credit targets and loan waivers, saying that they could be the sources of next banking crisis. Government should focus on sources of the next crisis, not just the last one. In particular, government should refrain from setting ambitious credit targets or waiving loans. Credit targets are sometimes achieved by abandoning appropriate due diligence, creating the environment for future NPAs,"
  ++ [34%N] ++
  Py.lit " Rajan said in the note."
  ++ [34%N] ++
  Py.lit " Both MUDRA loans as well as the Kisan Credit Card, while popular, have to be examined more closely for potential credit risk. Rajan, who was RBI governor for three years till September 2016, is currently.".

End Send.

(* ================================================================== *)
(** ** Reading a trace *)

Module Obs.
Import Env.

(** The payloads of the [ser.write] calls, the earliest first. *)
Fixpoint written (tr : Trace) : list Py.bytes :=
  match tr with
  | [] => []
  | EvWrite data _ :: older => written older ++ [data]
  | _ :: older => written older
  end.

(** The bytes handed over by the [ser.read(1)] calls, the earliest
    first. *)
Fixpoint rx_bytes (tr : Trace) : Py.bytes :=
  match tr with
  | [] => []
  | EvRead data :: older => rx_bytes older ++ data
  | _ :: older => rx_bytes older
  end.

(** The bytes handed over by the [ser.readline] calls, the earliest
    first. *)
Fixpoint drained (tr : Trace) : Py.bytes :=
  match tr with
  | [] => []
  | EvReadline data :: older => drained older ++ data
  | _ :: older => drained older
  end.

(** The calls only the transmitter makes, the calls only the receiver
    makes, and the closing of the port. *)
Definition tx_event (ev : Event) : bool :=
  match ev with
  | EvWrite _ _ | EvInWaiting _ | EvReadline _ | EvSleep _
  | EvPrint (Text _) => true
  | _ => false
  end.

Definition rx_event (ev : Event) : bool :=
  match ev with
  | EvInWaiting _ | EvRead _ | EvTime _ _ | EvPrint _ => true
  | _ => false
  end.

(** What belongs to the receive phase alone: a [ser.read(1)], a clock
    reading, a throughput report. *)
Definition rx_only (ev : Event) : bool :=
  match ev with
  | EvRead _ | EvTime _ _ | EvPrint (SpeedRx _)
  | EvPrint (ErrorDecoding _) => true
  | _ => false
  end.

Definition is_close (ev : Event) : bool :=
  match ev with
  | EvClose => true
  | _ => false
  end.

(** The clock readings that start a reporting interval: line 40 at
    the start, line 63 after a report. *)
Definition starts_interval (site : Site) : bool :=
  match site with
  | L40 | L63 => true
  | _ => false
  end.

(** The clock readings that record inbound activity: line 41 at the
    start, line 53 after a byte. *)
Definition marks_activity (site : Site) : bool :=
  match site with
  | L41 | L53 => true
  | _ => false
  end.

(** The events after the latest start of a reporting interval. *)
Fixpoint since_reset (tr : Trace) : Trace :=
  match tr with
  | [] => []
  | EvTime site t :: older =>
      if starts_interval site then [] else EvTime site t :: since_reset older
  | ev :: older => ev :: since_reset older
  end.

(** The clock reading that started the current reporting interval. *)
Fixpoint interval_start (tr : Trace) : option Q :=
  match tr with
  | [] => None
  | EvTime site t :: older =>
      if starts_interval site then Some t else interval_start older
  | _ :: older => interval_start older
  end.

(** The number of bytes received in the current reporting interval. *)
Definition interval_bytes (tr : Trace) : Z :=
  Z.of_nat (List.length (rx_bytes (since_reset tr))).

(** The latest recorded inbound activity. *)
Fixpoint last_activity (tr : Trace) : option Q :=
  match tr with
  | [] => None
  | EvTime site t :: older =>
      if marks_activity site then Some t else last_activity older
  | _ :: older => last_activity older
  end.

(** Whether a byte has been received. *)
Definition got_byte (tr : Trace) : bool :=
  match rx_bytes tr with
  | [] => false
  | _ :: _ => true
  end.

(** A throughput report [v], printed after the calls [older]: it
    follows the reading of line 58, and is the bits of the interval
    over the time since the interval started, which is positive. *)
Definition report_ok (older : Trace) (v : Q) : Prop :=
  exists t58 rest s,
    older = EvTime L58 t58 :: rest /\
    interval_start rest = Some s /\
    (0 < t58 - s)%Q /\
    (v == inject_Z (interval_bytes rest * 8) / (t58 - s))%Q.

(** The inactivity test of line 54 reading [t] after the calls
    [older]: a byte was received, and the latest activity is more
    than the threshold in the past. *)
Definition timed_out_at (older : Trace) (t : Q) : Prop :=
  got_byte older = true /\
  exists a, last_activity older = Some a /\ (3 < t - a)%Q.

(** The readings of the inactivity test (line 54), the latest first. *)
Fixpoint checks (tr : Trace) : list Q :=
  match tr with
  | [] => []
  | EvTime L54 t :: older => t :: checks older
  | _ :: older => checks older
  end.

(** Every throughput report of the trace is as [report_ok] says. *)
Fixpoint reports_ok (tr : Trace) : Prop :=
  match tr with
  | [] => True
  | EvPrint (SpeedRx v) :: older => report_ok older v /\ reports_ok older
  | _ :: older => reports_ok older
  end.

(** No inactivity test of the trace found the receiver timed out. *)
Fixpoint checks_passed (tr : Trace) : Prop :=
  match tr with
  | [] => True
  | EvTime L54 t :: older => ~ timed_out_at older t /\ checks_passed older
  | _ :: older => checks_passed older
  end.

(** The locals of [receive_data] against the calls of the receive
    phase so far: the buffer holds the bytes read, the counter those of
    the current interval, the three times the readings that set them,
    and the flag is up until a byte is read; the reports and the
    inactivity tests so far are in order, and all calls are the
    receiver's. *)
Record RxInv (st : Send.RxState) (seg : Trace) : Prop := mkRxInv {
  inv_data : Send.received_data st = rx_bytes seg;
  inv_total : Send.total_received_bytes st = interval_bytes seg;
  inv_start : interval_start seg = Some (Send.start_receive_time st);
  inv_activity : last_activity seg = Some (Send.last_activity_time st);
  inv_no_data : Send.no_data st = negb (got_byte seg);
  inv_reports : reports_ok seg;
  inv_checks : checks_passed seg;
  inv_events : Forall (fun ev => rx_event ev = true) seg
}.

(** A clock that never goes back. *)
Definition clock_monotone (script : Script) : Prop :=
  forall k, (time_now (script k) <= time_now (script (S k)))%Q.

(** The start of the interval and the time of the last report are
    readings of the clock made so far, in this order. *)
Definition times_read (script : Script) (st : Send.RxState) (tr : Trace)
    : Prop :=
  exists i j,
    (i <= j < List.length tr)%nat /\
    Send.start_receive_time st = time_now (script i) /\
    Send.last_report_time st = time_now (script j).

(** The same at the end of some turns of the loop: when the loop was
    left, the last call is the inactivity test that found the receiver
    timed out. *)
Definition StepInv (s : Send.Step) (seg : Trace) : Prop :=
  match s with
  | Send.Continue st => RxInv st seg
  | Send.Break st =>
      exists t older,
        seg = EvTime L54 t :: older /\ RxInv st older /\ timed_out_at older t
  end.

End Obs.

(* ================================================================== *)
(** ** Some worlds to run the program in *)

Module Scenarios.
Import Env.

(** A port that takes every write and never has anything to read; the
    clock advances by one time unit per call. *)
Definition steady : Script :=
  fun k => mkReply (inject_Z (Z.of_nat k)) 0 None [] false.

(** A port on which every write fails. *)
Definition broken_port : Script :=
  fun k => mkReply (inject_Z (Z.of_nat k)) 0 None [] true.

(** A device that always has something to say: a line [OK] for
    [readline], the byte [x] for [read(1)]. *)
Definition chatty : Script :=
  fun k => mkReply (inject_Z (Z.of_nat k)) 1 (Some x78) [x4f; x4b; x0a] false.

(** One byte delivered in the first turn of the receive loop, nothing
    after; the clock advances by one time unit per call. *)
Definition one_byte_then_quiet : Script :=
  fun k =>
    mkReply (inject_Z (Z.of_nat k))
            (if (k =? 4)%nat then 1 else 0)
            (if (k =? 5)%nat then Some x41 else None)
            [] false.

(** A device that stays silent while the two characters of [AB] are
    sent (the calls 0 to 6 of the session) and answers with one byte in
    the first turn of the receive loop (the calls 11 and 12); the clock
    advances by one time unit per call. *)
Definition answer_after_send : Script :=
  fun k =>
    mkReply (inject_Z (Z.of_nat k))
            (if (k =? 11)%nat then 1 else 0)
            (if (k =? 12)%nat then Some x41 else None)
            [] false.

(** The locals of [receive_data] after one byte was received at time 0. *)
Definition after_one_byte : Send.RxState :=
  Send.mkRx [x41] 1 0 0 0 false.

End Scenarios.

(* ================================================================== *)
(** ** Reading a trace: the port, the diagnostics, the long intervals *)

Module ObsMore.
Import Env Obs.

(** The payloads of the [ser.write] calls that went through, the
    earliest first. *)
Fixpoint delivered (tr : Trace) : list Py.bytes :=
  match tr with
  | [] => []
  | EvWrite data true :: older => delivered older ++ [data]
  | _ :: older => delivered older
  end.

Definition is_write (ev : Event) : bool :=
  match ev with
  | EvWrite _ _ => true
  | _ => false
  end.

Definition is_sleep (ev : Event) : bool :=
  match ev with
  | EvSleep _ => true
  | _ => false
  end.

(** A text that is not empty and neither starts nor ends with
    whitespace. *)
Definition trimmed (s : Py.str) : Prop :=
  match s with
  | [] => False
  | c :: _ => Utf8.isspace c = false
  end /\
  match rev s with
  | [] => False
  | c :: _ => Utf8.isspace c = false
  end.

(** The two banners of [send_data]. *)
Definition banner_start : Py.str := Py.lit "Sending data to MCU...".
Definition banner_done : Py.str :=
  Py.lit "All data sent. Ready to receive data from MCU..." ++ [10%N].

(** What the transmitter may print: a banner, or a trimmed line of the
    device. *)
Definition tx_print_ok (ev : Event) : Prop :=
  match ev with
  | EvPrint (Text s) => s = banner_start \/ s = banner_done \/ trimmed s
  | EvPrint _ => False
  | _ => True
  end.

(** A device that always has a byte ready, on a clock that advances by
    at most the inactivity threshold from one call to the next. *)
Definition always_sending (script : Script) : Prop :=
  forall k,
    (0 < in_waiting (script k))%Z /\
    read1 (script k) <> None /\
    (time_now (script (S k)) - time_now (script k) <= 3)%Q.

End ObsMore.

(* ================================================================== *)
(** ** More worlds *)

Module ScenariosMore.
Import Env.

(** A port whose second write fails (the call 3 of [send_data]: the
    banner, the first write and the look at the device come first). *)
Definition second_write_fails : Script :=
  fun k => mkReply (inject_Z (Z.of_nat k)) 0 None [] (k =? 3)%nat.

(** A device that answers every look with a line of blanks around the
    word [OK]. *)
Definition padded_answers : Script :=
  fun k => mkReply (inject_Z (Z.of_nat k)) 1 None
             [x20; x4f; x4b; x20; x0d; x0a] false.

(** A device that echoes the two characters of [A ] (a letter and a
    blank) once they are sent: silent during the calls 0 to 6 of the
    session, which are those of [send_data], it hands the letter over
    in the first turn of the receive loop (the calls 11 and 12) and the
    blank in the second (the calls 20 and 21). *)
Definition echo_of_A_blank : Script :=
  fun k =>
    mkReply (inject_Z (Z.of_nat k))
            (if ((k =? 11) || (k =? 20))%nat then 1 else 0)
            (if (k =? 12)%nat then Some x41
             else if (k =? 21)%nat then Some x20 else None)
            [] false.

End ScenariosMore.

(* ================================================================== *)
(** ** Binary floating point *)

(** [time.time()] returns a [float], and the tests of lines 54, 57 and
    59 and the division of line 60 are in floating point: the
    difference of two readings is rounded before it is compared. The
    exact arithmetic of the modules above leaves the rounding out. Where
    a property depends on it, the receiver is taken with the arithmetic
    of the source: IEEE 754 binary64, in the specification of the
    Standard Library ([SpecFloat]). *)
Module B64.

(** A Python [float]. *)
Definition float : Type := SpecFloat.spec_float.

Definition prec : Z := 53.
Definition emax : Z := 1024.

(** [x - y] and [x / y] on floats, rounded to nearest, ties to even. *)
Definition sub (x y : float) : float := SpecFloat.SFsub prec emax x y.
Definition div (x y : float) : float := SpecFloat.SFdiv prec emax x y.

(** [x < y] and [x <= y]: false when either side is not a number. *)
Definition ltb (x y : float) : bool := SpecFloat.SFltb x y.
Definition leb (x y : float) : bool := SpecFloat.SFleb x y.

(** The float nearest to an integer, ties to even: the value of a
    literal such as [3.0], and what a small [int] is compared as. *)
Definition of_Z (n : Z) : float :=
  SpecFloat.binary_normalize prec emax n 0 false.

(** The [int] operand of a mixed operation, converted: [None] stands
    for the [OverflowError] of an [int] too large for a [float]. *)
Definition of_int (n : Z) : option float :=
  match of_Z n with
  | SpecFloat.S754_infinity _ => None
  | x => Some x
  end.

Definition is_zero (x : float) : bool :=
  match x with
  | SpecFloat.S754_zero _ => true
  | _ => false
  end.

(** The number a finite float stands for. *)
Definition to_Q (x : float) : option Q :=
  match x with
  | SpecFloat.S754_zero _ => Some 0%Q
  | SpecFloat.S754_finite s m e =>
      let v := (inject_Z (Zpos m) * Qpower 2 e)%Q in
      Some (if s then (- v)%Q else v)
  | _ => None
  end.

End B64.

(* ================================================================== *)
(** ** The outside world of the receiver, with a binary64 clock *)

Module Env64.

Inductive Exn :=
| ZeroDivisionError
| OverflowError.

Inductive Output :=
| Text (s : Py.str)
| SpeedRx (speed_bps : B64.float)
| ErrorDecoding (e : Exn).

(** One call of the receiver to the outside, with what came back. *)
Inductive Event :=
| EvInWaiting (n : Z)
| EvRead (data : Py.bytes)
| EvTime (site : Env.Site) (t : B64.float)
| EvPrint (out : Output).

Definition Trace := list Event.

Record Reply := mkReply {
  time_now : B64.float;
  in_waiting : Z;
  read1 : option byte
}.

Definition Script := nat -> Reply.

Inductive Result (A : Type) :=
| Ok (a : A)
| Raise (e : Exn)
| Running.
Arguments Ok {A} a.
Arguments Raise {A} e.
Arguments Running {A}.

Definition M (A : Type) := Trace -> Result A * Trace.

Definition ret {A} (a : A) : M A := fun tr => (Ok a, tr).

Definition bind {A B} (m : M A) (k : A -> M B) : M B :=
  fun tr =>
    match m tr with
    | (Ok a, tr') => k a tr'
    | (Raise e, tr') => (Raise e, tr')
    | (Running, tr') => (Running, tr')
    end.

Definition raise {A} (e : Exn) : M A := fun tr => (Raise e, tr).

Definition running {A} : M A := fun tr => (Running, tr).

Definition try_except {A} (body : M A) (catches : Exn -> bool)
    (handler : Exn -> M A) : M A :=
  fun tr =>
    match body tr with
    | (Raise e, tr') =>
        if catches e then handler e tr' else (Raise e, tr')
    | other => other
    end.

(** [a / b] for an [int] [a] and a [float] [b]: the integer is
    converted first, then the divisor is tested. *)
Definition py_div (a : Z) (b : B64.float) : M B64.float :=
  match B64.of_int a with
  | None => raise OverflowError
  | Some x =>
      if B64.is_zero b then raise ZeroDivisionError
      else ret (B64.div x b)
  end.

Section Calls.
Variable script : Script.

Definition reply (tr : Trace) : Reply := script (List.length tr).

Definition ser_in_waiting : M Z :=
  fun tr =>
    let n := in_waiting (reply tr) in (Ok n, EvInWaiting n :: tr).

Definition ser_read1 : M Py.bytes :=
  fun tr =>
    let data := match read1 (reply tr) with
                | Some b => [b]
                | None => []
                end in
    (Ok data, EvRead data :: tr).

Definition time_time (site : Env.Site) : M B64.float :=
  fun tr =>
    let t := time_now (reply tr) in (Ok t, EvTime site t :: tr).

Definition print (out : Output) : M unit :=
  fun tr => (Ok tt, EvPrint out :: tr).

End Calls.

End Env64.

Declare Scope py64_scope.
Delimit Scope py64_scope with py64.
Notation "x <- m ;; k" := (Env64.bind m (fun x => k))
  (at level 61, m at next level, right associativity) : py64_scope.
Notation "m ;;; k" := (Env64.bind m (fun _ => k))
  (at level 61, right associativity) : py64_scope.

(* ================================================================== *)
(** ** [receive_data], with the arithmetic in binary64 *)

Module Recv64.
Import Env Env64.
Local Open Scope py64_scope.

(** The locals of [receive_data]. *)
Record RxState := mkRx {
  received_data : Py.bytes;
  total_received_bytes : Z;
  start_receive_time : B64.float;
  last_activity_time : B64.float;
  last_report_time : B64.float;
  no_data : bool
}.

Inductive Step :=
| Continue (st : RxState)
| Break (st : RxState).

Definition step_state (s : Step) : RxState :=
  match s with
  | Continue st => st
  | Break st => st
  end.

(** Line 43: [3.0]. *)
Definition TIMEOUT_THRESHOLD : B64.float := B64.of_Z 3.

Section Program.
Variable script : Script.

(** Lines 38-45. *)
Definition rx_init : M RxState :=
  t40 <- time_time script L40 ;;
  t41 <- time_time script L41 ;;
  t42 <- time_time script L42 ;;
  print (Text (Py.lit "Waiting for responses from MCU...")) ;;;
  ret {| received_data := [];
         total_received_bytes := 0;
         start_receive_time := t40;
         last_activity_time := t41;
         last_report_time := t42;
         no_data := true |}.

(** Lines 47-53. *)
Definition rx_poll (st : RxState) : M RxState :=
  n <- ser_in_waiting script ;;
  if (n >? 0)%Z then
    received_char <- ser_read1 script ;;
    match received_char with
    | [] => ret st
    | _ :: _ =>
        t <- time_time script L53 ;;
        ret {| received_data := received_data st ++ received_char;
               total_received_bytes := total_received_bytes st + 1;
               start_receive_time := start_receive_time st;
               last_activity_time := t;
               last_report_time := last_report_time st;
               no_data := false |}
    end
  else ret st.

(** Line 54: the test that guards [break]. The difference of the two
    floats is rounded, then compared with [3.0]. *)
Definition rx_timed_out (st : RxState) : M bool :=
  t <- time_time script L54 ;;
  ret (B64.ltb TIMEOUT_THRESHOLD (B64.sub t (last_activity_time st))
       && Bool.eqb (no_data st) false).

(** Lines 57-64. The differences are rounded; they are compared with
    the integers 1 and 0, and the count of bits, an [int], is converted
    for the division. *)
Definition rx_report (st : RxState) : M RxState :=
  t <- time_time script L57 ;;
  if B64.leb (B64.of_Z 1) (B64.sub t (last_report_time st)) then
    t58 <- time_time script L58 ;;
    let elapsed_time := B64.sub t58 (start_receive_time st) in
    (if B64.ltb (B64.of_Z 0) elapsed_time then
       speed_bps <- py_div (total_received_bytes st * 8) elapsed_time ;;
       print (SpeedRx speed_bps)
     else ret tt) ;;;
    t63 <- time_time script L63 ;;
    t64 <- time_time script L64 ;;
    ret {| received_data := received_data st;
           total_received_bytes := 0;
           start_receive_time := t63;
           last_activity_time := last_activity_time st;
           last_report_time := t64;
           no_data := no_data st |}
  else ret st.

(** Lines 47-64: one turn of [while True]. *)
Definition receive_iter (st : RxState) : M Step :=
  st1 <- rx_poll st ;;
  stop <- rx_timed_out st1 ;;
  if stop then ret (Break st1)
  else st2 <- rx_report st1 ;; ret (Continue st2).

(** The first [n] turns of [while True]. *)
Fixpoint receive_iters (n : nat) (st : RxState) : M Step :=
  match n with
  | O => ret (Continue st)
  | S k =>
      s <- receive_iter st ;;
      match s with
      | Break st' => ret (Break st')
      | Continue st' => receive_iters k st'
      end
  end.

(** Lines 46-64: [while True], looked at for [fuel] turns. *)
Definition receive_loop (fuel : nat) (st : RxState) : M RxState :=
  s <- receive_iters fuel st ;;
  match s with
  | Break st' => ret st'
  | Continue _ => running
  end.

(** Lines 66-70. *)
Definition rx_finish (st : RxState) : M unit :=
  try_except
    (let decoded_data := Utf8.decode_ignore (received_data st) in
     print (Text decoded_data))
    (fun _ => true)
    (fun e => print (ErrorDecoding e)).

Definition receive_data (fuel : nat) : M unit :=
  st0 <- rx_init ;;
  st <- receive_loop fuel st0 ;;
  rx_finish st.

End Program.

End Recv64.

(* ================================================================== *)
(** ** Reading a trace of the binary64 receiver *)

Module Obs64.
Import Env Env64.

(** The bytes handed over by the [ser.read(1)] calls, the earliest
    first. *)
Fixpoint rx_bytes (tr : Trace) : Py.bytes :=
  match tr with
  | [] => []
  | EvRead data :: older => rx_bytes older ++ data
  | _ :: older => rx_bytes older
  end.

(** Whether a byte has been received. *)
Definition got_byte (tr : Trace) : bool :=
  match rx_bytes tr with
  | [] => false
  | _ :: _ => true
  end.

(** The latest recorded inbound activity: the reading of line 41 at
    the start, of line 53 after a byte. *)
Fixpoint last_activity (tr : Trace) : option B64.float :=
  match tr with
  | [] => None
  | EvTime site t :: older =>
      if Obs.marks_activity site then Some t else last_activity older
  | _ :: older => last_activity older
  end.

(** The reading [t] is more than the threshold past the activity at
    [a], as line 54 computes it: the rounded difference exceeds
    [3.0]. *)
Definition elapsed_exceeds (t a : B64.float) : bool :=
  B64.ltb Recv64.TIMEOUT_THRESHOLD (B64.sub t a).

(** The inactivity test of line 54 reading [t] after the calls
    [older]: a byte was received, and the latest activity is more than
    the threshold in the past. *)
Definition timed_out_at (older : Trace) (t : B64.float) : Prop :=
  got_byte older = true /\
  exists a, last_activity older = Some a /\ elapsed_exceeds t a = true.

(** The readings of the inactivity test (line 54), the latest first. *)
Fixpoint checks (tr : Trace) : list B64.float :=
  match tr with
  | [] => []
  | EvTime L54 t :: older => t :: checks older
  | _ :: older => checks older
  end.

(** No inactivity test of the trace found the receiver timed out. *)
Fixpoint checks_passed (tr : Trace) : Prop :=
  match tr with
  | [] => True
  | EvTime L54 t :: older => ~ timed_out_at older t /\ checks_passed older
  | _ :: older => checks_passed older
  end.

(** The locals against the calls so far: the last activity is the
    reading that set it, the flag is up until a byte is read, and no
    inactivity test so far found the receiver timed out. *)
Record RxInv (st : Recv64.RxState) (seg : Trace) : Prop := mkRxInv {
  inv_activity : last_activity seg = Some (Recv64.last_activity_time st);
  inv_no_data : Recv64.no_data st = negb (got_byte seg);
  inv_checks : checks_passed seg
}.

(** The calls of lines 57-64: the clock readings and the report. *)
Definition report_call (ev : Event) : bool :=
  match ev with
  | EvTime (L57 | L58 | L63 | L64) _ => true
  | EvPrint (SpeedRx _) => true
  | _ => false
  end.

(** The calls of lines 47-53 when no byte is taken in. *)
Definition idle_call (ev : Event) : bool :=
  match ev with
  | EvInWaiting _ => true
  | EvRead [] => true
  | _ => false
  end.

(** How some turns of the loop ended, against the calls made: still
    going, with the locals in line with the calls; left, the last call
    being the inactivity test that found the receiver timed out; or
    ended by the [OverflowError] of line 60, no inactivity test having
    found the receiver timed out. *)
Definition RunInv (r : Result Recv64.Step) (seg : Trace) : Prop :=
  match r with
  | Ok (Recv64.Continue st) => RxInv st seg
  | Ok (Recv64.Break st) =>
      exists t older,
        seg = EvTime L54 t :: older /\ RxInv st older /\ timed_out_at older t
  | Raise e => e = OverflowError /\ checks_passed seg
  | Running => False
  end.

(** The count of the current interval can be converted for the
    division of line 60. *)
Definition count_converts (st : Recv64.RxState) : Prop :=
  B64.of_int (Recv64.total_received_bytes st * 8) <> None.

End Obs64.

(* ================================================================== *)
(** ** Scenarios with a binary64 clock *)

Module Scenarios64.
Import Env64.

(** The floats [0.1] and [3.1]: the binary64 numbers nearest to one
    tenth and to three and one tenth. *)
Definition tenth : B64.float :=
  SpecFloat.S754_finite false 7205759403792794 (-56).
Definition three_and_a_tenth : B64.float :=
  SpecFloat.S754_finite false 6980579422424269 (-51).

(** One byte delivered at time [0.0] in the first turn of the receive
    loop (the calls 4 to 8 of [receive_data]); from the second turn on
    the clock reads [3.0] and nothing more comes. *)
Definition one_byte_then_three : Script :=
  fun k =>
    mkReply (if (k <=? 8)%nat then B64.of_Z 0 else B64.of_Z 3)
            (if (k =? 4)%nat then 1 else 0)
            (if (k =? 5)%nat then Some x41 else None).

(** The same with the byte received at [0.1] and the clock at [3.1]
    afterwards. *)
Definition one_byte_then_late : Script :=
  fun k =>
    mkReply (if (k <=? 8)%nat then tenth else three_and_a_tenth)
            (if (k =? 4)%nat then 1 else 0)
            (if (k =? 5)%nat then Some x41 else None).

(** A silent port; the clock advances by one time unit per call up to
    20 and stays there. *)
Definition steady : Script :=
  fun k => mkReply (B64.of_Z (Z.of_nat (Nat.min k 20))) 0 None.

(** The locals of [receive_data] after one byte was received at time
    [0.0]. *)
Definition after_one_byte : Recv64.RxState :=
  Recv64.mkRx [x41] 1 (B64.of_Z 0) (B64.of_Z 0) (B64.of_Z 0) false.

End Scenarios64.

(* ================================================================== *)
(** ** Properties of bcount.py *)

Module BcountFacts.
Import Bcount.

Lemma count_cons (c x : N) (s : Py.str) :
  Py.count c (x :: s) = ((if N.eqb x c then 1 else 0) + Py.count c s)%Z.
Proof.
  unfold Py.count. simpl.
  destruct (N.eq_dec x c) as [->|Hne].
  - rewrite N.eqb_refl. lia.
  - apply N.eqb_neq in Hne. rewrite Hne. lia.
Qed.

Lemma popcount_shift (n : N) (k : nat) (b : bool) (m : N) :
  (forall i, N.testbit m (N.of_nat (S i)) = N.testbit n (N.of_nat i)) ->
  N.testbit m 0 = b ->
  List.length (filter (fun i => N.testbit m (N.of_nat i)) (seq 0 (S k))) =
  ((if b then 1 else 0) +
   List.length (filter (fun i => N.testbit n (N.of_nat i)) (seq 0 k)))%nat.
Proof.
  intros Hs H0. cbn [seq filter]. change (N.of_nat 0) with 0%N.
  rewrite H0, <- seq_shift.
  assert (E : forall l,
    List.length (filter (fun i => N.testbit m (N.of_nat i)) (map S l)) =
    List.length (filter (fun i => N.testbit n (N.of_nat i)) l)).
  { induction l as [|x l IH]; cbn [map filter]; [reflexivity|].
    rewrite Hs. destruct (N.testbit n (N.of_nat x)); cbn [List.length];
      now rewrite IH. }
  destruct b; cbn [List.length]; now rewrite E.
Qed.

Lemma popcount_xI (q : positive) :
  Py.popcount (Npos q~1) = (1 + Py.popcount (Npos q))%Z.
Proof.
  unfold Py.popcount. cbn [N.size Pos.size N.to_nat].
  rewrite Pos2Nat.inj_succ.
  rewrite (popcount_shift (Npos q) _ true); [lia| |reflexivity].
  intro i. replace (N.of_nat (S i)) with (N.succ (N.of_nat i)) by lia.
  change (N.pos q~1) with (N.succ_double (N.pos q)).
  rewrite N.succ_double_spec. apply N.testbit_odd_succ. lia.
Qed.

Lemma popcount_xO (q : positive) :
  Py.popcount (Npos q~0) = Py.popcount (Npos q).
Proof.
  unfold Py.popcount. cbn [N.size Pos.size N.to_nat].
  rewrite Pos2Nat.inj_succ.
  rewrite (popcount_shift (Npos q) _ false); [lia| |reflexivity].
  intro i. replace (N.of_nat (S i)) with (N.succ (N.of_nat i)) by lia.
  change (N.pos q~0) with (N.double (N.pos q)).
  rewrite N.double_spec. apply N.testbit_even_succ. lia.
Qed.

(** The digits produced for [p] on top of [acc]: ones. *)
Lemma pos_digits_ones (p : positive) : forall acc,
  Py.count 49%N (Py.pos_digits p acc) =
  (Py.popcount (Npos p) + Py.count 49%N acc)%Z.
Proof.
  induction p as [q IH|q IH|]; intro acc; cbn [Py.pos_digits].
  - rewrite IH, count_cons, popcount_xI. cbn [N.eqb Pos.eqb]. lia.
  - rewrite IH, count_cons, popcount_xO. cbn [N.eqb Pos.eqb]. lia.
  - rewrite count_cons. reflexivity.
Qed.

(** The digits produced for [p] on top of [acc]: how many there are. *)
Lemma pos_digits_length (p : positive) : forall acc,
  (Py.count 49%N (Py.pos_digits p acc) + Py.count 48%N (Py.pos_digits p acc) =
   Z.pos (Pos.size p) + (Py.count 49%N acc + Py.count 48%N acc))%Z.
Proof.
  induction p as [q IH|q IH|]; intro acc; cbn [Py.pos_digits Pos.size].
  - rewrite IH, !count_cons. cbn [N.eqb Pos.eqb]. lia.
  - rewrite IH, !count_cons. cbn [N.eqb Pos.eqb]. lia.
  - rewrite !count_cons. cbn [N.eqb Pos.eqb]. lia.
Qed.

Lemma char_ones_popcount (char : N) : char_ones char = Py.popcount char.
Proof.
  unfold char_ones. destruct char as [|p]; cbn [Py.bin skipn].
  - reflexivity.
  - rewrite pos_digits_ones. change (Py.count 49%N []) with 0%Z. lia.
Qed.

Lemma char_digits (char : N) :
  (char_ones char + char_zeros char)%Z =
  Z.of_N (N.max 1 (Py.bit_length char)).
Proof.
  unfold char_ones, char_zeros, Py.bit_length.
  destruct char as [|p].
  - reflexivity.
  - unfold Py.bin; cbn [skipn]. rewrite pos_digits_length.
    change (Py.count 49%N []) with 0%Z. change (Py.count 48%N []) with 0%Z.
    cbn [N.size]. lia.
Qed.

Lemma fold_loop_body (s : Py.str) : forall c,
  fold_left loop_body s c =
  {| ones_count := ones_count c + sumZ (map char_ones s);
     zeros_count := zeros_count c + sumZ (map char_zeros s);
     count := count c + Z.of_nat (List.length s) |}.
Proof.
  induction s as [|x s IH]; intro c.
  - simpl. destruct c; simpl. f_equal; lia.
  - simpl fold_left. rewrite IH. unfold loop_body, char_ones, char_zeros.
    simpl ones_count; simpl zeros_count; simpl count.
    simpl map. simpl sumZ. simpl List.length. f_equal; lia.
Qed.

Lemma sum_char_ones (s : Py.str) :
  sumZ (map char_ones s) = sumZ (map Py.popcount s).
Proof.
  induction s as [|c s IH]; [reflexivity|].
  cbn [map sumZ fold_right]. fold (sumZ (map char_ones s)).
  fold (sumZ (map Py.popcount s)). now rewrite IH, char_ones_popcount.
Qed.

Lemma sum_char_digits (s : Py.str) :
  (sumZ (map char_ones s) + sumZ (map char_zeros s) =
   sumZ (map (fun c => Z.of_N (N.max 1 (Py.bit_length c))) s))%Z.
Proof.
  induction s as [|c s IH]; [reflexivity|].
  cbn [map sumZ fold_right].
  fold (sumZ (map char_ones s)). fold (sumZ (map char_zeros s)).
  fold (sumZ (map (fun c => Z.of_N (N.max 1 (Py.bit_length c))) s)).
  pose proof (char_digits c). lia.
Qed.

(** C10, as stated, fails: the character of code point 0 has bit length
    0, and [bin(0)[2:]] is the one digit [0]: the paragraph made of this
    one character is counted with no one and one zero, so the ones and
    zeros it adds do not sum to the bit length of its code point. *)
Lemma nul_adds_one_digit :
  count_bits_in_paragraph [0%N] = (0, 1, 1)%Z /\
  Py.bit_length 0 = 0%N /\
  (0 + 1)%Z <> Z.of_N (Py.bit_length 0).
Proof. repeat split. discriminate. Qed.

(** C10, amended. [count_bits_in_paragraph(s)] returns [(ones, zeros, n)]
    with [n] the number of characters of [s] and [ones] the number of
    1-bits of their code points. Each character adds as many ones and
    zeros together as its code point has binary digits without leading
    zeros (its bit length, and the one digit [0] for the character of
    code point 0), so [zeros] is not the number of zero bits of an 8-bit
    encoding: the letter [A] (65, seven digits) gives 5 zeros, not 6. *)
Theorem count_bits_in_paragraph_spec (s : Py.str) :
  count_bits_in_paragraph s =
    (sumZ (map Py.popcount s),
     (sumZ (map (fun c => Z.of_N (N.max 1 (Py.bit_length c))) s)
      - sumZ (map Py.popcount s))%Z,
     Z.of_nat (List.length s)) /\
  count_bits_in_paragraph [65%N] = (2, 5, 1)%Z /\
  (5 =? 8 * 1 - 2)%Z = false.
Proof.
  split; [|split; reflexivity].
  unfold count_bits_in_paragraph at 1. rewrite fold_loop_body.
  cbn [ones_count zeros_count count].
  pose proof (sum_char_ones s) as H1. pose proof (sum_char_digits s) as H2.
  rewrite <- H1, <- H2, !Z.add_0_l.
  now replace (sumZ (map char_ones s) + sumZ (map char_zeros s)
               - sumZ (map char_ones s))%Z
    with (sumZ (map char_zeros s)) by lia.
Qed.

(** The example of lines 17-21, on the paragraph of line 17 (the same
    text as the payload of [send.py]): 3679 ones, 3194 zeros, and
    [count * 8 = 8072]. *)
Example count_bits_of_the_paragraph :
  count_bits_in_paragraph Send.DATA_TO_SEND = (3679, 3194, 1009)%Z /\
  (1009 * 8 = 8072)%Z.
Proof. split; vm_compute; reflexivity. Qed.

End BcountFacts.

(* ================================================================== *)
(** ** The monad *)

Module MonadFacts.
Import Env.

(** Sequencing, by the outcome of the first part. *)
Lemma bind_ok A B (m : M A) (k : A -> M B) tr a tr' :
  m tr = (Ok a, tr') -> bind m k tr = k a tr'.
Proof. unfold bind. now intros ->. Qed.

Lemma bind_raise A B (m : M A) (k : A -> M B) tr e tr' :
  m tr = (Raise e, tr') -> bind m k tr = (Raise e, tr').
Proof. unfold bind. now intros ->. Qed.

Lemma bind_running A B (m : M A) (k : A -> M B) tr tr' :
  m tr = (Running, tr') -> bind m k tr = (Running, tr').
Proof. unfold bind. now intros ->. Qed.

Lemma Qlt_bool_iff (a b : Q) : Qlt_bool a b = true <-> (a < b)%Q.
Proof.
  unfold Qlt_bool. rewrite negb_true_iff.
  split; intro H.
  - apply Qnot_le_lt. intro Hle. apply Qle_bool_iff in Hle. congruence.
  - destruct (Qle_bool b a) eqn:E; [|reflexivity].
    apply Qle_bool_iff in E. exfalso. exact (Qlt_not_le _ _ H E).
Qed.

End MonadFacts.

(* ================================================================== *)
(** ** The transmitter *)

Module SendFacts.
Import Env Send Obs MonadFacts.
Local Open Scope py_scope.

Lemma written_app (new old : Trace) :
  written (new ++ old) = written old ++ written new.
Proof.
  induction new as [|ev new IH]; simpl.
  - now rewrite app_nil_r.
  - destruct ev; try exact IH. now rewrite IH, app_assoc.
Qed.

Section Transmit.
Variable script : Script.

(** Draining the device's answer never raises, writes nothing, and
    makes transmitter calls only. *)
Lemma drain_response_spec (tr : Trace) :
  exists new,
    drain_response script tr = (Ok tt, new ++ tr) /\
    written new = [] /\
    Forall (fun ev => tx_event ev = true) new.
Proof.
  unfold drain_response, bind, ser_in_waiting.
  destruct (in_waiting (reply script tr) >? 0)%Z.
  - unfold try_except, bind, ser_readline.
    destruct (Utf8.strip (Utf8.decode_ignore
                (readline (reply script (EvInWaiting _ :: tr))))) as [|c text].
    + eexists [_; _]. simpl. repeat split; repeat constructor.
    + eexists [_; _; _]. simpl. repeat split; repeat constructor.
  - eexists [_]. simpl. repeat split; repeat constructor.
Qed.

(** Whatever the loop's outcome, it makes transmitter calls only. *)
Lemma send_loop_events (len : Z) (chars : Py.str) :
  forall count st tr r tr',
    send_loop script len count chars st tr = (r, tr') ->
    exists new, tr' = new ++ tr /\ Forall (fun ev => tx_event ev = true) new.
Proof.
  induction chars as [|char rest IH]; intros count st tr r tr' H.
  - inversion H. exists []. split; [reflexivity|constructor].
  - cbn [send_loop] in H. unfold bind at 1 in H. unfold encode_utf8 in H.
    destruct (Utf8.encode_char char) as [data|]; cbn in H.
    2:{ inversion H. exists []. split; [reflexivity|constructor]. }
    unfold bind at 1 in H. unfold ser_write in H.
    destruct (write_fails (reply script tr)).
    { inversion H. exists [EvWrite data false]. split; [reflexivity|].
      repeat constructor. }
    unfold bind at 1 in H.
    set (tr1 := EvWrite data true :: tr) in *.
    assert (Hs : exists tr2 news,
      (if (count =? len - 1)%Z then time_sleep 1 else ret tt) tr1 = (Ok tt, tr2)
      /\ tr2 = news ++ tr1 /\ Forall (fun ev => tx_event ev = true) news).
    { destruct (count =? len - 1)%Z.
      - exists (EvSleep 1 :: tr1), [EvSleep 1]. repeat split. repeat constructor.
      - exists tr1, []. repeat split. constructor. }
    destruct Hs as (tr2 & news & Es & -> & Fs). rewrite Es in H.
    unfold bind at 1 in H.
    destruct (drain_response_spec (news ++ tr1)) as (newd & Ed & _ & Fd).
    rewrite Ed in H.
    apply IH in H. destruct H as (new & -> & Fn).
    exists (new ++ newd ++ news ++ [EvWrite data true]). split.
    + unfold tr1. now rewrite <- !app_assoc.
    + rewrite !Forall_app. repeat split; auto.
Qed.

(** With a port that takes every write and a payload that can be
    encoded, the loop goes through all the characters: it counts one
    per character and writes their encodings in order. *)
Lemma send_loop_ok (len : Z) (chars : Py.str) :
  (forall k, write_fails (script k) = false) ->
  forall enc, Utf8.encode chars = Some enc ->
  forall count st tr,
  exists new,
    send_loop script len count chars st tr =
      (Ok {| chara := chara st ++ chars;
             sent_bytes := sent_bytes st + Z.of_nat (List.length chars) |},
       new ++ tr) /\
    List.concat (written new) = enc /\
    List.length (written new) = List.length chars.
Proof.
  intro Hw. induction chars as [|char rest IH]; intros enc He count st tr.
  - exists []. simpl in He. inversion He. simpl.
    rewrite app_nil_r, Z.add_0_r. destruct st; auto.
  - simpl in He. destruct (Utf8.encode_char char) as [data|] eqn:Ec; [|discriminate].
    destruct (Utf8.encode rest) as [enc'|] eqn:Er; [|discriminate].
    inversion He; subst enc.
    cbn [send_loop]. unfold bind at 1. unfold encode_utf8. rewrite Ec. cbn.
    unfold bind at 1. unfold ser_write, reply. rewrite Hw.
    unfold bind at 1.
    set (tr1 := EvWrite data true :: tr).
    assert (Hs : exists news,
      (if (count =? len - 1)%Z then time_sleep 1 else ret tt) tr1
        = (Ok tt, news ++ tr1) /\ written news = []).
    { destruct (count =? len - 1)%Z.
      - exists [EvSleep 1]. split; reflexivity.
      - exists []. split; reflexivity. }
    destruct Hs as (news & Es & Ws). rewrite Es.
    unfold bind at 1.
    destruct (drain_response_spec (news ++ tr1)) as (newd & Ed & Wd & _).
    rewrite Ed.
    destruct (IH enc' eq_refl (count + 1)%Z
                {| chara := chara st ++ [char];
                   sent_bytes := sent_bytes st + 1 |}
                (newd ++ news ++ tr1)) as (new & En & Wn & Ln).
    rewrite En. cbn [chara sent_bytes].
    exists (new ++ newd ++ news ++ [EvWrite data true]). repeat split.
    + f_equal.
      * f_equal. f_equal.
        -- now rewrite <- app_assoc.
        -- cbn [List.length]. lia.
      * unfold tr1. now rewrite <- !app_assoc.
    + rewrite !written_app, Ws, Wd. cbn [written app List.concat].
      now rewrite Wn.
    + rewrite !written_app, Ws, Wd. cbn [written app List.length].
      now rewrite Ln.
Qed.

End Transmit.

End SendFacts.

(* ================================================================== *)
(** ** The receiver, one block at a time *)

Module ReceiveSteps.
Import Env Send Obs MonadFacts.
Local Open Scope py_scope.

Section Blocks.
Variable script : Script.

(** Lines 38-45 make four calls and start from an empty buffer. *)
Lemma rx_init_spec (tr : Trace) :
  exists t40 t41 t42,
    rx_init script tr =
      (Ok (mkRx [] 0 t40 t41 t42 true),
       [EvPrint (Text (Py.lit "Waiting for responses from MCU..."));
        EvTime L42 t42; EvTime L41 t41; EvTime L40 t40] ++ tr) /\
    t40 = time_now (script (List.length tr)) /\
    t42 = time_now (script (2 + List.length tr)).
Proof.
  do 3 eexists. split; [reflexivity|]. split; reflexivity.
Qed.

(** Lines 47-53: either nothing is taken in, or one byte is, with the
    time of line 53 as the new last activity. *)
Lemma rx_poll_spec (st : RxState) (tr : Trace) :
  (exists new,
     rx_poll script st tr = (Ok st, new ++ tr) /\
     (exists n, new = [EvInWaiting n] \/ new = [EvRead []; EvInWaiting n]))
  \/
  (exists n b t,
     rx_poll script st tr =
       (Ok (mkRx (received_data st ++ [b]) (total_received_bytes st + 1)
                 (start_receive_time st) t (last_report_time st) false),
        [EvTime L53 t; EvRead [b]; EvInWaiting n] ++ tr) /\
     read1 (script (S (List.length tr))) = Some b).
Proof.
  unfold rx_poll, bind, ser_in_waiting.
  destruct (in_waiting (reply script tr) >? 0)%Z.
  - unfold ser_read1, time_time, ret, reply. cbn [List.length].
    destruct (read1 (script (S (List.length tr)))) as [b|] eqn:Er.
    + right. do 3 eexists. split; reflexivity.
    + left. eexists. split; [|eexists; right; reflexivity]. reflexivity.
  - left. eexists. split; [|eexists; left; reflexivity]. reflexivity.
Qed.

(** Line 54: one clock reading; the test holds exactly when a byte was
    received and the reading is more than the threshold past the last
    activity. *)
Lemma rx_timed_out_spec (st : RxState) (tr : Trace) :
  exists t stop,
    rx_timed_out script st tr = (Ok stop, EvTime L54 t :: tr) /\
    t = time_now (script (List.length tr)) /\
    (stop = true <->
     no_data st = false /\ (3 < t - last_activity_time st)%Q).
Proof.
  unfold rx_timed_out, bind, time_time, ret, reply.
  do 2 eexists. split; [reflexivity|]. split; [reflexivity|].
  rewrite andb_true_iff, Qlt_bool_iff. unfold TIMEOUT_THRESHOLD.
  destruct (no_data st); simpl; intuition congruence.
Qed.

(** Lines 57-64: the block never raises. Either the report is not due
    and nothing changes, or it is due: the speed is printed when the
    time since the interval started is positive, and the counter and
    the two times are set anew. *)
Lemma rx_report_spec (st : RxState) (tr : Trace) :
  (exists t57,
     rx_report script st tr = (Ok st, [EvTime L57 t57] ++ tr) /\
     t57 = time_now (script (List.length tr)) /\
     ~ (1 <= t57 - last_report_time st)%Q)
  \/
  (exists t57 t58 t63 t64 out,
     rx_report script st tr =
       (Ok (mkRx (received_data st) 0 t63 (last_activity_time st) t64
                 (no_data st)),
        [EvTime L64 t64; EvTime L63 t63] ++ out
          ++ [EvTime L58 t58; EvTime L57 t57] ++ tr) /\
     (t57 = time_now (script (List.length tr)) /\
      t63 = time_now (script (List.length out + (2 + List.length tr))) /\
      t64 = time_now (script (S (List.length out + (2 + List.length tr)))) /\
      (1 <= t57 - last_report_time st)%Q) /\
     t58 = time_now (script (S (List.length tr))) /\
     ((out = [] /\ ~ (0 < t58 - start_receive_time st)%Q) \/
      (out = [EvPrint (SpeedRx
                (inject_Z (total_received_bytes st * 8)
                 / (t58 - start_receive_time st)))] /\
       (0 < t58 - start_receive_time st)%Q))).
Proof.
  unfold rx_report, bind, time_time, py_div, print, ret, raise, reply.
  cbv beta. cbn [List.length].
  set (t57 := time_now (script (List.length tr))).
  destruct (Qle_bool 1 (t57 - last_report_time st)) eqn:Edue.
  - right. apply Qle_bool_iff in Edue.
    cbv beta iota. cbn [List.length].
    set (t58 := time_now (script (S (List.length tr)))).
    destruct (Qlt_bool 0 (t58 - start_receive_time st)) eqn:Epos.
    + apply Qlt_bool_iff in Epos.
      destruct (Qeq_bool (t58 - start_receive_time st) 0) eqn:Ez.
      { apply Qeq_bool_iff in Ez. rewrite Ez in Epos.
        exfalso. exact (Qlt_irrefl 0 Epos). }
      cbv beta iota. cbn [List.length].
      exists t57, t58. do 2 eexists.
      exists [EvPrint (SpeedRx (inject_Z (total_received_bytes st * 8)
                                / (t58 - start_receive_time st)))].
      split; [reflexivity|].
      split; [repeat split; exact Edue|].
      split; [reflexivity|]. right. split; [reflexivity|exact Epos].
    + cbv beta iota. cbn [List.length].
      exists t57, t58. do 2 eexists. exists [].
      split; [reflexivity|].
      split; [repeat split; exact Edue|].
      split; [reflexivity|]. left. split; [reflexivity|].
      intro H. apply Qlt_bool_iff in H. congruence.
  - left. eexists. split; [reflexivity|]. split; [reflexivity|].
    intro H. apply Qle_bool_iff in H. congruence.
Qed.

End Blocks.

End ReceiveSteps.

(* ================================================================== *)
(** ** The receiver's loop against its trace *)

Module ReceiveLoop.
Import Env Send Obs MonadFacts ReceiveSteps.
Local Open Scope py_scope.

(** Two lists the same up to the bracketing of their appends. *)
Ltac same_list :=
  cbn [app];
  repeat (rewrite <- app_assoc || rewrite <- app_comm_cons);
  reflexivity.

Lemma got_byte_snoc (seg : Trace) (b : byte) (n : Z) (t : Q) (site : Site) :
  got_byte (EvTime site t :: EvRead [b] :: EvInWaiting n :: seg) = true.
Proof.
  unfold got_byte. cbn [rx_bytes].
  destruct (rx_bytes seg); reflexivity.
Qed.

Section Loop.
Variable script : Script.

Lemma rx_init_inv (tr0 : Trace) :
  exists st seg,
    rx_init script tr0 = (Ok st, seg ++ tr0) /\ RxInv st seg /\
    received_data st = [] /\ total_received_bytes st = 0%Z.
Proof.
  destruct (rx_init_spec script tr0) as (t40 & t41 & t42 & E & _).
  do 2 eexists. split; [exact E|]. split; [|split; reflexivity].
  constructor; try reflexivity; cbn; auto.
Qed.

Lemma rx_poll_inv (st : RxState) (seg tr0 : Trace) :
  RxInv st seg ->
  exists st' new,
    rx_poll script st (seg ++ tr0) = (Ok st', new ++ seg ++ tr0) /\
    RxInv st' (new ++ seg).
Proof.
  intros [Id It Is Ia In Ir Ic Ie].
  destruct (rx_poll_spec script st (seg ++ tr0))
    as [(new & E & n & [->| ->])|(n & b & t & E & _)].
  - exists st, [EvInWaiting n]. split; [exact E|].
    constructor; cbn; auto.
  - exists st, [EvRead []; EvInWaiting n]. split; [exact E|].
    constructor; cbn; auto.
    + now rewrite app_nil_r.
    + unfold interval_bytes. cbn. now rewrite app_nil_r.
    + unfold got_byte. cbn. now rewrite app_nil_r.
  - do 2 eexists. split; [exact E|].
    constructor; cbn [received_data total_received_bytes start_receive_time
                      last_activity_time no_data app].
    + cbn. now rewrite Id.
    + unfold interval_bytes. cbn.
      rewrite length_app. cbn. rewrite It. unfold interval_bytes. lia.
    + cbn. exact Is.
    + reflexivity.
    + now rewrite got_byte_snoc.
    + cbn. exact Ir.
    + cbn. exact Ic.
    + repeat constructor. exact Ie.
Qed.

Lemma rx_report_inv (st : RxState) (seg tr0 : Trace) :
  RxInv st seg ->
  exists st' new,
    rx_report script st (seg ++ tr0) = (Ok st', new ++ seg ++ tr0) /\
    RxInv st' (new ++ seg).
Proof.
  intros [Id It Is Ia In Ir Ic Ie].
  destruct (rx_report_spec script st (seg ++ tr0))
    as [(t57 & E & _)
       |(t57 & t58 & t63 & t64 & out & E & _ & _ & [[-> _]|[-> Hpos]])].
  - exists st, [EvTime L57 t57]. split; [exact E|].
    constructor; cbn; auto.
  - eexists.
    exists [EvTime L64 t64; EvTime L63 t63; EvTime L58 t58; EvTime L57 t57].
    split; [exact E|].
    constructor; cbn; auto.
  - eexists.
    exists [EvTime L64 t64; EvTime L63 t63;
            EvPrint (SpeedRx (inject_Z (total_received_bytes st * 8)
                              / (t58 - start_receive_time st)));
            EvTime L58 t58; EvTime L57 t57].
    split; [exact E|].
    constructor; cbn [app]; auto.
    + split; [|exact Ir].
      exists t58, (EvTime L57 t57 :: seg), (start_receive_time st).
      split; [reflexivity|]. split; [exact Is|].
      split; [exact Hpos|].
      change (interval_bytes (EvTime L57 t57 :: seg)) with (interval_bytes seg).
      rewrite It. reflexivity.
    + repeat constructor. exact Ie.
Qed.

(** With the locals in step with the trace, the test of line 54 holds
    exactly when the trace says the receiver is timed out. *)
Lemma rx_timed_out_inv (st : RxState) (seg tr0 : Trace) :
  RxInv st seg ->
  exists t stop,
    rx_timed_out script st (seg ++ tr0) = (Ok stop, EvTime L54 t :: seg ++ tr0)
    /\ (stop = true <-> timed_out_at seg t).
Proof.
  intros [Id It Is Ia In Ir Ic Ie].
  destruct (rx_timed_out_spec script st (seg ++ tr0)) as (t & stop & E & _ & H).
  exists t, stop. split; [exact E|].
  rewrite H. unfold timed_out_at. rewrite In, Ia. split.
  - intros [Hn Ht]. split.
    + now destruct (got_byte seg).
    + eexists. split; [reflexivity|exact Ht].
  - intros [Hg (a & Ea & Ht)]. inversion Ea; subst a.
    rewrite Hg. split; [reflexivity|exact Ht].
Qed.

(** One turn of the loop never raises and keeps the locals in step
    with the trace. *)
Lemma receive_iter_inv (st : RxState) (seg tr0 : Trace) :
  RxInv st seg ->
  exists s new,
    receive_iter script st (seg ++ tr0) = (Ok s, new ++ seg ++ tr0) /\
    new <> [] /\
    StepInv s (new ++ seg).
Proof.
  intro I. unfold receive_iter.
  destruct (rx_poll_inv st seg tr0 I) as (st1 & new1 & E1 & I1).
  rewrite (bind_ok _ _ _ _ _ _ _ E1). rewrite app_assoc.
  destruct (rx_timed_out_inv st1 (new1 ++ seg) tr0 I1) as (t & stop & E2 & H2).
  rewrite (bind_ok _ _ _ _ _ _ _ E2).
  destruct stop.
  - exists (Break st1), (EvTime L54 t :: new1). split; [|split].
    + unfold ret. now rewrite <- app_assoc.
    + discriminate.
    + cbn [StepInv app]. exists t, (new1 ++ seg).
      split; [reflexivity|]. split; [exact I1|]. apply H2. reflexivity.
  - assert (I2 : RxInv st1 (EvTime L54 t :: new1 ++ seg)).
    { destruct I1 as [Id It Is Ia In Ir Ic Ie]. constructor; cbn; auto.
      split; [|exact Ic]. intro Hto. apply H2 in Hto. discriminate. }
    change (EvTime L54 t :: (new1 ++ seg) ++ tr0)
      with ((EvTime L54 t :: new1 ++ seg) ++ tr0).
    destruct (rx_report_inv st1 (EvTime L54 t :: new1 ++ seg) tr0 I2) as (st2 & new2 & E3 & I3).
    rewrite (bind_ok _ _ _ _ _ _ _ E3).
    exists (Continue st2), (new2 ++ EvTime L54 t :: new1). split; [|split].
    + unfold ret. f_equal. same_list.
    + destruct new2; discriminate.
    + cbn [StepInv].
      replace ((new2 ++ EvTime L54 t :: new1) ++ seg)
        with (new2 ++ EvTime L54 t :: new1 ++ seg) by same_list.
      exact I3.
Qed.

(** Any number of turns of the loop: no exception, and the locals in
    step with the trace. *)
Lemma receive_iters_inv (n : nat) : forall (st : RxState) (seg tr0 : Trace),
  RxInv st seg ->
  exists s new,
    receive_iters script n st (seg ++ tr0) = (Ok s, new ++ seg ++ tr0) /\
    StepInv s (new ++ seg).
Proof.
  induction n as [|n IH]; intros st seg tr0 I.
  - exists (Continue st), []. split; [reflexivity|exact I].
  - cbn [receive_iters].
    destruct (receive_iter_inv st seg tr0 I) as (s & new & E & _ & Is).
    rewrite (bind_ok _ _ _ _ _ _ _ E).
    destruct s as [st'|st'].
    + cbn [StepInv] in Is. rewrite app_assoc.
      destruct (IH st' (new ++ seg) tr0 Is) as (s2 & new2 & E2 & I2).
      exists s2, (new2 ++ new). split.
      * rewrite E2. f_equal. now rewrite <- !app_assoc.
      * now rewrite <- app_assoc.
    + exists (Break st'), new. split; [reflexivity|exact Is].
Qed.

(** The receive phase from its first line, for any number of turns. *)
Lemma receive_run_inv (n : nat) (tr0 : Trace) :
  exists s seg,
    (st0 <- rx_init script ;; receive_iters script n st0) tr0
      = (Ok s, seg ++ tr0) /\
    StepInv s seg.
Proof.
  destruct (rx_init_inv tr0) as (st0 & seg0 & E0 & I0 & _).
  rewrite (bind_ok _ _ _ _ _ _ _ E0).
  destruct (receive_iters_inv n st0 seg0 tr0 I0) as (s & new & E & Is).
  exists s, (new ++ seg0). split; [|exact Is].
  rewrite E. f_equal. now rewrite <- app_assoc.
Qed.

End Loop.

End ReceiveLoop.

(* ================================================================== *)
(** ** The session: transmitter results *)

Module SessionFacts.
Import Env Send Obs MonadFacts SendFacts ReceiveSteps ReceiveLoop.
Local Open Scope py_scope.

Lemma tx_not_rx_only (ev : Event) : tx_event ev = true -> rx_only ev = false.
Proof. destruct ev as [| | | | | |[]|]; simpl; congruence. Qed.

Lemma tx_not_close (ev : Event) : tx_event ev = true -> is_close ev = false.
Proof. destruct ev as [| | | | | |[]|]; simpl; congruence. Qed.

Lemma rx_not_close (ev : Event) : rx_event ev = true -> is_close ev = false.
Proof. destruct ev; simpl; congruence. Qed.

(** Whatever its outcome, [send_data] makes transmitter calls only. *)
Lemma send_data_events (script : Script) (P : Py.str) (tr : Trace) r tr' :
  send_data script P tr = (r, tr') ->
  exists new, tr' = new ++ tr /\ Forall (fun ev => tx_event ev = true) new.
Proof.
  unfold send_data. unfold bind at 1. unfold print at 1.
  set (started := EvPrint (Text (Py.lit "Sending data to MCU..."))).
  set (tr1 := started :: tr). unfold bind at 1.
  destruct (send_loop script (Z.of_nat (List.length P)) 0 P
              {| chara := []; sent_bytes := 0 |} tr1) as [r1 tr2] eqn:El.
  apply send_loop_events in El. destruct El as (new & -> & Fn).
  assert (F1 : Forall (fun ev => tx_event ev = true) (new ++ [started])).
  { apply Forall_app. split; [exact Fn|]. repeat constructor. }
  destruct r1 as [st|e|]; cbn; intro H; inversion H; subst.
  - exists (EvPrint (Text (Py.lit
              "All data sent. Ready to receive data from MCU..." ++ [10%N]))
            :: new ++ [started]).
    split; [unfold tr1; same_list|]. constructor; [reflexivity|exact F1].
  - exists (new ++ [started]). split; [unfold tr1; same_list|exact F1].
  - exists (new ++ [started]). split; [unfold tr1; same_list|exact F1].
Qed.

(** The receive phase never raises: it returns, or it is still in its
    loop; and it makes receiver calls only. *)
Lemma receive_data_result (script : Script) (fuel : nat) (tr : Trace) :
  exists r seg,
    receive_data script fuel tr = (r, seg ++ tr) /\
    (r = Ok tt \/ r = Running) /\
    Forall (fun ev => rx_event ev = true) seg.
Proof.
  unfold receive_data.
  destruct (rx_init_inv script tr) as (st0 & seg0 & E0 & I0 & _).
  rewrite (bind_ok _ _ _ _ _ _ _ E0).
  destruct (receive_iters_inv script fuel st0 seg0 tr I0) as (s & new & E & Is).
  unfold receive_loop. unfold bind at 1. unfold bind at 1. rewrite E.
  destruct s as [st|st]; cbn [StepInv] in Is.
  - exists Running, (new ++ seg0). split; [|split].
    + unfold running. f_equal. same_list.
    + now right.
    + apply Is.
  - destruct Is as (t & older & Eo & Io & _).
    exists (Ok tt), (EvPrint (Text (Utf8.decode_ignore (received_data st)))
                     :: new ++ seg0).
    split; [|split].
    + unfold ret, rx_finish, try_except, print. f_equal. same_list.
    + now left.
    + constructor; [reflexivity|]. rewrite Eo. constructor; [reflexivity|].
      apply Io.
Qed.

(** A payload of ASCII characters is one byte per character on the
    wire. *)
Lemma encode_ascii (P : Py.str) :
  Forall (fun c => (c < 128)%N) P ->
  Utf8.encode P = Some (map Utf8.byte_of_N P).
Proof.
  induction 1 as [|c P Hc _ IH]; [reflexivity|].
  cbn [Utf8.encode map]. rewrite IH. unfold Utf8.encode_char.
  apply N.ltb_lt in Hc. now rewrite Hc.
Qed.

(** C1. For every payload [P] (a [str] that can be encoded, on a port
    that takes every write), [send_data] returns [len(P)], makes one
    [ser.write] call per character, and the payloads of these calls, one
    after the other in the order of the calls, are exactly the UTF-8
    bytes of [P]. The count is kept per character written; for a payload
    of ASCII characters, as the one of the source, it is also the number
    of bytes on the wire. *)
Theorem send_data_writes_payload
    (script : Script) (P : Py.str) (enc : Py.bytes) (tr : Trace) :
  (forall k, write_fails (script k) = false) ->
  Utf8.encode P = Some enc ->
  exists new,
    send_data script P tr = (Ok (Z.of_nat (List.length P)), new ++ tr) /\
    List.concat (written new) = enc /\
    List.length (written new) = List.length P /\
    (Forall (fun c => (c < 128)%N) P ->
     enc = map Utf8.byte_of_N P /\ List.length enc = List.length P).
Proof.
  intros Hw He.
  unfold send_data. unfold bind at 1. unfold print at 1.
  set (started := EvPrint (Text (Py.lit "Sending data to MCU..."))).
  set (tr1 := started :: tr). unfold bind at 1.
  destruct (send_loop_ok script (Z.of_nat (List.length P)) P Hw enc He 0%Z
              {| chara := []; sent_bytes := 0 |} tr1) as (new & El & Wn & Ln).
  rewrite El. cbn [sent_bytes chara].
  exists (EvPrint (Text (Py.lit
            "All data sent. Ready to receive data from MCU..." ++ [10%N]))
          :: new ++ [started]).
  split; [|split; [|split]].
  - unfold bind, print, ret. f_equal. unfold tr1. same_list.
  - cbn [written]. rewrite written_app. cbn [written app]. exact Wn.
  - cbn [written]. rewrite written_app. cbn [written app]. exact Ln.
  - intro Ha. rewrite (encode_ascii P Ha) in He. inversion He.
    split; [reflexivity|apply length_map].
Qed.

Lemma send_data_writes_payload_witness :
  (forall k, write_fails (Scenarios.steady k) = false) /\
  Utf8.encode (Py.lit "AB") = Some [x41; x42] /\
  exists new,
    send_data Scenarios.steady (Py.lit "AB") [] =
      (Ok (Z.of_nat (List.length (Py.lit "AB"))), new ++ []) /\
    List.concat (written new) = [x41; x42] /\
    List.length (written new) = List.length (Py.lit "AB") /\
    (Forall (fun c => (c < 128)%N) (Py.lit "AB") ->
     [x41; x42] = map Utf8.byte_of_N (Py.lit "AB") /\
     List.length [x41; x42] = List.length (Py.lit "AB")).
Proof.
  split; [reflexivity|]. split; [reflexivity|].
  apply (send_data_writes_payload Scenarios.steady (Py.lit "AB")
           [x41; x42] []); reflexivity.
Defined.

(** The payload of the source on a port that takes every write: 1009
    characters, 1009 write calls, 1009 bytes. *)
Example send_data_source_payload :
  fst (send_data Scenarios.steady DATA_TO_SEND []) = Ok 1009%Z /\
  List.concat (written (snd (send_data Scenarios.steady DATA_TO_SEND [])))
    = map Utf8.byte_of_N DATA_TO_SEND.
Proof. split; vm_compute; reflexivity. Qed.

(** C5. When the transmitter fails, the session fails with the same
    exception right there: its calls are those of the failed send, and
    among them there is no [ser.read(1)], no clock reading and no
    throughput report. The receiver is not entered. *)
Theorem failed_send_skips_receive
    (script : Script) (P : Py.str) (fuel : nat) (tr : Trace)
    (e : Exn) (tr' : Trace) :
  send_data script P tr = (Raise e, tr') ->
  main script P fuel tr = (Raise e, tr') /\
  exists new,
    tr' = new ++ tr /\ Forall (fun ev => rx_only ev = false) new.
Proof.
  intro H. split.
  - unfold main. now rewrite (bind_raise _ _ _ _ _ _ _ H).
  - apply send_data_events in H. destruct H as (new & -> & F).
    exists new. split; [reflexivity|].
    eapply Forall_impl; [|exact F]. apply tx_not_rx_only.
Qed.

Lemma failed_send_skips_receive_witness :
  send_data Scenarios.broken_port (Py.lit "AB") [] =
    (Raise SerialException,
     [EvWrite [x41] false; EvPrint (Text (Py.lit "Sending data to MCU..."))])
  /\
  (main Scenarios.broken_port (Py.lit "AB") 5 [] =
     (Raise SerialException,
      [EvWrite [x41] false; EvPrint (Text (Py.lit "Sending data to MCU..."))])
   /\
   exists new,
     [EvWrite [x41] false; EvPrint (Text (Py.lit "Sending data to MCU..."))]
       = new ++ [] /\
     Forall (fun ev => rx_only ev = false) new).
Proof.
  split; [reflexivity|].
  apply (failed_send_skips_receive Scenarios.broken_port (Py.lit "AB") 5 []
           SerialException).
  reflexivity.
Defined.

(** C4, as stated, fails: on a port whose write fails the session ends
    with the exception, and no [ser.close()] was called. *)
Lemma write_failure_leaves_port_open :
  fst (main Scenarios.broken_port (Py.lit "AB") 5 []) = Raise SerialException
  /\
  existsb is_close (snd (main Scenarios.broken_port (Py.lit "AB") 5 []))
    = false.
Proof. split; reflexivity. Qed.

(** A session that completes: the payload [AB] is sent, the device
    answers with one byte, the receiver times out and prints it, and the
    port is closed last. *)
Example session_completes_and_closes :
  fst (main Scenarios.answer_after_send (Py.lit "AB") 3 []) = Ok tt /\
  firstn 2 (snd (main Scenarios.answer_after_send (Py.lit "AB") 3 []))
    = [EvClose; EvPrint (Text [65%N])] /\
  written (snd (main Scenarios.answer_after_send (Py.lit "AB") 3 []))
    = [[x41]; [x42]].
Proof. repeat split; vm_compute; reflexivity. Qed.

(** C4, amended. When the session completes, [ser.close()] is its last
    call. When it ends with an exception, the exception is the
    transmitter's, it leaves the session as it is, and the session has
    made no [ser.close()] call. While the receiver is in its loop, no
    [ser.close()] call has been made either. *)
Theorem close_only_on_completion
    (script : Script) (P : Py.str) (fuel : nat) (tr : Trace) :
  exists r new,
    main script P fuel tr = (r, new ++ tr) /\
    match r with
    | Ok _ => exists before, new = EvClose :: before
    | Raise e =>
        send_data script P tr = (Raise e, new ++ tr) /\
        Forall (fun ev => is_close ev = false) new
    | Running => Forall (fun ev => is_close ev = false) new
    end.
Proof.
  unfold main.
  destruct (send_data script P tr) as [r1 tr1] eqn:Es.
  destruct (send_data_events _ _ _ _ _ Es) as (tx & -> & Ftx).
  assert (Ctx : Forall (fun ev => is_close ev = false) tx).
  { eapply Forall_impl; [|exact Ftx]. apply tx_not_close. }
  destruct r1 as [k|e|].
  - rewrite (bind_ok _ _ _ _ _ _ _ Es).
    destruct (receive_data_result script fuel (tx ++ tr))
      as (r2 & seg & Er & Hr & Frx).
    assert (Crx : Forall (fun ev => is_close ev = false) seg).
    { eapply Forall_impl; [|exact Frx]. apply rx_not_close. }
    destruct Hr as [-> | ->].
    + rewrite (bind_ok _ _ _ _ _ _ _ Er).
      exists (Ok tt), (EvClose :: seg ++ tx). split.
      * unfold ser_close. f_equal. same_list.
      * eexists. reflexivity.
    + rewrite (bind_running _ _ _ _ _ _ Er).
      exists Running, (seg ++ tx). split.
      * f_equal. same_list.
      * apply Forall_app. split; assumption.
  - rewrite (bind_raise _ _ _ _ _ _ _ Es).
    exists (Raise e), tx. split; [reflexivity|]. split; [reflexivity|exact Ctx].
  - rewrite (bind_running _ _ _ _ _ _ Es).
    exists Running, tx. split; [reflexivity|exact Ctx].
Qed.

End SessionFacts.

(* ================================================================== *)
(** ** The receiver: leaving the loop *)

Module TimeoutFacts.
Import Env Send Obs MonadFacts ReceiveSteps ReceiveLoop.
Local Open Scope py_scope.

Section Silent.
Variable script : Script.

(** With nothing to read from some call on, polling changes nothing. *)
Lemma rx_poll_silent (st : RxState) (tr : Trace) :
  (forall k, (List.length tr <= k)%nat -> read1 (script k) = None) ->
  exists new,
    rx_poll script st tr = (Ok st, new ++ tr) /\ checks new = [].
Proof.
  intro Hs.
  destruct (rx_poll_spec script st tr)
    as [(new & E & n & [->| ->])|(n & b & t & _ & Er)].
  - eexists. split; [exact E|reflexivity].
  - eexists. split; [exact E|reflexivity].
  - rewrite Hs in Er by lia. discriminate.
Qed.

(** The report block leaves the flag and the last activity alone, and
    makes no inactivity test. *)
Lemma rx_report_keeps (st : RxState) (tr : Trace) :
  exists st' new,
    rx_report script st tr = (Ok st', new ++ tr) /\
    no_data st' = no_data st /\
    last_activity_time st' = last_activity_time st /\
    received_data st' = received_data st /\
    checks new = [] /\ new <> [].
Proof.
  destruct (rx_report_spec script st tr)
    as [(t57 & E & _)
       |(t57 & t58 & t63 & t64 & out & E & _ & _ & [[-> _]|[-> _]])].
  - exists st, [EvTime L57 t57]. repeat split; auto. discriminate.
  - eexists.
    exists [EvTime L64 t64; EvTime L63 t63; EvTime L58 t58; EvTime L57 t57].
    split; [exact E|]. repeat split. discriminate.
  - eexists.
    exists [EvTime L64 t64; EvTime L63 t63;
            EvPrint (SpeedRx (inject_Z (total_received_bytes st * 8)
                              / (t58 - start_receive_time st)));
            EvTime L58 t58; EvTime L57 t57].
    split; [exact E|]. repeat split. discriminate.
Qed.

Lemma checks_app (new old : Trace) : checks (new ++ old) = checks new ++ checks old.
Proof.
  induction new as [|ev new IH]; [reflexivity|].
  destruct ev as [| | | |site t| | |]; cbn [app checks]; try exact IH.
  destruct site; cbn; rewrite ?IH; reflexivity.
Qed.

(** One turn with nothing to read: the loop is left exactly when a byte
    was received earlier and the reading of line 54 is more than 3 past
    the last activity; otherwise the turn ends with the flag, the buffer
    and the last activity as they were. *)
Lemma receive_iter_silent (st : RxState) (tr : Trace) :
  (forall k, (List.length tr <= k)%nat -> read1 (script k) = None) ->
  exists t new s,
    receive_iter script st tr = (Ok s, new ++ tr) /\
    checks new = [t] /\
    (exists k, (List.length tr <= k)%nat /\ t = time_now (script k)) /\
    new <> [] /\
    no_data (step_state s) = no_data st /\
    last_activity_time (step_state s) = last_activity_time st /\
    received_data (step_state s) = received_data st /\
    ((exists st', s = Break st') <->
     no_data st = false /\ (3 < t - last_activity_time st)%Q).
Proof.
  intro Hs. unfold receive_iter.
  destruct (rx_poll_silent st tr Hs) as (new1 & E1 & C1).
  rewrite (bind_ok _ _ _ _ _ _ _ E1).
  destruct (rx_timed_out_spec script st (new1 ++ tr)) as (t & stop & E2 & Et & H2).
  rewrite (bind_ok _ _ _ _ _ _ _ E2).
  assert (Hk : exists k, (List.length tr <= k)%nat /\ t = time_now (script k)).
  { exists (List.length (new1 ++ tr)). split; [|exact Et].
    rewrite length_app. lia. }
  destruct stop.
  - exists t, (EvTime L54 t :: new1), (Break st).
    split; [reflexivity|].
    split; [cbn [checks]; now rewrite C1|].
    split; [exact Hk|]. split; [discriminate|].
    repeat split; auto.
    + apply H2. reflexivity.
    + apply H2. reflexivity.
    + intros _. eexists. reflexivity.
  - destruct (rx_report_keeps st (EvTime L54 t :: new1 ++ tr))
      as (st2 & new2 & E3 & Hn & Ha & Hd & C2 & _).
    rewrite (bind_ok _ _ _ _ _ _ _ E3).
    exists t, (new2 ++ EvTime L54 t :: new1), (Continue st2).
    split; [unfold ret; f_equal; same_list|].
    split; [rewrite checks_app, C2; cbn [checks app]; now rewrite C1|].
    split; [exact Hk|]. split; [destruct new2; discriminate|].
    cbn [step_state]. repeat split; auto.
    + destruct H as (st' & H). discriminate.
    + destruct H as (st' & H). discriminate.
    + intros H. apply H2 in H. discriminate.
Qed.

(** With no byte received and nothing to read, any number of turns of
    the loop leaves it running, the flag still up. *)
Lemma receive_iters_no_data (n : nat) : forall (st : RxState) (tr : Trace),
  (forall k, read1 (script k) = None) ->
  no_data st = true ->
  exists st' new,
    receive_iters script n st tr = (Ok (Continue st'), new ++ tr) /\
    no_data st' = true /\ received_data st' = received_data st.
Proof.
  induction n as [|n IH]; intros st tr Hs Hn.
  - exists st, []. repeat split; auto.
  - cbn [receive_iters].
    destruct (receive_iter_silent st tr (fun k _ => Hs k))
      as (t & new & s & E & _ & _ & _ & Hn' & _ & Hd & Hb).
    rewrite (bind_ok _ _ _ _ _ _ _ E).
    destruct s as [st1|st1].
    + cbn [step_state] in *.
      destruct (IH st1 (new ++ tr) Hs) as (st' & new' & E' & Hn'' & Hd').
      { congruence. }
      exists st', (new' ++ new). split; [rewrite E'; f_equal; same_list|].
      split; congruence.
    + exfalso. destruct Hb as [Hb _].
      destruct Hb as [Hf _]; [eexists; reflexivity|congruence].
Qed.

End Silent.

(** C2. On a channel that never delivers a byte (every [ser.read(1)]
    comes back empty), however many turns of the loop are looked at, the
    receiver has not left it: after [n] turns the loop goes on, the
    no-data flag is still up and the buffer empty, and [receive_data]
    has not returned. *)
Theorem receiver_waits_forever (script : Script) (n : nat) (tr : Trace) :
  (forall k, read1 (script k) = None) ->
  exists st new,
    (st0 <- rx_init script ;; receive_iters script n st0) tr
      = (Ok (Continue st), new ++ tr) /\
    no_data st = true /\
    received_data st = [] /\
    receive_data script n tr = (Running, new ++ tr).
Proof.
  intro Hs.
  destruct (rx_init_spec script tr) as (t40 & t41 & t42 & E0 & _).
  rewrite (bind_ok _ _ _ _ _ _ _ E0).
  destruct (receive_iters_no_data script n (mkRx [] 0 t40 t41 t42 true)
              ([EvPrint (Text (Py.lit "Waiting for responses from MCU..."));
                EvTime L42 t42; EvTime L41 t41; EvTime L40 t40] ++ tr) Hs eq_refl)
    as (st & new & E & Hn & Hd).
  exists st. eexists (new ++ [_; _; _; _]).
  split; [rewrite E; f_equal; same_list|].
  split; [exact Hn|]. split; [exact Hd|].
  unfold receive_data. rewrite (bind_ok _ _ _ _ _ _ _ E0).
  unfold receive_loop. unfold bind at 1. unfold bind at 1. rewrite E.
  unfold running. f_equal. same_list.
Qed.

Lemma receiver_waits_forever_witness :
  (forall k, read1 (Scenarios.steady k) = None) /\
  exists st new,
    (st0 <- rx_init Scenarios.steady ;;
     receive_iters Scenarios.steady 50 st0) []
      = (Ok (Continue st), new ++ []) /\
    no_data st = true /\
    received_data st = [] /\
    receive_data Scenarios.steady 50 [] = (Running, new ++ []).
Proof.
  split; [reflexivity|].
  apply (receiver_waits_forever Scenarios.steady 50 []). reflexivity.
Defined.

End TimeoutFacts.

(* ================================================================== *)
(** ** The receiver in binary64: when the loop is left *)

Module ExitRule64.
Import Env Env64 Recv64 Obs64.
Local Open Scope py64_scope.

Lemma bind_ok64 (A B : Type) (m : M A) (k : A -> M B) (tr : Trace)
    (a : A) (tr' : Trace) :
  m tr = (Ok a, tr') -> bind m k tr = k a tr'.
Proof. intro E. unfold bind. now rewrite E. Qed.

Lemma bind_raise64 (A B : Type) (m : M A) (k : A -> M B) (tr : Trace)
    (e : Exn) (tr' : Trace) :
  m tr = (Raise e, tr') -> bind m k tr = (Raise e, tr').
Proof. intro E. unfold bind. now rewrite E. Qed.

(** *** The blocks of the loop *)

Section Blocks.
Variable script : Script.

Lemma rx_init_spec64 (tr : Trace) :
  exists t40 t41 t42,
    rx_init script tr =
      (Ok (mkRx [] 0 t40 t41 t42 true),
       [EvPrint (Text (Py.lit "Waiting for responses from MCU..."));
        EvTime L42 t42; EvTime L41 t41; EvTime L40 t40] ++ tr).
Proof. do 3 eexists. reflexivity. Qed.

(** Lines 47-53: nothing is taken in and the locals stay, or one byte
    is taken in and the clock is read at line 53. *)
Lemma rx_poll_spec64 (st : RxState) (tr : Trace) :
  (exists new,
     rx_poll script st tr = (Ok st, new ++ tr) /\
     Forall (fun ev => idle_call ev = true) new /\ new <> [])
  \/
  (exists n b t,
     rx_poll script st tr =
       (Ok (mkRx (received_data st ++ [b]) (total_received_bytes st + 1)
                 (start_receive_time st) t (last_report_time st) false),
        [EvTime L53 t; EvRead [b]; EvInWaiting n] ++ tr) /\
     read1 (script (S (List.length tr))) = Some b).
Proof.
  unfold rx_poll, bind, ser_in_waiting.
  destruct (in_waiting (reply script tr) >? 0)%Z.
  - unfold ser_read1, time_time, ret, reply. cbn [List.length].
    destruct (read1 (script (S (List.length tr)))) as [b|] eqn:Er.
    + right. do 3 eexists. split; reflexivity.
    + left. eexists [_; _]. split; [reflexivity|].
      split; [repeat constructor|discriminate].
  - left. eexists [_]. split; [reflexivity|].
    split; [repeat constructor|discriminate].
Qed.

(** Line 54: one clock reading; the test holds exactly when a byte was
    received and the rounded difference between the reading and the
    last activity exceeds [3.0]. *)
Lemma rx_timed_out_spec64 (st : RxState) (tr : Trace) :
  exists t stop,
    rx_timed_out script st tr = (Ok stop, EvTime L54 t :: tr) /\
    t = time_now (script (List.length tr)) /\
    (stop = true <->
     no_data st = false /\
     elapsed_exceeds t (last_activity_time st) = true).
Proof.
  unfold rx_timed_out, bind, time_time, ret, reply.
  do 2 eexists. split; [reflexivity|]. split; [reflexivity|].
  rewrite andb_true_iff. unfold elapsed_exceeds.
  destruct (no_data st); simpl; intuition congruence.
Qed.

(** The guard of line 59 lets no zero through. *)
Lemma positive_is_not_zero (x : B64.float) :
  B64.ltb (B64.of_Z 0) x = true -> B64.is_zero x = false.
Proof. destruct x as [s|s| |s m e]; try reflexivity. discriminate. Qed.

(** Lines 57-64: only clock readings and the report. The block returns
    with the flag, the buffer and the last activity as they were, and
    the counter as it was or at 0; or it ends with the [OverflowError]
    of a count too large for a float. It never divides by zero. *)
Lemma rx_report_spec64 (st : RxState) (tr : Trace) :
  exists r new,
    rx_report script st tr = (r, new ++ tr) /\
    Forall (fun ev => report_call ev = true) new /\
    new <> [] /\
    match r with
    | Ok st' =>
        no_data st' = no_data st /\
        last_activity_time st' = last_activity_time st /\
        received_data st' = received_data st /\
        (total_received_bytes st' = total_received_bytes st \/
         total_received_bytes st' = 0%Z)
    | Raise e => e = OverflowError /\ ~ count_converts st
    | Running => False
    end.
Proof.
  unfold rx_report. unfold bind at 1. unfold time_time at 1.
  set (t57 := time_now (reply script tr)).
  destruct (B64.leb (B64.of_Z 1) (B64.sub t57 (last_report_time st))).
  2:{ exists (Ok st), [EvTime L57 t57]. split; [reflexivity|].
      split; [repeat constructor|]. split; [discriminate|].
      repeat split. now left. }
  unfold bind at 1. unfold time_time at 1.
  set (tr1 := EvTime L57 t57 :: tr).
  set (t58 := time_now (reply script tr1)).
  set (elapsed := B64.sub t58 (start_receive_time st)).
  unfold bind at 1.
  destruct (B64.ltb (B64.of_Z 0) elapsed) eqn:Hpos.
  - unfold py_div, count_converts.
    destruct (B64.of_int (total_received_bytes st * 8)) as [x|] eqn:Hx.
    + rewrite (positive_is_not_zero elapsed Hpos).
      unfold bind, ret, print, time_time.
      eexists (Ok _), [_; _; _; _; _]. split; [reflexivity|].
      split; [repeat constructor|]. split; [discriminate|].
      cbn. repeat split. now right.
    + unfold bind, raise.
      exists (Raise OverflowError), [EvTime L58 t58; EvTime L57 t57].
      split; [reflexivity|]. split; [repeat constructor|].
      split; [discriminate|]. split; [reflexivity|]. intro H. now apply H.
  - unfold bind, ret, time_time.
    eexists (Ok _), [_; _; _; _]. split; [reflexivity|].
    split; [repeat constructor|]. split; [discriminate|].
    cbn. repeat split. now right.
Qed.

End Blocks.

(** *** Reading the calls of a block *)

Lemma rx_bytes_app64 (new old : Trace) :
  rx_bytes (new ++ old) = rx_bytes old ++ rx_bytes new.
Proof.
  induction new as [|ev new IH]; cbn [app rx_bytes].
  - now rewrite app_nil_r.
  - destruct ev; try exact IH. now rewrite IH, app_assoc.
Qed.

Lemma quiet_rx_bytes (new : Trace) :
  Forall (fun ev => report_call ev = true \/ idle_call ev = true) new ->
  rx_bytes new = [].
Proof.
  induction 1 as [|ev new Hev _ IH]; [reflexivity|].
  destruct ev as [n|data|site t|out]; cbn [rx_bytes]; try exact IH.
  rewrite IH. destruct data; [reflexivity|].
  destruct Hev as [Hev|Hev]; discriminate.
Qed.

Lemma quiet_got_byte (new old : Trace) :
  Forall (fun ev => report_call ev = true \/ idle_call ev = true) new ->
  got_byte (new ++ old) = got_byte old.
Proof.
  intro H. unfold got_byte.
  now rewrite rx_bytes_app64, (quiet_rx_bytes new H), app_nil_r.
Qed.

Lemma quiet_last_activity (new old : Trace) :
  Forall (fun ev => report_call ev = true \/ idle_call ev = true) new ->
  last_activity (new ++ old) = last_activity old.
Proof.
  induction 1 as [|ev new Hev _ IH]; [reflexivity|].
  destruct ev as [n|data|site t|out]; cbn [app last_activity]; try exact IH.
  destruct site; cbn; try exact IH; destruct Hev; discriminate.
Qed.

Lemma quiet_checks (new : Trace) :
  Forall (fun ev => report_call ev = true \/ idle_call ev = true) new ->
  checks new = [].
Proof.
  induction 1 as [|ev new Hev _ IH]; [reflexivity|].
  destruct ev as [n|data|site t|out]; cbn [checks]; try exact IH.
  destruct site; cbn; try exact IH; destruct Hev; discriminate.
Qed.

Lemma quiet_checks_passed (new old : Trace) :
  Forall (fun ev => report_call ev = true \/ idle_call ev = true) new ->
  checks_passed old -> checks_passed (new ++ old).
Proof.
  induction 1 as [|ev new Hev _ IH]; [auto|]. intro Ho.
  destruct ev as [n|data|site t|out]; cbn [app checks_passed]; auto.
  destruct site; cbn; auto; destruct Hev; discriminate.
Qed.

Lemma checks_app64 (new old : Trace) :
  checks (new ++ old) = checks new ++ checks old.
Proof.
  induction new as [|ev new IH]; [reflexivity|].
  destruct ev as [n|data|site t|out]; cbn [app checks]; try exact IH.
  destruct site; cbn; rewrite ?IH; reflexivity.
Qed.

Lemma quiet_inv (st : RxState) (new seg : Trace) :
  Forall (fun ev => report_call ev = true \/ idle_call ev = true) new ->
  RxInv st seg -> RxInv st (new ++ seg).
Proof.
  intros Hq [Ha Hn Hc]. constructor.
  - now rewrite quiet_last_activity.
  - now rewrite quiet_got_byte.
  - now apply quiet_checks_passed.
Qed.

Lemma checks_passed_tail64 (ev : Event) (tr : Trace) :
  checks_passed (ev :: tr) -> checks_passed tr.
Proof.
  destruct ev as [n|data|site t|out]; cbn; auto.
  destruct site; cbn; tauto.
Qed.

(** [checks_passed], one inactivity test at a time. *)
Lemma checks_passed_each64 (seg : Trace) :
  checks_passed seg ->
  forall newer t older,
    seg = newer ++ EvTime L54 t :: older -> ~ timed_out_at older t.
Proof.
  intros H newer. revert seg H.
  induction newer as [|ev newer IH]; intros seg H t older ->.
  - apply H.
  - apply checks_passed_tail64 in H. eapply IH; [exact H|reflexivity].
Qed.

(** With the locals in line with the calls, the test of line 54 is the
    test on the calls. *)
Lemma timed_out_iff (st : RxState) (seg : Trace) (t : B64.float) :
  RxInv st seg ->
  timed_out_at seg t <->
  no_data st = false /\ elapsed_exceeds t (last_activity_time st) = true.
Proof.
  intros [Ha Hn _]. unfold timed_out_at. rewrite Ha, Hn. split.
  - intros (Hg & a & Ea & Hx). injection Ea as <-.
    split; [now rewrite Hg|exact Hx].
  - intros (Hg & Hx). split; [now destruct (got_byte seg)|].
    eexists. split; [reflexivity|exact Hx].
Qed.

(** *** The loop *)

Section Loop.
Variable script : Script.

Lemma rx_poll_inv64 (st : RxState) (seg tr0 : Trace) :
  RxInv st seg ->
  exists st1 new,
    rx_poll script st (seg ++ tr0) = (Ok st1, new ++ seg ++ tr0) /\
    RxInv st1 (new ++ seg).
Proof.
  intro Inv.
  destruct (rx_poll_spec64 script st (seg ++ tr0))
    as [(new & E & Hq & _)|(n & b & t & E & _)].
  - exists st, new. split; [exact E|]. apply quiet_inv; [|exact Inv].
    eapply Forall_impl; [|exact Hq]. intros ev H. now right.
  - eexists. exists [EvTime L53 t; EvRead [b]; EvInWaiting n].
    split; [exact E|]. destruct Inv as [Ha Hn Hc]. constructor.
    + reflexivity.
    + cbn [no_data]. unfold got_byte. cbn [app rx_bytes].
      destruct (rx_bytes seg); reflexivity.
    + exact Hc.
Qed.

Lemma receive_iter_inv64 (st : RxState) (seg tr0 : Trace) :
  RxInv st seg ->
  exists r new,
    receive_iter script st (seg ++ tr0) = (r, new ++ seg ++ tr0) /\
    RunInv r (new ++ seg).
Proof.
  intro Inv. unfold receive_iter.
  destruct (rx_poll_inv64 st seg tr0 Inv) as (st1 & new1 & E1 & Inv1).
  rewrite (bind_ok64 _ _ _ _ _ _ _ E1).
  destruct (rx_timed_out_spec64 script st1 (new1 ++ seg ++ tr0))
    as (t & stop & E2 & _ & H2).
  rewrite (bind_ok64 _ _ _ _ _ _ _ E2).
  pose proof (timed_out_iff st1 (new1 ++ seg) t Inv1) as Hto.
  destruct stop.
  - exists (Ok (Break st1)), (EvTime L54 t :: new1).
    split; [reflexivity|]. cbn [RunInv app].
    exists t, (new1 ++ seg). split; [reflexivity|]. split; [exact Inv1|].
    apply Hto. now apply H2.
  - assert (Hno : ~ timed_out_at (new1 ++ seg) t).
    { intro H. apply Hto in H. apply H2 in H. discriminate. }
    assert (Inv2 : RxInv st1 (EvTime L54 t :: new1 ++ seg)).
    { destruct Inv1 as [Ha Hn Hc]. constructor; auto. split; assumption. }
    destruct (rx_report_spec64 script st1 (EvTime L54 t :: new1 ++ seg ++ tr0))
      as (r & new2 & E3 & Hq & _ & Hr).
    assert (Hq' : Forall (fun ev => report_call ev = true \/ idle_call ev = true)
                    new2).
    { eapply Forall_impl; [|exact Hq]. intros ev H. now left. }
    unfold bind at 1. rewrite E3.
    destruct r as [st2|e|]; [| |contradiction].
    + exists (Ok (Continue st2)), (new2 ++ EvTime L54 t :: new1).
      split; [unfold ret; f_equal; ReceiveLoop.same_list|].
      cbn [RunInv]. rewrite <- app_assoc. cbn [app].
      destruct Hr as (Hn & Ha & _).
      pose proof (quiet_inv st1 new2 _ Hq' Inv2) as [Ha2 Hn2 Hc2].
      constructor; [now rewrite Ha|now rewrite Hn|exact Hc2].
    + exists (Raise e), (new2 ++ EvTime L54 t :: new1).
      split; [f_equal; ReceiveLoop.same_list|].
      cbn [RunInv]. split; [apply Hr|].
      rewrite <- app_assoc. cbn [app].
      apply quiet_checks_passed; [exact Hq'|]. apply Inv2.
Qed.

Lemma receive_iters_inv64 (n : nat) : forall (st : RxState) (seg tr0 : Trace),
  RxInv st seg ->
  exists r new,
    receive_iters script n st (seg ++ tr0) = (r, new ++ seg ++ tr0) /\
    RunInv r (new ++ seg).
Proof.
  induction n as [|n IH]; intros st seg tr0 Inv.
  - exists (Ok (Continue st)), []. split; [reflexivity|exact Inv].
  - cbn [receive_iters].
    destruct (receive_iter_inv64 st seg tr0 Inv) as (r & new & E & Hr).
    unfold bind at 1. rewrite E.
    destruct r as [[st1|st1]|e|]; [| | |contradiction].
    + cbn [RunInv] in Hr.
      destruct (IH st1 (new ++ seg) tr0 Hr) as (r2 & new2 & E2 & Hr2).
      rewrite <- app_assoc in E2.
      exists r2, (new2 ++ new). split.
      * rewrite E2. f_equal. ReceiveLoop.same_list.
      * now rewrite <- app_assoc.
    + exists (Ok (Break st1)), new. split; [reflexivity|exact Hr].
    + exists (Raise e), new. split; [reflexivity|exact Hr].
Qed.

Lemma receive_run_inv64 (n : nat) (tr0 : Trace) :
  exists r seg,
    (st0 <- rx_init script ;; receive_iters script n st0) tr0
      = (r, seg ++ tr0) /\
    RunInv r seg.
Proof.
  destruct (rx_init_spec64 script tr0) as (t40 & t41 & t42 & E0).
  rewrite (bind_ok64 _ _ _ _ _ _ _ E0).
  set (seg0 := [EvPrint (Text (Py.lit "Waiting for responses from MCU..."));
                EvTime L42 t42; EvTime L41 t41; EvTime L40 t40]).
  assert (Inv0 : RxInv (mkRx [] 0 t40 t41 t42 true) seg0).
  { constructor; [reflexivity|reflexivity|exact I]. }
  destruct (receive_iters_inv64 n _ seg0 tr0 Inv0) as (r & new & E & Hr).
  exists r, (new ++ seg0). split; [|exact Hr].
  rewrite E. f_equal. now rewrite app_assoc.
Qed.

End Loop.

(** *** Counts that convert *)

Lemma digits_iter (m p : positive) :
  SpecFloat.digits2_pos (Pos.iter xO m p)
    = (SpecFloat.digits2_pos m + p)%positive.
Proof.
  induction p as [|p IH] using Pos.peano_ind.
  - cbn. lia.
  - rewrite Pos.iter_succ. cbn [SpecFloat.digits2_pos]. rewrite IH. lia.
Qed.

Lemma digits_below (m : positive) : forall k : Z,
  (Zpos m < 2 ^ k)%Z -> (0 <= k)%Z ->
  (Zpos (SpecFloat.digits2_pos m) <= k)%Z.
Proof.
  induction m as [q IH|q IH|]; intros k Hm Hk; cbn [SpecFloat.digits2_pos].
  - assert (0 < k)%Z.
    { destruct (Z.eq_dec k 0) as [->|]; [cbn in Hm; lia|lia]. }
    replace k with (Z.succ (k - 1)) in Hm by lia.
    rewrite Z.pow_succ_r in Hm by lia.
    specialize (IH (k - 1)%Z). lia.
  - assert (0 < k)%Z.
    { destruct (Z.eq_dec k 0) as [->|]; [cbn in Hm; lia|lia]. }
    replace k with (Z.succ (k - 1)) in Hm by lia.
    rewrite Z.pow_succ_r in Hm by lia.
    specialize (IH (k - 1)%Z). lia.
  - destruct (Z.eq_dec k 0) as [->|]; [cbn in Hm; lia|lia].
Qed.

(** A positive integer below [2^53] is a float as it is: the
    conversion shifts its digits to the left and rounds nothing off. *)
Lemma of_Z_small (m : positive) :
  (Zpos m < 2 ^ 53)%Z ->
  exists mz ez, B64.of_Z (Zpos m) = SpecFloat.S754_finite false mz ez.
Proof.
  intro Hm. pose proof (digits_below m 53 Hm ltac:(lia)) as Hd.
  unfold B64.of_Z, B64.prec, B64.emax.
  unfold SpecFloat.binary_normalize, SpecFloat.binary_round.
  set (d := SpecFloat.digits2_pos m) in *.
  unfold SpecFloat.fexp, SpecFloat.emin.
  replace (Z.max (Z.pos d + 0 - 53) (3 - 1024 - 53))%Z
    with (Z.pos d - 53)%Z by lia.
  unfold SpecFloat.shl_align.
  destruct (Z.pos d - 53 - 0)%Z as [|p|p] eqn:Ep; [|lia|].
  - unfold SpecFloat.binary_round_aux, SpecFloat.shr_fexp.
    cbn [SpecFloat.Zdigits2 SpecFloat.shr_record_of_loc]. fold d.
    unfold SpecFloat.fexp, SpecFloat.emin.
    replace (Z.max (Z.pos d + 0 - 53) (3 - 1024 - 53) - 0)%Z
      with 0%Z by lia.
    cbn [SpecFloat.shr SpecFloat.shr_m SpecFloat.loc_of_shr_record
         SpecFloat.round_nearest_even SpecFloat.Zdigits2
         SpecFloat.shr_record_of_loc].
    fold d. unfold SpecFloat.fexp, SpecFloat.emin.
    replace (Z.max (Z.pos d + 0 - 53) (3 - 1024 - 53) - 0)%Z
      with 0%Z by lia.
    cbn. eauto.
  - unfold SpecFloat.binary_round_aux, SpecFloat.shr_fexp.
    cbn [SpecFloat.Zdigits2 SpecFloat.shr_record_of_loc].
    rewrite digits_iter. fold d.
    unfold SpecFloat.fexp, SpecFloat.emin.
    replace (Z.max (Z.pos (d + p) + (Z.pos d - 53) - 53) (3 - 1024 - 53)
             - (Z.pos d - 53))%Z with 0%Z by lia.
    cbn [SpecFloat.shr SpecFloat.shr_m SpecFloat.loc_of_shr_record
         SpecFloat.round_nearest_even SpecFloat.Zdigits2
         SpecFloat.shr_record_of_loc].
    rewrite digits_iter. fold d. unfold SpecFloat.fexp, SpecFloat.emin.
    replace (Z.max (Z.pos (d + p) + (Z.pos d - 53) - 53) (3 - 1024 - 53)
             - (Z.pos d - 53))%Z with 0%Z by lia.
    cbn [SpecFloat.shr SpecFloat.shr_m].
    destruct (Z.leb_spec (Z.pos d - 53) (1024 - 53)); [eauto|lia].
Qed.

(** Counts up to [2^50] bytes convert. *)
Lemma small_count_converts (z : Z) :
  (0 <= z)%Z -> (z * 8 < 2 ^ 53)%Z -> B64.of_int (z * 8) <> None.
Proof.
  intros H0 H1. unfold B64.of_int.
  destruct (z * 8)%Z as [|m|m] eqn:E; [discriminate| |lia].
  destruct (of_Z_small m H1) as (mz & ez & ->). discriminate.
Qed.

Section Counting.
Variable script : Script.

(** One turn of the loop adds at most one to the count, and ends with an
    exception only for a count that does not convert. *)
Lemma receive_iter_count (st : RxState) (tr : Trace) :
  (0 <= total_received_bytes st)%Z ->
  match fst (receive_iter script st tr) with
  | Ok s =>
      (0 <= total_received_bytes (step_state s)
         <= total_received_bytes st + 1)%Z
  | Raise _ =>
      exists z,
        (0 <= z <= total_received_bytes st + 1)%Z /\
        B64.of_int (z * 8) = None
  | Running => False
  end.
Proof.
  intro H0. unfold receive_iter.
  assert (H1 : exists st1 tr1,
            rx_poll script st tr = (Ok st1, tr1) /\
            (0 <= total_received_bytes st1
               <= total_received_bytes st + 1)%Z).
  { destruct (rx_poll_spec64 script st tr)
      as [(new & E & _)|(n & b & t & E & _)].
    - exists st, (new ++ tr). split; [exact E|lia].
    - eexists _, _. split; [exact E|]. cbn [total_received_bytes]. lia. }
  destruct H1 as (st1 & tr1 & E1 & B1).
  rewrite (bind_ok64 _ _ _ _ _ _ _ E1).
  destruct (rx_timed_out_spec64 script st1 tr1) as (t & stop & E2 & _).
  rewrite (bind_ok64 _ _ _ _ _ _ _ E2).
  destruct stop; [exact B1|].
  destruct (rx_report_spec64 script st1 (EvTime L54 t :: tr1))
    as (r & new2 & E3 & _ & _ & Hr).
  unfold bind at 1. rewrite E3.
  destruct r as [st2|e|]; cbn [fst ret step_state]; [| |exact Hr].
  - destruct Hr as (_ & _ & _ & [Ht|Ht]); rewrite Ht; lia.
  - exists (total_received_bytes st1). split; [exact B1|].
    destruct Hr as [_ Hr]. unfold count_converts in Hr.
    destruct (B64.of_int (total_received_bytes st1 * 8)); [|reflexivity].
    exfalso. apply Hr. discriminate.
Qed.

Lemma receive_iters_count (n : nat) : forall (st : RxState) (tr : Trace),
  (0 <= total_received_bytes st)%Z ->
  match fst (receive_iters script n st tr) with
  | Ok s =>
      (0 <= total_received_bytes (step_state s)
         <= total_received_bytes st + Z.of_nat n)%Z
  | Raise _ =>
      exists z,
        (0 <= z <= total_received_bytes st + Z.of_nat n)%Z /\
        B64.of_int (z * 8) = None
  | Running => False
  end.
Proof.
  induction n as [|n IH]; intros st tr H0.
  - cbn. lia.
  - cbn [receive_iters]. pose proof (receive_iter_count st tr H0) as H1.
    unfold bind at 1.
    destruct (receive_iter script st tr) as [[[st1|st1]|e|] tr1];
      cbn [fst step_state] in H1 |- *.
    + specialize (IH st1 tr1 ltac:(lia)).
      destruct (fst (receive_iters script n st1 tr1)) as [s|e|].
      * lia.
      * destruct IH as (z & Hz & E). exists z. split; [lia|exact E].
      * exact IH.
    + cbn [ret fst step_state]. lia.
    + destruct H1 as (z & Hz & E). exists z. split; [lia|exact E].
    + exact H1.
Qed.

(** Up to [2^50] turns, the receiver's run does not end with an
    exception. *)
Lemma receive_run_returns (n : nat) (tr0 : Trace) :
  (Z.of_nat n * 8 < 2 ^ 53)%Z ->
  exists s,
    fst ((st0 <- rx_init script ;; receive_iters script n st0) tr0) = Ok s.
Proof.
  intro Hn.
  destruct (rx_init_spec64 script tr0) as (t40 & t41 & t42 & E0).
  rewrite (bind_ok64 _ _ _ _ _ _ _ E0).
  match goal with
  | |- exists s, fst (receive_iters script n ?st ?tr) = _ =>
      pose proof (receive_iters_count n st tr) as H
  end.
  cbn [total_received_bytes] in H. specialize (H ltac:(lia)).
  match type of H with
  | match ?x with _ => _ end => destruct x as [s|e|]
  end.
  - eexists. reflexivity.
  - exfalso. destruct H as (z & Hz & E).
    apply (small_count_converts z); [lia|lia|exact E].
  - contradiction.
Qed.

End Counting.

(** *** After the last byte *)

(** Subtracting [0.0] rounds nothing off. *)
Lemma sub_zero (t : B64.float) : B64.sub t (B64.of_Z 0) = t.
Proof. destruct t as [[|]|[|]| |s m e]; reflexivity. Qed.

Lemma zero_converts (st : RxState) :
  total_received_bytes st = 0%Z -> count_converts st.
Proof. unfold count_converts. intros ->. discriminate. Qed.

Section Silent.
Variable script : Script.

Lemma rx_poll_silent64 (st : RxState) (tr : Trace) :
  (forall k, (List.length tr <= k)%nat -> read1 (script k) = None) ->
  exists new,
    rx_poll script st tr = (Ok st, new ++ tr) /\
    checks new = [] /\ new <> [].
Proof.
  intro Hs.
  destruct (rx_poll_spec64 script st tr)
    as [(new & E & Hq & Hne)|(n & b & t & _ & Er)].
  - exists new. split; [exact E|]. split; [|exact Hne].
    apply quiet_checks. eapply Forall_impl; [|exact Hq].
    intros ev H. now right.
  - rewrite Hs in Er by lia. discriminate.
Qed.

(** One turn with nothing to read and a count that converts: the loop
    is left exactly when a byte was received earlier and the test of
    line 54 holds; otherwise the turn ends with the flag, the buffer and
    the last activity as they were, and a count that converts. *)
Lemma receive_iter_silent64 (st : RxState) (tr : Trace) :
  count_converts st ->
  (forall k, (List.length tr <= k)%nat -> read1 (script k) = None) ->
  exists t new s,
    receive_iter script st tr = (Ok s, new ++ tr) /\
    checks new = [t] /\
    (exists k, (List.length tr <= k)%nat /\ t = time_now (script k)) /\
    new <> [] /\
    no_data (step_state s) = no_data st /\
    last_activity_time (step_state s) = last_activity_time st /\
    received_data (step_state s) = received_data st /\
    count_converts (step_state s) /\
    ((exists st', s = Break st') <->
     no_data st = false /\
     elapsed_exceeds t (last_activity_time st) = true).
Proof.
  intros Hc Hs. unfold receive_iter.
  destruct (rx_poll_silent64 st tr Hs) as (new1 & E1 & C1 & _).
  rewrite (bind_ok64 _ _ _ _ _ _ _ E1).
  destruct (rx_timed_out_spec64 script st (new1 ++ tr))
    as (t & stop & E2 & Et & H2).
  rewrite (bind_ok64 _ _ _ _ _ _ _ E2).
  assert (Hk : exists k, (List.length tr <= k)%nat /\ t = time_now (script k)).
  { exists (List.length (new1 ++ tr)). split; [|exact Et].
    rewrite length_app. lia. }
  destruct stop.
  - exists t, (EvTime L54 t :: new1), (Break st).
    split; [reflexivity|].
    split; [cbn [checks]; now rewrite C1|].
    split; [exact Hk|]. split; [discriminate|].
    cbn [step_state]. repeat split; auto.
    + apply H2. reflexivity.
    + apply H2. reflexivity.
    + intros _. eexists. reflexivity.
  - destruct (rx_report_spec64 script st (EvTime L54 t :: new1 ++ tr))
      as (r & new2 & E3 & Hq & Hne & Hr).
    assert (C2 : checks new2 = []).
    { apply quiet_checks. eapply Forall_impl; [|exact Hq].
      intros ev H. now left. }
    unfold bind at 1. rewrite E3.
    destruct r as [st2|e|]; [| |contradiction].
    2:{ exfalso. destruct Hr as [_ Hr]. exact (Hr Hc). }
    destruct Hr as (Hn & Ha & Hd & Ht).
    exists t, (new2 ++ EvTime L54 t :: new1), (Continue st2).
    split; [unfold ret; f_equal; ReceiveLoop.same_list|].
    split; [rewrite checks_app64, C2; cbn [checks app]; now rewrite C1|].
    split; [exact Hk|]. split; [destruct new2; [contradiction|discriminate]|].
    cbn [step_state]. repeat split; auto.
    + destruct Ht as [Ht|Ht]; [|now apply zero_converts].
      unfold count_converts. now rewrite Ht.
    + destruct H as (st' & H). discriminate.
    + destruct H as (st' & H). discriminate.
    + intros H. apply H2 in H. discriminate.
Qed.

(** After a byte was received and with nothing more to read, any
    number of turns: the last activity stays where it was; at every
    test that let the loop go on the rounded difference did not exceed
    [3.0], and at the test that ended the loop, if one did, it did. *)
Lemma receive_iters_silent64 (n : nat) : forall (st : RxState) (tr : Trace),
  no_data st = false ->
  count_converts st ->
  (forall k, (List.length tr <= k)%nat -> read1 (script k) = None) ->
  exists s new,
    receive_iters script n st tr = (Ok s, new ++ tr) /\
    match s with
    | Continue _ =>
        Forall (fun t => elapsed_exceeds t (last_activity_time st) = false)
               (checks new)
    | Break _ =>
        exists t rest,
          checks new = t :: rest /\
          elapsed_exceeds t (last_activity_time st) = true /\
          Forall (fun t' => elapsed_exceeds t' (last_activity_time st) = false)
                 rest
    end.
Proof.
  induction n as [|n IH]; intros st tr Hn Hc Hs.
  - exists (Continue st), []. split; [reflexivity|constructor].
  - cbn [receive_iters].
    destruct (receive_iter_silent64 st tr Hc Hs)
      as (t & new & s & E & C & _ & Hne & Hn' & Ha & _ & Hc' & Hb).
    rewrite (bind_ok64 _ _ _ _ _ _ _ E).
    destruct s as [st1|st1]; cbn [step_state] in *.
    + assert (Hle : elapsed_exceeds t (last_activity_time st) = false).
      { destruct (elapsed_exceeds t (last_activity_time st)) eqn:Hx;
          [|reflexivity].
        destruct Hb as [_ Hb]. destruct Hb as (st' & Hb); [auto|discriminate]. }
      destruct (IH st1 (new ++ tr)) as (s2 & new2 & E2 & H2).
      { congruence. }
      { exact Hc'. }
      { intros k Hk. apply Hs. rewrite length_app in Hk. lia. }
      exists s2, (new2 ++ new).
      split; [rewrite E2; f_equal; ReceiveLoop.same_list|].
      rewrite checks_app64, C. rewrite Ha in H2.
      destruct s2 as [st2|st2].
      * apply Forall_app. split; [exact H2|]. repeat constructor. exact Hle.
      * destruct H2 as (t2 & rest & C2 & Hlt & Hrest).
        exists t2, (rest ++ [t]). rewrite C2.
        split; [reflexivity|]. split; [exact Hlt|].
        apply Forall_app. split; [exact Hrest|]. repeat constructor. exact Hle.
    + exists (Break st1), new. split; [reflexivity|].
      exists t, []. split; [exact C|]. split; [|constructor].
      apply Hb. eexists. reflexivity.
Qed.

(** After a byte was received and with nothing more to read, the loop
    is left once the clock stays where the test of line 54 holds. *)
Lemma receive_iters_exits64 (a : B64.float) (K : nat) :
  (forall k, (K <= k)%nat -> elapsed_exceeds (time_now (script k)) a = true) ->
  forall (d : nat) (st : RxState) (tr : Trace),
    no_data st = false ->
    last_activity_time st = a ->
    count_converts st ->
    (forall k, (List.length tr <= k)%nat -> read1 (script k) = None) ->
    (K <= List.length tr + d)%nat ->
    exists n st' tr',
      receive_iters script n st tr = (Ok (Break st'), tr').
Proof.
  intro HK. induction d as [|d IH]; intros st tr Hn Ha Hc Hs Hd.
  - destruct (receive_iter_silent64 st tr Hc Hs)
      as (t & new & s & E & _ & (k & Hk & ->) & _ & _ & _ & _ & _ & Hb).
    destruct Hb as [_ Hb]. destruct Hb as (st' & ->).
    { split; [exact Hn|]. rewrite Ha. apply HK. lia. }
    exists 1%nat, st', (new ++ tr). cbn [receive_iters].
    now rewrite (bind_ok64 _ _ _ _ _ _ _ E).
  - destruct (receive_iter_silent64 st tr Hc Hs)
      as (t & new & s & E & _ & _ & Hne & Hn' & Ha' & _ & Hc' & _).
    destruct s as [st1|st1]; cbn [step_state] in *.
    + destruct (IH st1 (new ++ tr)) as (n & st' & tr' & E').
      { congruence. }
      { congruence. }
      { exact Hc'. }
      { intros k Hk. apply Hs. rewrite length_app in Hk. lia. }
      { rewrite length_app. destruct new; [congruence|]. cbn [List.length]. lia. }
      exists (S n), st', tr'. cbn [receive_iters].
      now rewrite (bind_ok64 _ _ _ _ _ _ _ E).
    + exists 1%nat, st1, (new ++ tr). cbn [receive_iters].
      now rewrite (bind_ok64 _ _ _ _ _ _ _ E).
Qed.

End Silent.


(** The rounding decides. With the byte received at [0.1] and the clock
    at [3.1] afterwards, the two floats are more than 3 apart as
    numbers, and their difference as line 54 computes it is [3.0]: the
    loop is not left. *)
Example rounded_difference_decides :
  B64.to_Q Scenarios64.three_and_a_tenth
    = Some (6980579422424269 # 2251799813685248)%Q /\
  B64.to_Q Scenarios64.tenth
    = Some (7205759403792794 # 72057594037927936)%Q /\
  (3 < (6980579422424269 # 2251799813685248)
       - (7205759403792794 # 72057594037927936))%Q /\
  B64.sub Scenarios64.three_and_a_tenth Scenarios64.tenth = B64.of_Z 3 /\
  elapsed_exceeds Scenarios64.three_and_a_tenth Scenarios64.tenth = false /\
  fst (receive_data Scenarios64.one_byte_then_late 20 []) = Running.
Proof.
  repeat split; vm_compute; reflexivity.
Qed.



End ExitRule64.

(* ================================================================== *)
(** ** The receiver: throughput reports, division, phase boundary *)

Module ReportFacts.
Import Env Send Obs MonadFacts SendFacts ReceiveSteps ReceiveLoop SessionFacts.
Local Open Scope py_scope.

Lemma reports_ok_tail (ev : Event) (tr : Trace) :
  reports_ok (ev :: tr) -> reports_ok tr.
Proof.
  destruct ev as [| | | | | |out|]; cbn; auto.
  destruct out; cbn; tauto.
Qed.

(** [reports_ok], one report at a time. *)
Lemma reports_ok_each (seg : Trace) :
  reports_ok seg ->
  forall newer v older,
    seg = newer ++ EvPrint (SpeedRx v) :: older -> report_ok older v.
Proof.
  intros H newer. revert seg H.
  induction newer as [|ev newer IH]; intros seg H v older ->.
  - apply H.
  - apply reports_ok_tail in H. eapply IH; [exact H|reflexivity].
Qed.

Lemma interval_bytes_nonneg (tr : Trace) : (0 <= interval_bytes tr)%Z.
Proof. unfold interval_bytes. lia. Qed.

(** A quotient of a non-negative number of bits by a positive time. *)
Lemma speed_nonneg (bits : Z) (d v : Q) :
  (0 <= bits)%Z -> (0 < d)%Q -> (v == inject_Z bits / d)%Q ->
  (0 <= v)%Q /\ (bits = 0%Z -> (v == 0)%Q).
Proof.
  intros Hb Hd Hv. split.
  - rewrite Hv. apply Qle_shift_div_l; [exact Hd|].
    rewrite Qmult_0_l. change 0%Q with (inject_Z 0).
    rewrite <- Zle_Qle. exact Hb.
  - intros ->. rewrite Hv. unfold Qdiv. apply Qmult_0_l.
Qed.

Lemma StepInv_state (s : Step) (seg : Trace) :
  StepInv s seg ->
  received_data (step_state s) = rx_bytes seg /\
  total_received_bytes (step_state s) = interval_bytes seg /\
  interval_start seg = Some (start_receive_time (step_state s)) /\
  reports_ok seg /\
  Forall (fun ev => rx_event ev = true) seg.
Proof.
  destruct s as [st|st]; cbn [StepInv step_state].
  - intros [Id It Is Ia In Ir Ic Ie]. auto.
  - intros (t & older & -> & [Id It Is Ia In Ir Ic Ie] & _).
    repeat split; auto.
Qed.

Lemma clock_le (script : Script) :
  clock_monotone script ->
  forall i j, (i <= j)%nat -> (time_now (script i) <= time_now (script j))%Q.
Proof.
  intros Hm i j Hij. induction Hij as [|j _ IH].
  - apply Qle_refl.
  - eapply Qle_trans; [exact IH|apply Hm].
Qed.

Lemma times_read_grow (script : Script) (st : RxState) (new tr : Trace) :
  times_read script st tr -> times_read script st (new ++ tr).
Proof.
  intros (i & j & Hij & Hs & Hr). exists i, j.
  rewrite length_app. repeat split; auto; lia.
Qed.

(** The times of the locals stay readings of the clock over a turn of
    the loop. *)
Lemma receive_iter_times (script : Script) (st : RxState) (tr : Trace) :
  times_read script st tr ->
  exists s new,
    receive_iter script st tr = (Ok s, new ++ tr) /\
    times_read script (step_state s) (new ++ tr).
Proof.
  intro J. unfold receive_iter.
  assert (H1 : exists st1 new1,
    rx_poll script st tr = (Ok st1, new1 ++ tr) /\
    times_read script st1 (new1 ++ tr)).
  { destruct (rx_poll_spec script st tr)
      as [(new & E & _)|(n & b & t & E & _)].
    - exists st, new. split; [exact E|]. now apply times_read_grow.
    - do 2 eexists. split; [exact E|].
      apply times_read_grow. exact J. }
  destruct H1 as (st1 & new1 & E1 & J1). rewrite (bind_ok _ _ _ _ _ _ _ E1).
  destruct (rx_timed_out_spec script st1 (new1 ++ tr)) as (t & stop & E2 & _).
  rewrite (bind_ok _ _ _ _ _ _ _ E2).
  assert (J2 : times_read script st1 (EvTime L54 t :: new1 ++ tr))
    by exact (times_read_grow script st1 [EvTime L54 t] (new1 ++ tr) J1).
  destruct stop.
  - exists (Break st1), (EvTime L54 t :: new1). split; [reflexivity|exact J2].
  - set (tr2 := EvTime L54 t :: new1 ++ tr) in *.
    destruct (rx_report_spec script st1 tr2)
      as [(t57 & E & _)
         |(t57 & t58 & t63 & t64 & out & E & (_ & H63 & H64 & _) & _)].
    + rewrite (bind_ok _ _ _ _ _ _ _ E).
      exists (Continue st1), (EvTime L57 t57 :: EvTime L54 t :: new1).
      split; [reflexivity|].
      exact (times_read_grow script st1 [EvTime L57 t57] tr2 J2).
    + rewrite (bind_ok _ _ _ _ _ _ _ E).
      eexists (Continue _),
        (EvTime L64 t64 :: EvTime L63 t63 :: out
           ++ [EvTime L58 t58; EvTime L57 t57; EvTime L54 t] ++ new1).
      split.
      * unfold ret. f_equal. unfold tr2. same_list.
      * cbn [step_state].
        exists (List.length out + (2 + List.length tr2))%nat,
               (S (List.length out + (2 + List.length tr2)))%nat.
        cbn [start_receive_time last_report_time].
        split; [|split; assumption].
        unfold tr2.
        repeat (rewrite length_app || cbn [List.length app]). lia.
Qed.

Lemma receive_iters_times (script : Script) (n : nat) :
  forall st tr,
    times_read script st tr ->
    exists s new,
      receive_iters script n st tr = (Ok s, new ++ tr) /\
      times_read script (step_state s) (new ++ tr).
Proof.
  induction n as [|n IH]; intros st tr J.
  - exists (Continue st), []. split; [reflexivity|exact J].
  - cbn [receive_iters].
    destruct (receive_iter_times script st tr J) as (s & new & E & J1).
    rewrite (bind_ok _ _ _ _ _ _ _ E).
    destruct s as [st'|st']; cbn [step_state] in J1.
    + destruct (IH st' (new ++ tr) J1) as (s2 & new2 & E2 & J2).
      exists s2, (new2 ++ new). split.
      * rewrite E2. f_equal. same_list.
      * now rewrite <- app_assoc.
    + exists (Break st'), new. split; [reflexivity|exact J1].
Qed.

(** On a clock that never goes back, a report that is due is
    printed. *)
Lemma due_report_is_printed (script : Script) (st : RxState) (tr : Trace) :
  clock_monotone script ->
  times_read script st tr ->
  (1 <= time_now (script (List.length tr)) - last_report_time st)%Q ->
  exists st' t64 t63 t58 t57,
    rx_report script st tr =
      (Ok st',
       [EvTime L64 t64; EvTime L63 t63;
        EvPrint (SpeedRx (inject_Z (total_received_bytes st * 8)
                          / (t58 - start_receive_time st)));
        EvTime L58 t58; EvTime L57 t57] ++ tr).
Proof.
  intros Hm (i & j & Hij & Hs & Hr) Hdue.
  destruct (rx_report_spec script st tr)
    as [(t57 & _ & -> & Hn)
       |(t57 & t58 & t63 & t64 & out & E & (H57 & _) & H58 & [[-> Hn]|[-> _]])].
  - contradiction.
  - exfalso. apply Hn. subst t57 t58. rewrite Hs.
    pose proof (clock_le script Hm i j ltac:(lia)) as H1.
    pose proof (clock_le script Hm j (List.length tr) ltac:(lia)) as H2.
    pose proof (Hm (List.length tr)) as H3.
    rewrite Hr in Hdue. lra.
  - do 5 eexists. exact E.
Qed.

(** C6. In any run of the receiver, every throughput report comes
    right after the clock reading of line 58 and equals the bytes
    received in the current reporting interval, times 8, over the time
    from the start of that interval to that reading; this time is
    positive and the report non-negative, and it is 0 for an interval
    without bytes. The counter and the start time of the locals are
    those of the current interval; and whenever the report block prints
    a report, it ends with the counter at 0 and the start time at the
    reading of line 63. Reporting is the policy: on a clock that never
    goes back, a report that is due is printed, whatever the number of
    bytes. *)
Theorem throughput_reports (script : Script) :
  (forall n tr0,
     exists s seg,
       (st0 <- rx_init script ;; receive_iters script n st0) tr0
         = (Ok s, seg ++ tr0) /\
       total_received_bytes (step_state s) = interval_bytes seg /\
       interval_start seg = Some (start_receive_time (step_state s)) /\
       forall newer v older,
         seg = newer ++ EvPrint (SpeedRx v) :: older ->
         exists t58 rest start,
           older = EvTime L58 t58 :: rest /\
           interval_start rest = Some start /\
           (0 < t58 - start)%Q /\
           (v == inject_Z (interval_bytes rest * 8) / (t58 - start))%Q /\
           (0 <= v)%Q /\
           (interval_bytes rest = 0%Z -> (v == 0)%Q)) /\
  (forall st tr,
     exists st' new,
       rx_report script st tr = (Ok st', new ++ tr) /\
       forall v,
         In (EvPrint (SpeedRx v)) new ->
         exists t64 t63 before,
           new = EvTime L64 t64 :: EvTime L63 t63
                   :: EvPrint (SpeedRx v) :: before /\
           total_received_bytes st' = 0%Z /\
           start_receive_time st' = t63) /\
  (clock_monotone script ->
   (forall n tr0,
      exists s seg,
        (st0 <- rx_init script ;; receive_iters script n st0) tr0
          = (Ok s, seg ++ tr0) /\
        times_read script (step_state s) (seg ++ tr0)) /\
   (forall st tr,
      times_read script st tr ->
      (1 <= time_now (script (List.length tr)) - last_report_time st)%Q ->
      exists st' t64 t63 t58 t57,
        rx_report script st tr =
          (Ok st',
           [EvTime L64 t64; EvTime L63 t63;
            EvPrint (SpeedRx (inject_Z (total_received_bytes st * 8)
                              / (t58 - start_receive_time st)));
            EvTime L58 t58; EvTime L57 t57] ++ tr))).
Proof.
  split; [|split].
  - intros n tr0.
    destruct (receive_run_inv script n tr0) as (s & seg & E & Is).
    apply StepInv_state in Is. destruct Is as (_ & It & Is & Ir & _).
    exists s, seg. split; [exact E|]. split; [exact It|]. split; [exact Is|].
    intros newer v older Hseg.
    destruct (reports_ok_each seg Ir newer v older Hseg)
      as (t58 & rest & start & -> & Hstart & Hpos & Hv).
    exists t58, rest, start. repeat split; auto.
    + eapply speed_nonneg; [|exact Hpos|exact Hv].
      pose proof (interval_bytes_nonneg rest). lia.
    + intro Hz.
      eapply (proj2 (speed_nonneg (interval_bytes rest * 8) (t58 - start) v
                       ltac:(pose proof (interval_bytes_nonneg rest); lia)
                       Hpos Hv)).
      lia.
  - intros st tr.
    destruct (rx_report_spec script st tr)
      as [(t57 & E & _)
         |(t57 & t58 & t63 & t64 & out & E & _ & _ & [[-> _]|[-> _]])].
    + exists st, [EvTime L57 t57]. split; [exact E|].
      intros v [H|[]]. discriminate.
    + eexists.
      exists [EvTime L64 t64; EvTime L63 t63; EvTime L58 t58; EvTime L57 t57].
      split; [exact E|].
      intros v H. cbn in H. repeat (destruct H as [H|H]; try discriminate).
      contradiction.
    + eexists.
      exists [EvTime L64 t64; EvTime L63 t63;
              EvPrint (SpeedRx (inject_Z (total_received_bytes st * 8)
                                / (t58 - start_receive_time st)));
              EvTime L58 t58; EvTime L57 t57].
      split; [exact E|].
      intros v H. cbn [In] in H.
      destruct H as [H|[H|[H|[H|[H|[]]]]]]; try discriminate.
      inversion H; subst v.
      exists t64, t63, [EvTime L58 t58; EvTime L57 t57].
      repeat split.
  - intro Hm. split.
    + intros n tr0.
      destruct (rx_init_spec script tr0) as (t40 & t41 & t42 & E0 & H40 & H42).
      rewrite (bind_ok _ _ _ _ _ _ _ E0).
      set (tr1 := [EvPrint (Text (Py.lit "Waiting for responses from MCU..."));
                   EvTime L42 t42; EvTime L41 t41; EvTime L40 t40] ++ tr0).
      assert (J0 : times_read script (mkRx [] 0 t40 t41 t42 true) tr1).
      { exists (List.length tr0), (2 + List.length tr0)%nat.
        cbn [start_receive_time last_report_time].
        split; [|split; assumption].
        unfold tr1. rewrite length_app. cbn [List.length]. lia. }
      destruct (receive_iters_times script n _ tr1 J0) as (s & new & E & J).
      exists s, (new ++ [EvPrint (Text (Py.lit "Waiting for responses from MCU..."));
                         EvTime L42 t42; EvTime L41 t41; EvTime L40 t40]).
      split.
      * rewrite E. f_equal. unfold tr1. same_list.
      * unfold tr1 in J. now rewrite <- app_assoc.
    + intros st tr. now apply due_report_is_printed.
Qed.

Lemma throughput_reports_witness :
  (exists seg older,
     snd ((Env.bind (rx_init Scenarios.chatty)
             (receive_iters Scenarios.chatty 1)) []) = seg /\
     seg = [EvTime L64 12; EvTime L63 11]
             ++ EvPrint (SpeedRx (8 # 9)%Q) :: older /\
     exists t58 rest start,
       older = EvTime L58 t58 :: rest /\
       interval_start rest = Some start /\
       (0 < t58 - start)%Q /\
       (8 # 9 == inject_Z (interval_bytes rest * 8) / (t58 - start))%Q /\
       (0 <= 8 # 9)%Q /\
       (interval_bytes rest = 0%Z -> (8 # 9 == 0)%Q)) /\
  clock_monotone Scenarios.chatty /\
  times_read Scenarios.chatty Scenarios.after_one_byte [EvTime L54 1] /\
  (1 <= time_now (Scenarios.chatty (List.length [EvTime L54 1]))
        - last_report_time Scenarios.after_one_byte)%Q /\
  exists st' t64 t63 t58 t57,
    rx_report Scenarios.chatty Scenarios.after_one_byte [EvTime L54 1] =
      (Ok st',
       [EvTime L64 t64; EvTime L63 t63;
        EvPrint (SpeedRx
          (inject_Z (total_received_bytes Scenarios.after_one_byte * 8)
           / (t58 - start_receive_time Scenarios.after_one_byte)));
        EvTime L58 t58; EvTime L57 t57] ++ [EvTime L54 1]).
Proof.
  assert (Hm : clock_monotone Scenarios.chatty).
  { intro k. cbn [Scenarios.chatty time_now]. rewrite <- Zle_Qle. lia. }
  assert (J : times_read Scenarios.chatty Scenarios.after_one_byte
                [EvTime L54 1]).
  { exists 0%nat, 0%nat. split; [cbn; lia|]. split; reflexivity. }
  assert (Hdue : (1 <= time_now (Scenarios.chatty (List.length [EvTime L54 1]))
                       - last_report_time Scenarios.after_one_byte)%Q)
    by (vm_compute; discriminate).
  split; [|split; [exact Hm|split; [exact J|split; [exact Hdue|]]]].
  - destruct (proj1 (throughput_reports Scenarios.chatty) 1%nat [])
      as (s & seg & E & _ & _ & H).
    rewrite app_nil_r in E.
    assert (Hseg : snd ((Env.bind (rx_init Scenarios.chatty)
                           (receive_iters Scenarios.chatty 1)) []) = seg)
      by exact (f_equal snd E).
    assert (Hsplit : seg = [EvTime L64 12; EvTime L63 11]
                             ++ EvPrint (SpeedRx (8 # 9)%Q) :: skipn 3 seg)
      by (rewrite <- Hseg; vm_compute; reflexivity).
    exists seg, (skipn 3 seg).
    split; [exact Hseg|]. split; [exact Hsplit|].
    exact (H _ _ _ Hsplit).
  - exact (proj2 (proj2 (proj2 (throughput_reports Scenarios.chatty)) Hm)
             Scenarios.after_one_byte [EvTime L54 1] J Hdue).
Defined.

(** One turn of the loop returns, whatever the locals and the world. *)
Lemma receive_iter_total (script : Script) (st : RxState) (tr : Trace) :
  exists s new, receive_iter script st tr = (Ok s, new ++ tr).
Proof.
  unfold receive_iter.
  assert (H1 : exists st1 new1, rx_poll script st tr = (Ok st1, new1 ++ tr)).
  { destruct (rx_poll_spec script st tr)
      as [(new & E & _)|(n & b & t & E & _)]; eauto. }
  destruct H1 as (st1 & new1 & E1). rewrite (bind_ok _ _ _ _ _ _ _ E1).
  destruct (rx_timed_out_spec script st1 (new1 ++ tr)) as (t & stop & E2 & _).
  rewrite (bind_ok _ _ _ _ _ _ _ E2).
  destruct stop.
  - exists (Break st1), (EvTime L54 t :: new1). reflexivity.
  - assert (H3 : exists st2 new2,
      rx_report script st1 (EvTime L54 t :: new1 ++ tr)
        = (Ok st2, new2 ++ EvTime L54 t :: new1 ++ tr)).
    { destruct (rx_report_spec script st1 (EvTime L54 t :: new1 ++ tr))
        as [(t57 & E & _)|(t57 & t58 & t63 & t64 & out & E & _)].
      - eauto.
      - do 2 eexists. rewrite E. f_equal. rewrite !app_assoc. reflexivity. }
    destruct H3 as (st2 & new2 & E3). rewrite (bind_ok _ _ _ _ _ _ _ E3).
    exists (Continue st2), (new2 ++ EvTime L54 t :: new1).
    unfold ret. f_equal. same_list.
Qed.

Lemma receive_iters_total (script : Script) (n : nat) :
  forall st tr, exists s new, receive_iters script n st tr = (Ok s, new ++ tr).
Proof.
  induction n as [|n IH]; intros st tr.
  - exists (Continue st), []. reflexivity.
  - cbn [receive_iters].
    destruct (receive_iter_total script st tr) as (s & new & E).
    rewrite (bind_ok _ _ _ _ _ _ _ E).
    destruct s as [st'|st'].
    + destruct (IH st' (new ++ tr)) as (s2 & new2 & E2).
      exists s2, (new2 ++ new). rewrite E2. f_equal. same_list.
    + exists (Break st'), new. reflexivity.
Qed.

(** C9. The division of line 60 is never by zero. A division by zero
    would raise; the report block, from any locals and in any world,
    does not raise, and when it prints a speed, the denominator, the
    reading of line 58 minus the start of the interval, is strictly
    positive. Neither the loop nor [receive_data] ever ends with
    [ZeroDivisionError]. *)
Theorem division_is_guarded (script : Script) :
  (forall a b tr,
     (b == 0)%Q -> py_div a b tr = (Raise ZeroDivisionError, tr)) /\
  (forall st tr,
     exists st' new,
       rx_report script st tr = (Ok st', new ++ tr) /\
       forall v,
         In (EvPrint (SpeedRx v)) new ->
         exists t58,
           In (EvTime L58 t58) new /\
           (0 < t58 - start_receive_time st)%Q /\
           v = (inject_Z (total_received_bytes st * 8)
                / (t58 - start_receive_time st))%Q) /\
  (forall n st tr,
     exists s new, receive_iters script n st tr = (Ok s, new ++ tr)) /\
  (forall fuel tr,
     fst (receive_data script fuel tr) <> Raise ZeroDivisionError).
Proof.
  split; [|split; [|split]].
  - intros a b tr Hb. unfold py_div.
    apply Qeq_bool_iff in Hb. now rewrite Hb.
  - intros st tr.
    destruct (rx_report_spec script st tr)
      as [(t57 & E & _)
         |(t57 & t58 & t63 & t64 & out & E & _ & _ & [[-> _]|[-> Hpos]])].
    + exists st, [EvTime L57 t57]. split; [exact E|].
      intros v [H|[]]. discriminate.
    + eexists.
      exists [EvTime L64 t64; EvTime L63 t63; EvTime L58 t58; EvTime L57 t57].
      split; [exact E|].
      intros v H. cbn [In] in H.
      destruct H as [H|[H|[H|[H|[]]]]]; discriminate.
    + eexists.
      exists [EvTime L64 t64; EvTime L63 t63;
              EvPrint (SpeedRx (inject_Z (total_received_bytes st * 8)
                                / (t58 - start_receive_time st)));
              EvTime L58 t58; EvTime L57 t57].
      split; [exact E|].
      intros v H. cbn [In] in H.
      destruct H as [H|[H|[H|[H|[H|[]]]]]]; try discriminate.
      inversion H; subst v.
      exists t58. split; [cbn; auto|]. split; [exact Hpos|reflexivity].
  - apply receive_iters_total.
  - intros fuel tr.
    destruct (receive_data_result script fuel tr) as (r & seg & E & [-> | ->] & _);
      rewrite E; discriminate.
Qed.

Lemma division_is_guarded_witness :
  (0 == 0)%Q /\
  py_div 8 0 [] = (Raise ZeroDivisionError, []) /\
  exists st' new,
    rx_report Scenarios.chatty Scenarios.after_one_byte [EvTime L54 1]
      = (Ok st', new ++ [EvTime L54 1]) /\
    In (EvPrint (SpeedRx (8 # 2)%Q)) new /\
    exists t58,
      In (EvTime L58 t58) new /\
      (0 < t58 - start_receive_time Scenarios.after_one_byte)%Q /\
      (8 # 2)%Q = (inject_Z (total_received_bytes Scenarios.after_one_byte * 8)
                 / (t58 - start_receive_time Scenarios.after_one_byte))%Q.
Proof.
  split; [reflexivity|].
  split; [exact (proj1 (division_is_guarded Scenarios.chatty) 8%Q 0%Q []
                   (Qeq_refl 0))|].
  destruct (proj1 (proj2 (division_is_guarded Scenarios.chatty))
              Scenarios.after_one_byte [EvTime L54 1]) as (st' & new & E & H).
  exists st', new. split; [exact E|].
  assert (Hin : In (EvPrint (SpeedRx (8 # 2)%Q)) new).
  { vm_compute in E. injection E as _ En.
    change ([EvTime L64 5; EvTime L63 4; EvPrint (SpeedRx (8 # 2)%Q);
             EvTime L58 2; EvTime L57 1] ++ [EvTime L54 1]
            = new ++ [EvTime L54 1]) in En.
    apply app_inv_tail in En. subst new. cbn. auto. }
  split; [exact Hin|]. exact (H (8 # 2)%Q Hin).
Defined.

Lemma tx_reads_nothing (tx : Trace) :
  Forall (fun ev => tx_event ev = true) tx -> rx_bytes tx = [].
Proof.
  induction 1 as [|ev tx Hev _ IH]; [reflexivity|].
  destruct ev; cbn in *; try exact IH. discriminate.
Qed.

Lemma rx_drains_nothing (seg : Trace) :
  Forall (fun ev => rx_event ev = true) seg -> drained seg = [].
Proof.
  induction 1 as [|ev tx Hev _ IH]; [reflexivity|].
  destruct ev; cbn in *; try exact IH. discriminate.
Qed.

Lemma interval_bytes_le (tr : Trace) :
  (interval_bytes tr <= Z.of_nat (List.length (rx_bytes tr)))%Z.
Proof.
  unfold interval_bytes. apply inj_le.
  induction tr as [|ev tr IH]; [reflexivity|].
  destruct ev as [| |data| |site t| | |]; cbn [since_reset rx_bytes]; try exact IH.
  - rewrite !length_app. lia.
  - destruct (starts_interval site); cbn [rx_bytes List.length]; [lia|exact IH].
Qed.

(** C8. Once the transmitter has returned, the receiver starts from an
    empty buffer and a zero counter, and after any number of turns of
    its loop its buffer is exactly the bytes handed over by the
    [ser.read(1)] calls made since then, in order, and its counter
    counts some of these. The transmitter made no such call: what it
    took from the port it took with [ser.readline], and the receiver
    makes no [ser.readline] call. So no byte drained during
    transmission is in the receiver's buffer or count. *)
Theorem receiver_counts_only_its_reads
    (script : Script) (P : Py.str) (n : nat) (tr0 : Trace)
    (k : Z) (tr1 : Trace) :
  send_data script P tr0 = (Ok k, tr1) ->
  exists tx s seg,
    tr1 = tx ++ tr0 /\
    rx_bytes tx = [] /\
    (st0 <- rx_init script ;; receive_iters script n st0) tr1
      = (Ok s, seg ++ tx ++ tr0) /\
    drained seg = [] /\
    received_data (step_state s) = rx_bytes seg /\
    (0 <= total_received_bytes (step_state s)
       <= Z.of_nat (List.length (rx_bytes seg)))%Z /\
    (n = 0%nat ->
     received_data (step_state s) = [] /\
     total_received_bytes (step_state s) = 0%Z).
Proof.
  intro Es.
  destruct (send_data_events _ _ _ _ _ Es) as (tx & -> & Ftx).
  destruct (receive_run_inv script n (tx ++ tr0)) as (s & seg & E & Is).
  exists tx, s, seg.
  split; [reflexivity|]. split; [apply tx_reads_nothing; exact Ftx|].
  split; [exact E|].
  destruct (StepInv_state s seg Is) as (Hd & Ht & _ & _ & Frx).
  split; [apply rx_drains_nothing; exact Frx|].
  split; [exact Hd|]. split.
  - rewrite Ht. split; [apply interval_bytes_nonneg|apply interval_bytes_le].
  - intros ->. cbn [receive_iters] in E.
    destruct (rx_init_spec script (tx ++ tr0)) as (t40 & t41 & t42 & E0 & _).
    rewrite (bind_ok _ _ _ _ _ _ _ E0) in E. unfold ret in E.
    inversion E. split; reflexivity.
Qed.

Lemma receiver_counts_only_its_reads_witness :
  exists k tr1,
    send_data Scenarios.chatty (Py.lit "AB") [] = (Ok k, tr1) /\
    drained tr1 = [x4f; x4b; x0a; x4f; x4b; x0a] /\
    exists tx s seg,
      tr1 = tx ++ [] /\
      rx_bytes tx = [] /\
      (st0 <- rx_init Scenarios.chatty ;;
       receive_iters Scenarios.chatty 3 st0) tr1
        = (Ok s, seg ++ tx ++ []) /\
      drained seg = [] /\
      received_data (step_state s) = rx_bytes seg /\
      (0 <= total_received_bytes (step_state s)
         <= Z.of_nat (List.length (rx_bytes seg)))%Z /\
      (3%nat = 0%nat ->
       received_data (step_state s) = [] /\
       total_received_bytes (step_state s) = 0%Z).
Proof.
  exists 2%Z.
  exists (snd (send_data Scenarios.chatty (Py.lit "AB") [])).
  split; [reflexivity|]. split; [reflexivity|].
  apply (receiver_counts_only_its_reads Scenarios.chatty (Py.lit "AB") 3 [] 2).
  reflexivity.
Defined.

End ReportFacts.

(* ================================================================== *)
(** ** The UTF-8 codec *)

Module Utf8Facts.
Import Utf8.

Lemma bad_second3_not_cont (ch : N) (a : byte) :
  is_continuation a = false -> bad_second3 ch a = true.
Proof. intro H. unfold bad_second3. now rewrite H. Qed.

Lemma bad_second4_not_cont (ch : N) (a : byte) :
  is_continuation a = false -> bad_second4 ch a = true.
Proof. intro H. unfold bad_second4. now rewrite H. Qed.

Ltac by_IH IH Ht :=
  first [ apply IH
        | match goal with
          | |- decode_ignore (?b :: ?t ++ ?x) = _ => apply (IH (b :: t) x)
          end ];
  [cbn [List.length] in *; lia|exact Ht].
Ltac at_end text Ht :=
  let a := fresh "a" in
  destruct text as [|a text]; [reflexivity|];
  cbn [starts_form] in Ht; cbv beta iota;
  rewrite ?Ht, ?(bad_second3_not_cont _ a Ht), ?(bad_second4_not_cont _ a Ht);
  reflexivity.

Lemma decode_app (n : nat) : forall bad text,
  (List.length bad <= n)%nat ->
  starts_form text ->
  decode_ignore (bad ++ text) = decode_ignore bad ++ decode_ignore text.
Proof.
  induction n as [|n IH]; intros bad text Hlen Ht.
  - destruct bad; [reflexivity|cbn in Hlen; lia].
  - destruct bad as [|b1 t1]; [reflexivity|].
    cbn [app decode_ignore].
    destruct (Byte.to_N b1 <? 128)%N; [cbn [app]; f_equal; by_IH IH Ht|].
    destruct (Byte.to_N b1 <? 194)%N; [by_IH IH Ht|].
    destruct (Byte.to_N b1 <? 224)%N.
    { destruct t1 as [|b2 t2]; cbn [app]; [at_end text Ht|].
      destruct (is_continuation b2); [cbn [app]; f_equal|]; by_IH IH Ht. }
    destruct (Byte.to_N b1 <? 240)%N.
    { destruct t1 as [|b2 t2]; cbn [app]; [at_end text Ht|].
      destruct (bad_second3 (Byte.to_N b1) b2); [by_IH IH Ht|].
      destruct t2 as [|b3 t3]; cbn [app]; [at_end text Ht|].
      destruct (is_continuation b3); [cbn [app]; f_equal|]; by_IH IH Ht. }
    destruct (Byte.to_N b1 <? 245)%N; [|by_IH IH Ht].
    destruct t1 as [|b2 t2]; cbn [app]; [at_end text Ht|].
    destruct (bad_second4 (Byte.to_N b1) b2); [by_IH IH Ht|].
    destruct t2 as [|b3 t3]; cbn [app]; [at_end text Ht|].
    destruct (is_continuation b3); cbn [negb]; [|by_IH IH Ht].
    destruct t3 as [|b4 t4]; cbn [app]; [at_end text Ht|].
    destruct (is_continuation b4); [cbn [app]; f_equal|]; by_IH IH Ht.
Qed.

Local Open Scope N_scope.

Lemma to_N_byte_of_N (n : N) : n < 256 -> Byte.to_N (byte_of_N n) = n.
Proof.
  intro H. unfold byte_of_N. destruct (Byte.of_N n) as [b|] eqn:E.
  - now apply Byte.to_of_N.
  - apply Byte.of_N_None_iff in E. lia.
Qed.

Lemma below_checked (P : N -> bool) (n : nat) :
  forallb P (map N.of_nat (seq 0 n)) = true ->
  forall x, x < N.of_nat n -> P x = true.
Proof.
  intros H x Hx. rewrite forallb_forall in H. apply H.
  apply in_map_iff. exists (N.to_nat x). split; [lia|].
  apply in_seq. lia.
Qed.

Lemma lor_low (hi x : N) :
  (hi =? 128) || (hi =? 192) || (hi =? 224) || (hi =? 240) = true ->
  x < 64 -> hi + x < 256 -> N.lor hi x = hi + x.
Proof.
  intros Hhi Hx Hs.
  pose (P := fun y => (N.lor hi y =? hi + y) || (256 <=? hi + y)).
  assert (E : P x = true).
  { apply (below_checked P 64); [|exact Hx]. unfold P.
    repeat (apply orb_prop in Hhi; destruct Hhi as [Hhi|Hhi]);
      apply N.eqb_eq in Hhi; subst hi; vm_compute; reflexivity. }
  unfold P in E. apply orb_prop in E. destruct E as [E|E].
  - now apply N.eqb_eq in E.
  - apply N.leb_le in E. lia.
Qed.

Lemma shiftr6 (c : N) : N.shiftr c 6 = c / 64.
Proof. apply (N.shiftr_div_pow2 c 6). Qed.
Lemma shiftr12 (c : N) : N.shiftr c 12 = c / 4096.
Proof. apply (N.shiftr_div_pow2 c 12). Qed.
Lemma shiftr18 (c : N) : N.shiftr c 18 = c / 262144.
Proof. apply (N.shiftr_div_pow2 c 18). Qed.
Lemma land63 (c : N) : N.land c 63 = c mod 64.
Proof. apply (N.land_ones c 6). Qed.
Lemma shiftl6 (c : N) : N.shiftl c 6 = c * 64.
Proof. apply (N.shiftl_mul_pow2 c 6). Qed.
Lemma shiftl12 (c : N) : N.shiftl c 12 = c * 4096.
Proof. apply (N.shiftl_mul_pow2 c 12). Qed.
Lemma shiftl18 (c : N) : N.shiftl c 18 = c * 262144.
Proof. apply (N.shiftl_mul_pow2 c 18). Qed.

Lemma cont_byte (r : N) :
  r < 64 -> Byte.to_N (byte_of_N (N.lor 128 r)) = 128 + r /\
            is_continuation (byte_of_N (N.lor 128 r)) = true.
Proof.
  intro Hr. rewrite (lor_low 128 r eq_refl Hr) by lia.
  assert (E : Byte.to_N (byte_of_N (128 + r)) = 128 + r)
    by (apply to_N_byte_of_N; lia).
  split; [exact E|]. unfold is_continuation. rewrite E.
  apply andb_true_iff. split; [apply N.leb_le|apply N.ltb_lt]; lia.
Qed.

Lemma divmod64 (c : N) : c = 64 * (c / 64) + c mod 64 /\ c mod 64 < 64.
Proof.
  split; [apply N.div_mod; lia|apply N.mod_lt; lia].
Qed.

Lemma lead_byte (hi q : N) :
  (hi =? 128) || (hi =? 192) || (hi =? 224) || (hi =? 240) = true ->
  q < 64 -> hi + q < 256 ->
  Byte.to_N (byte_of_N (N.lor hi q)) = hi + q.
Proof.
  intros Hhi Hq Hs. rewrite (lor_low hi q Hhi Hq Hs).
  now apply to_N_byte_of_N.
Qed.

Lemma decode_encode_char (c : N) (bs rest : Py.bytes) :
  c < 1114112 ->
  encode_char c = Some bs ->
  decode_ignore (bs ++ rest) = c :: decode_ignore rest.
Proof.
  intros Hc. unfold encode_char.
  destruct (N.ltb_spec c 128) as [H1|H1].
  { pose proof (to_N_byte_of_N c ltac:(lia)) as V.
    set (B := byte_of_N c) in *. clearbody B.
    intro E; injection E as <-.
    cbn [app decode_ignore]. rewrite V.
    destruct (N.ltb_spec c 128); [reflexivity|lia]. }
  rewrite !shiftr6, !shiftr12, !shiftr18, !land63.
  destruct (divmod64 c) as [E0 R0]. set (r0 := c mod 64) in *.
  set (q0 := c / 64) in *.
  destruct (cont_byte r0 R0) as [V0 C0].
  set (B0 := byte_of_N (N.lor 128 r0)) in *. clearbody B0.
  destruct (N.ltb_spec c 2048) as [H2|H2].
  { pose proof (lead_byte 192 q0 eq_refl ltac:(lia) ltac:(lia)) as V.
    set (B := byte_of_N (N.lor 192 q0)) in *. clearbody B.
    intro E; injection E as <-.
    cbn [app decode_ignore]. rewrite V.
    destruct (N.ltb_spec (192 + q0) 128); [lia|].
    destruct (N.ltb_spec (192 + q0) 194); [lia|].
    destruct (N.ltb_spec (192 + q0) 224); [|lia].
    rewrite C0. f_equal. unfold cp2. rewrite V0, !shiftl6. lia. }
  destruct (divmod64 q0) as [E1 R1]. set (r1 := q0 mod 64) in *.
  set (q1 := q0 / 64) in *.
  replace (c / 4096) with q1
    by (unfold q1, q0; rewrite N.Div0.div_div; reflexivity).
  destruct (cont_byte r1 R1) as [V1 C1].
  set (B1 := byte_of_N (N.lor 128 r1)) in *. clearbody B1.
  destruct (N.ltb_spec c 65536) as [H3|H3].
  { assert (Hs : is_surrogate c = true -> 55296 <= c <= 57343).
    { unfold is_surrogate. intro H. apply andb_true_iff in H.
      destruct H as [Ha Hb]. apply N.leb_le in Ha, Hb. lia. }
    assert (Hn : is_surrogate c = false -> c < 55296 \/ 57343 < c).
    { unfold is_surrogate. intro H. apply andb_false_iff in H.
      destruct H as [H|H]; apply N.leb_gt in H; lia. }
    destruct (is_surrogate c); [discriminate|]. specialize (Hn eq_refl).
    pose proof (lead_byte 224 q1 eq_refl ltac:(lia) ltac:(lia)) as V.
    set (B := byte_of_N (N.lor 224 q1)) in *. clearbody B.
    intro E; injection E as <-.
    cbn [app decode_ignore]. rewrite V.
    destruct (N.ltb_spec (224 + q1) 128); [lia|].
    destruct (N.ltb_spec (224 + q1) 194); [lia|].
    destruct (N.ltb_spec (224 + q1) 224); [lia|].
    destruct (N.ltb_spec (224 + q1) 240); [|lia].
    unfold bad_second3. rewrite C1, V1, C0. cbn [negb orb].
    destruct (N.ltb_spec (128 + r1) 160);
      [destruct (N.eqb_spec (224 + q1) 224); [lia|]
      |destruct (N.eqb_spec (224 + q1) 237); [lia|]];
      f_equal; unfold cp3; rewrite V1, V0, !shiftl6, !shiftl12; lia. }
  destruct (divmod64 q1) as [E2 R2]. set (r2 := q1 mod 64) in *.
  set (q2 := q1 / 64) in *.
  replace (c / 262144) with q2
    by (unfold q2, q1, q0; rewrite !N.Div0.div_div; reflexivity).
  destruct (cont_byte r2 R2) as [V2 C2].
  set (B2 := byte_of_N (N.lor 128 r2)) in *. clearbody B2.
  pose proof (lead_byte 240 q2 eq_refl ltac:(lia) ltac:(lia)) as V.
  set (B := byte_of_N (N.lor 240 q2)) in *. clearbody B.
  intro E; injection E as <-.
  cbn [app decode_ignore]. rewrite V.
  destruct (N.ltb_spec (240 + q2) 128); [lia|].
  destruct (N.ltb_spec (240 + q2) 194); [lia|].
  destruct (N.ltb_spec (240 + q2) 224); [lia|].
  destruct (N.ltb_spec (240 + q2) 240); [lia|].
  destruct (N.ltb_spec (240 + q2) 245); [|lia].
  unfold bad_second4. rewrite C2, V2, C1, C0. cbn [negb orb].
  destruct (N.ltb_spec (128 + r2) 144);
    [destruct (N.eqb_spec (240 + q2) 240); [lia|]
    |destruct (N.eqb_spec (240 + q2) 244); [lia|]];
    f_equal; unfold cp4; rewrite V2, V1, V0, !shiftl6, !shiftl12, !shiftl18; lia.
Qed.

Lemma decode_encode (s : Py.str) : forall enc rest,
  Forall is_code_point s ->
  encode s = Some enc ->
  decode_ignore (enc ++ rest) = s ++ decode_ignore rest.
Proof.
  induction s as [|c s IH]; intros enc rest Hv He.
  - injection He as <-. reflexivity.
  - cbn [encode] in He.
    destruct (encode_char c) as [b|] eqn:Ec; [|discriminate].
    destruct (encode s) as [bs|] eqn:Es; [|discriminate].
    injection He as <-. inversion Hv; subst.
    rewrite <- app_assoc, (decode_encode_char c b _ H1 Ec).
    cbn [app]. f_equal. now apply IH.
Qed.

(** The first byte of a character's encoding is not a continuation
    byte. *)
Lemma encode_char_starts_form (c : N) (bs rest : Py.bytes) :
  c < 1114112 ->
  encode_char c = Some bs ->
  starts_form (bs ++ rest).
Proof.
  intros Hc. unfold encode_char.
  assert (Hlead : forall B v, Byte.to_N B = v -> v < 128 \/ 192 <= v ->
                              is_continuation B = false).
  { intros B v <- Hv. unfold is_continuation. apply andb_false_iff.
    destruct Hv; [left; apply N.leb_gt|right; apply N.ltb_ge]; lia. }
  rewrite !shiftr6, !shiftr12, !shiftr18.
  destruct (divmod64 c) as [E0 R0].
  set (r0 := c mod 64) in *. set (q0 := c / 64) in *.
  destruct (divmod64 q0) as [E1 R1].
  set (r1 := q0 mod 64) in *. set (q1 := q0 / 64) in *.
  destruct (divmod64 q1) as [E2 R2].
  set (r2 := q1 mod 64) in *. set (q2 := q1 / 64) in *.
  replace (c / 4096) with q1
    by (unfold q1, q0; rewrite N.Div0.div_div; reflexivity).
  replace (c / 262144) with q2
    by (unfold q2, q1, q0; rewrite !N.Div0.div_div; reflexivity).
  destruct (N.ltb_spec c 128) as [H1|H1].
  { pose proof (to_N_byte_of_N c ltac:(lia)) as V.
    set (B := byte_of_N c) in *. clearbody B.
    intro E; injection E as <-. cbn [app starts_form].
    apply (Hlead B c V). lia. }
  destruct (N.ltb_spec c 2048) as [H2|H2].
  { pose proof (lead_byte 192 q0 eq_refl ltac:(lia) ltac:(lia)) as V.
    set (B := byte_of_N (N.lor 192 q0)) in *. clearbody B.
    intro E; injection E as <-. cbn [app starts_form].
    apply (Hlead B _ V). lia. }
  destruct (N.ltb_spec c 65536) as [H3|H3].
  { destruct (is_surrogate c); [discriminate|].
    pose proof (lead_byte 224 q1 eq_refl ltac:(lia) ltac:(lia)) as V.
    set (B := byte_of_N (N.lor 224 q1)) in *. clearbody B.
    intro E; injection E as <-. cbn [app starts_form].
    apply (Hlead B _ V). lia. }
  pose proof (lead_byte 240 q2 eq_refl ltac:(lia) ltac:(lia)) as V.
  set (B := byte_of_N (N.lor 240 q2)) in *. clearbody B.
  intro E; injection E as <-. cbn [app starts_form].
  apply (Hlead B _ V). lia.
Qed.

Lemma encode_starts_form (s : Py.str) (enc : Py.bytes) :
  Forall is_code_point s -> encode s = Some enc -> starts_form enc.
Proof.
  destruct s as [|c s]; intros Hv He.
  - injection He as <-. exact I.
  - cbn [encode] in He.
    destruct (encode_char c) as [b|] eqn:Ec; [|discriminate].
    destruct (encode s) as [bs|]; [|discriminate].
    injection He as <-. inversion Hv; subst.
    now apply (encode_char_starts_form c).
Qed.

Lemma ascii_not_continuation (a : byte) :
  is_ascii_byte a = true -> is_continuation a = false.
Proof.
  unfold is_ascii_byte, is_continuation. intro H.
  apply N.ltb_lt in H. apply andb_false_iff. left. apply N.leb_gt. lia.
Qed.

(** ASCII bytes decode to themselves. *)
Lemma decode_ascii (text : Py.bytes) :
  Forall (fun b => is_ascii_byte b = true) text ->
  decode_ignore text = map Byte.to_N text.
Proof.
  induction 1 as [|a text Ha _ IH]; [reflexivity|].
  cbn [decode_ignore map]. unfold is_ascii_byte in Ha. rewrite Ha.
  now rewrite IH.
Qed.

(** A byte that can start no form is skipped. *)
Lemma decode_invalid_start (b : byte) (rest : Py.bytes) :
  is_invalid_start b = true ->
  decode_ignore (b :: rest) = decode_ignore rest.
Proof.
  unfold is_invalid_start. intro H. cbn [decode_ignore].
  assert (Hv : 128 <= Byte.to_N b < 194 \/ 245 <= Byte.to_N b).
  { apply orb_prop in H. destruct H as [H|H].
    - apply andb_true_iff in H. destruct H as [Ha Hb].
      apply N.leb_le in Ha. apply N.ltb_lt in Hb. lia.
    - apply N.leb_le in H. lia. }
  clear H.
  destruct (N.ltb_spec (Byte.to_N b) 128); [lia|].
  destruct (N.ltb_spec (Byte.to_N b) 194); [reflexivity|].
  destruct (N.ltb_spec (Byte.to_N b) 224); [lia|].
  destruct (N.ltb_spec (Byte.to_N b) 240); [lia|].
  destruct (N.ltb_spec (Byte.to_N b) 245); [lia|reflexivity].
Qed.

(** *** The decoder against the definition of well-formed UTF-8 *)

Lemma byte_of_to_N (b : byte) : byte_of_N (Byte.to_N b) = b.
Proof. unfold byte_of_N. now rewrite Byte.of_to_N. Qed.

Lemma to_N_below (b : byte) : Byte.to_N b < 256.
Proof. pose proof (Byte.to_N_bounded b). lia. Qed.

Lemma continuation_range (b : byte) :
  is_continuation b = true <-> 128 <= Byte.to_N b < 192.
Proof.
  unfold is_continuation. rewrite andb_true_iff, N.leb_le, N.ltb_lt.
  tauto.
Qed.

Lemma is_scalar_spec (c : N) :
  is_scalar c = true <-> c < 1114112 /\ (c < 55296 \/ 57343 < c).
Proof.
  unfold is_scalar, is_surrogate.
  rewrite andb_true_iff, negb_true_iff, andb_false_iff, N.ltb_lt,
    !N.leb_gt.
  tauto.
Qed.

Lemma decode_continuation (b : byte) (rest : Py.bytes) :
  is_continuation b = true ->
  decode_ignore (b :: rest) = decode_ignore rest.
Proof.
  intro H. apply decode_invalid_start. apply continuation_range in H.
  unfold is_invalid_start. apply orb_true_iff. left.
  apply andb_true_iff. split; [apply N.leb_le|apply N.ltb_lt]; lia.
Qed.

Lemma decode_continuations (conts rest : Py.bytes) :
  Forall (fun b => is_continuation b = true) conts ->
  decode_ignore (conts ++ rest) = decode_ignore rest.
Proof.
  induction 1 as [|b conts Hb _ IH]; [reflexivity|].
  cbn [app]. now rewrite (decode_continuation b _ Hb).
Qed.

(** A well-formed form is a lead byte followed by continuation bytes. *)
Lemma well_formed_shape (form : Py.bytes) (c : N) :
  well_formed form c ->
  exists b conts,
    form = b :: conts /\ Forall (fun a => is_continuation a = true) conts.
Proof.
  intros [_ E]. revert E. unfold encode_char.
  rewrite !shiftr6, !shiftr12, !land63.
  pose proof (cont_byte (c mod 64) (proj2 (divmod64 c))) as [_ C0].
  pose proof (cont_byte ((c / 64) mod 64) (proj2 (divmod64 (c / 64))))
    as [_ K1].
  pose proof (cont_byte ((c / 4096) mod 64) (proj2 (divmod64 (c / 4096))))
    as [_ K2].
  set (B0 := byte_of_N (N.lor 128 (c mod 64))) in *. clearbody B0.
  set (B1 := byte_of_N (N.lor 128 ((c / 64) mod 64))) in *. clearbody B1.
  set (B2 := byte_of_N (N.lor 128 ((c / 4096) mod 64))) in *. clearbody B2.
  set (L1 := byte_of_N c). clearbody L1.
  set (L2 := byte_of_N (N.lor 192 (c / 64))). clearbody L2.
  set (L3 := byte_of_N (N.lor 224 (c / 4096))). clearbody L3.
  set (L4 := byte_of_N (N.lor 240 (N.shiftr c 18))). clearbody L4.
  destruct (c <? 128); [intro E; injection E as <-; eauto|].
  destruct (c <? 2048); [intro E; injection E as <-; eauto 6|].
  destruct (c <? 65536).
  - destruct (is_surrogate c); [discriminate|].
    intro E; injection E as <-. eauto 7.
  - intro E; injection E as <-. eauto 8.
Qed.

(** The forms the decoder accepts are well formed: two bytes. *)
Lemma well_formed_cp2 (b1 b2 : byte) :
  194 <= Byte.to_N b1 < 224 ->
  is_continuation b2 = true ->
  well_formed [b1; b2] (cp2 (Byte.to_N b1) b2).
Proof.
  intros H1 H2. apply continuation_range in H2.
  pose proof (byte_of_to_N b1) as I1. pose proof (byte_of_to_N b2) as I2.
  unfold cp2. rewrite !shiftl6.
  set (n1 := Byte.to_N b1) in *. set (n2 := Byte.to_N b2) in *.
  set (c := n1 * 64 + n2 - (192 * 64 + 128)).
  assert (Ec : c = 64 * (n1 - 192) + (n2 - 128)) by (unfold c; lia).
  assert (Q0 : c / 64 = n1 - 192)
    by (symmetry; apply (N.div_unique c 64 _ (n2 - 128)); lia).
  assert (R0 : c mod 64 = n2 - 128)
    by (symmetry; apply (N.mod_unique c 64 (n1 - 192)); lia).
  split.
  - apply is_scalar_spec. lia.
  - unfold encode_char. rewrite shiftr6, land63, Q0, R0.
    destruct (N.ltb_spec c 128); [lia|].
    destruct (N.ltb_spec c 2048); [|lia].
    rewrite (lor_low 192 (n1 - 192) eq_refl) by lia.
    rewrite (lor_low 128 (n2 - 128) eq_refl) by lia.
    replace (192 + (n1 - 192)) with n1 by lia.
    replace (128 + (n2 - 128)) with n2 by lia.
    now rewrite I1, I2.
Qed.

(** Three bytes. *)
Lemma well_formed_cp3 (b1 b2 b3 : byte) :
  224 <= Byte.to_N b1 < 240 ->
  bad_second3 (Byte.to_N b1) b2 = false ->
  is_continuation b3 = true ->
  well_formed [b1; b2; b3] (cp3 (Byte.to_N b1) b2 b3).
Proof.
  intros H1 H2 H3. apply continuation_range in H3.
  unfold bad_second3 in H2. apply orb_false_iff in H2.
  destruct H2 as [K2 S2]. apply negb_false_iff in K2.
  apply continuation_range in K2.
  pose proof (byte_of_to_N b1) as I1. pose proof (byte_of_to_N b2) as I2.
  pose proof (byte_of_to_N b3) as I3.
  unfold cp3. rewrite !shiftl6, !shiftl12.
  set (n1 := Byte.to_N b1) in *. set (n2 := Byte.to_N b2) in *.
  set (n3 := Byte.to_N b3) in *.
  assert (S : (n1 = 224 -> 160 <= n2) /\ (n1 = 237 -> n2 < 160)).
  { destruct (N.ltb_spec n2 160); apply N.eqb_neq in S2; lia. }
  clear S2.
  set (c := n1 * 4096 + n2 * 64 + n3 - (224 * 4096 + 128 * 64 + 128)).
  assert (Ec : c = 64 * (64 * (n1 - 224) + (n2 - 128)) + (n3 - 128))
    by (unfold c; lia).
  assert (Q0 : c / 64 = 64 * (n1 - 224) + (n2 - 128))
    by (symmetry; apply (N.div_unique c 64 _ (n3 - 128)); lia).
  assert (R0 : c mod 64 = n3 - 128)
    by (symmetry;
        apply (N.mod_unique c 64 (64 * (n1 - 224) + (n2 - 128))); lia).
  assert (Q1 : c / 4096 = n1 - 224).
  { change 4096 with (64 * 64). rewrite <- N.Div0.div_div, Q0.
    symmetry. apply (N.div_unique _ 64 _ (n2 - 128)); lia. }
  assert (R1 : (c / 64) mod 64 = n2 - 128)
    by (rewrite Q0; symmetry;
        apply (N.mod_unique _ 64 (n1 - 224)); lia).
  split.
  - apply is_scalar_spec. lia.
  - unfold encode_char. rewrite !shiftr6, !shiftr12, !land63, Q1, R1, R0.
    destruct (N.ltb_spec c 128); [lia|].
    destruct (N.ltb_spec c 2048); [lia|].
    destruct (N.ltb_spec c 65536); [|lia].
    assert (Hs : is_surrogate c = false).
    { unfold is_surrogate. apply andb_false_iff.
      rewrite !N.leb_gt. lia. }
    rewrite Hs.
    rewrite (lor_low 224 (n1 - 224) eq_refl) by lia.
    rewrite (lor_low 128 (n2 - 128) eq_refl) by lia.
    rewrite (lor_low 128 (n3 - 128) eq_refl) by lia.
    replace (224 + (n1 - 224)) with n1 by lia.
    replace (128 + (n2 - 128)) with n2 by lia.
    replace (128 + (n3 - 128)) with n3 by lia.
    now rewrite I1, I2, I3.
Qed.

(** Four bytes. *)
Lemma well_formed_cp4 (b1 b2 b3 b4 : byte) :
  240 <= Byte.to_N b1 < 245 ->
  bad_second4 (Byte.to_N b1) b2 = false ->
  is_continuation b3 = true ->
  is_continuation b4 = true ->
  well_formed [b1; b2; b3; b4] (cp4 (Byte.to_N b1) b2 b3 b4).
Proof.
  intros H1 H2 H3 H4. apply continuation_range in H3, H4.
  unfold bad_second4 in H2. apply orb_false_iff in H2.
  destruct H2 as [K2 S2]. apply negb_false_iff in K2.
  apply continuation_range in K2.
  pose proof (byte_of_to_N b1) as I1. pose proof (byte_of_to_N b2) as I2.
  pose proof (byte_of_to_N b3) as I3. pose proof (byte_of_to_N b4) as I4.
  unfold cp4. rewrite !shiftl6, !shiftl12, !shiftl18.
  set (n1 := Byte.to_N b1) in *. set (n2 := Byte.to_N b2) in *.
  set (n3 := Byte.to_N b3) in *. set (n4 := Byte.to_N b4) in *.
  assert (S : (n1 = 240 -> 144 <= n2) /\ (n1 = 244 -> n2 < 144)).
  { destruct (N.ltb_spec n2 144); apply N.eqb_neq in S2; lia. }
  clear S2.
  set (c := n1 * 262144 + n2 * 4096 + n3 * 64 + n4
            - (240 * 262144 + 128 * 4096 + 128 * 64 + 128)).
  set (a1 := n1 - 240). set (a2 := n2 - 128). set (a3 := n3 - 128).
  set (a4 := n4 - 128).
  assert (Ec : c = 64 * (64 * (64 * a1 + a2) + a3) + a4)
    by (unfold c, a1, a2, a3, a4; lia).
  assert (B : a1 < 5 /\ a2 < 64 /\ a3 < 64 /\ a4 < 64)
    by (unfold a1, a2, a3, a4; lia).
  assert (Q0 : c / 64 = 64 * (64 * a1 + a2) + a3)
    by (symmetry; apply (N.div_unique c 64 _ a4); lia).
  assert (R0 : c mod 64 = a4)
    by (symmetry; apply (N.mod_unique c 64 (64 * (64 * a1 + a2) + a3)); lia).
  assert (Q1 : c / 4096 = 64 * a1 + a2).
  { change 4096 with (64 * 64). rewrite <- N.Div0.div_div, Q0.
    symmetry. apply (N.div_unique _ 64 _ a3); lia. }
  assert (R1 : (c / 64) mod 64 = a3)
    by (rewrite Q0; symmetry; apply (N.mod_unique _ 64 (64 * a1 + a2)); lia).
  assert (Q2 : c / 262144 = a1).
  { change 262144 with (4096 * 64). rewrite <- N.Div0.div_div, Q1.
    symmetry. apply (N.div_unique _ 64 _ a2); lia. }
  assert (R2 : (c / 4096) mod 64 = a2)
    by (rewrite Q1; symmetry; apply (N.mod_unique _ 64 a1); lia).
  split.
  - apply is_scalar_spec. unfold a1, a2 in *. lia.
  - unfold encode_char.
    rewrite !shiftr6, !shiftr12, !shiftr18, !land63, Q2, R2, R1, R0.
    destruct (N.ltb_spec c 128); [unfold a1, a2 in *; lia|].
    destruct (N.ltb_spec c 2048); [unfold a1, a2 in *; lia|].
    destruct (N.ltb_spec c 65536); [unfold a1, a2 in *; lia|].
    rewrite (lor_low 240 a1 eq_refl) by lia.
    rewrite (lor_low 128 a2 eq_refl) by lia.
    rewrite (lor_low 128 a3 eq_refl) by lia.
    rewrite (lor_low 128 a4 eq_refl) by lia.
    replace (240 + a1) with n1 by (unfold a1; lia).
    replace (128 + a2) with n2 by (unfold a2; lia).
    replace (128 + a3) with n3 by (unfold a3; lia).
    replace (128 + a4) with n4 by (unfold a4; lia).
    now rewrite I1, I2, I3, I4.
Qed.

Lemma bad_second3_cont (ch : N) (b2 : byte) :
  bad_second3 ch b2 = false -> is_continuation b2 = true.
Proof.
  unfold bad_second3. intro H. apply orb_false_iff in H.
  now apply negb_false_iff.
Qed.

Lemma bad_second4_cont (ch : N) (b2 : byte) :
  bad_second4 ch b2 = false -> is_continuation b2 = true.
Proof.
  unfold bad_second4. intro H. apply orb_false_iff in H.
  now apply negb_false_iff.
Qed.

(** One step of the decoder: it drops the first byte and goes on, or
    it takes a well-formed form off the front and gives its scalar
    value. *)
Lemma decode_step (b1 : byte) (t1 : Py.bytes) :
  decode_ignore (b1 :: t1) = decode_ignore t1 \/
  exists form c rest,
    well_formed form c /\
    b1 :: t1 = form ++ rest /\
    decode_ignore (b1 :: t1) = c :: decode_ignore rest.
Proof.
  assert (Keep : forall form c rest,
            well_formed form c -> b1 :: t1 = form ++ rest ->
            decode_ignore (b1 :: t1) = decode_ignore t1 \/
            exists form c rest,
              well_formed form c /\
              b1 :: t1 = form ++ rest /\
              decode_ignore (b1 :: t1) = c :: decode_ignore rest).
  { intros form c rest W E. right. exists form, c, rest.
    split; [exact W|]. split; [exact E|]. rewrite E.
    apply decode_encode_char; [|apply W].
    destruct W as [W _]. apply is_scalar_spec in W. apply W. }
  destruct (N.ltb_spec (Byte.to_N b1) 128) as [A1|A1].
  { apply (Keep [b1] (Byte.to_N b1) t1); [|reflexivity].
    split; [apply is_scalar_spec; lia|].
    unfold encode_char. destruct (N.ltb_spec (Byte.to_N b1) 128); [|lia].
    now rewrite byte_of_to_N. }
  destruct (N.ltb_spec (Byte.to_N b1) 194) as [A2|A2].
  { left. apply decode_invalid_start. unfold is_invalid_start.
    apply orb_true_iff. left. apply andb_true_iff.
    split; [apply N.leb_le|apply N.ltb_lt]; lia. }
  destruct (N.ltb_spec 244 (Byte.to_N b1)) as [A5|A5].
  { left. apply decode_invalid_start. unfold is_invalid_start.
    apply orb_true_iff. right. apply N.leb_le. lia. }
  assert (Short : decode_ignore [b1] = []).
  { cbn [decode_ignore].
    destruct (N.ltb_spec (Byte.to_N b1) 128); [lia|].
    destruct (N.ltb_spec (Byte.to_N b1) 194); [lia|].
    destruct (Byte.to_N b1 <? 224); [reflexivity|].
    destruct (Byte.to_N b1 <? 240); [reflexivity|].
    destruct (Byte.to_N b1 <? 245); reflexivity. }
  destruct t1 as [|b2 t2]; [left; exact Short|].
  destruct (N.ltb_spec (Byte.to_N b1) 224) as [A3|A3].
  { destruct (is_continuation b2) eqn:K2.
    - apply (Keep [b1; b2] (cp2 (Byte.to_N b1) b2) t2); [|reflexivity].
      apply well_formed_cp2; [lia|exact K2].
    - left. cbn [decode_ignore].
      destruct (N.ltb_spec (Byte.to_N b1) 128); [lia|].
      destruct (N.ltb_spec (Byte.to_N b1) 194); [lia|].
      destruct (N.ltb_spec (Byte.to_N b1) 224); [|lia].
      rewrite K2. reflexivity. }
  destruct (N.ltb_spec (Byte.to_N b1) 240) as [A4|A4].
  { destruct (bad_second3 (Byte.to_N b1) b2) eqn:S2.
    - left. cbn [decode_ignore].
      destruct (N.ltb_spec (Byte.to_N b1) 128); [lia|].
      destruct (N.ltb_spec (Byte.to_N b1) 194); [lia|].
      destruct (N.ltb_spec (Byte.to_N b1) 224); [lia|].
      destruct (N.ltb_spec (Byte.to_N b1) 240); [|lia].
      rewrite S2. reflexivity.
    - pose proof (bad_second3_cont _ _ S2) as K2.
      assert (E : decode_ignore (b1 :: b2 :: t2) =
                  match t2 with
                  | [] => []
                  | b3 :: t3 =>
                      if is_continuation b3
                      then cp3 (Byte.to_N b1) b2 b3 :: decode_ignore t3
                      else decode_ignore t2
                  end).
      { cbn [decode_ignore].
        destruct (N.ltb_spec (Byte.to_N b1) 128); [lia|].
        destruct (N.ltb_spec (Byte.to_N b1) 194); [lia|].
        destruct (N.ltb_spec (Byte.to_N b1) 224); [lia|].
        destruct (N.ltb_spec (Byte.to_N b1) 240); [|lia].
        rewrite S2. destruct t2; reflexivity. }
      destruct t2 as [|b3 t3].
      + left. rewrite E, (decode_continuation b2 [] K2). reflexivity.
      + destruct (is_continuation b3) eqn:K3.
        * apply (Keep [b1; b2; b3] (cp3 (Byte.to_N b1) b2 b3) t3);
            [|reflexivity].
          apply well_formed_cp3; [lia|exact S2|exact K3].
        * left. rewrite E, (decode_continuation b2 _ K2). reflexivity. }
  destruct (bad_second4 (Byte.to_N b1) b2) eqn:S2.
  - left. cbn [decode_ignore].
    destruct (N.ltb_spec (Byte.to_N b1) 128); [lia|].
    destruct (N.ltb_spec (Byte.to_N b1) 194); [lia|].
    destruct (N.ltb_spec (Byte.to_N b1) 224); [lia|].
    destruct (N.ltb_spec (Byte.to_N b1) 240); [lia|].
    destruct (N.ltb_spec (Byte.to_N b1) 245); [|lia].
    rewrite S2. reflexivity.
  - pose proof (bad_second4_cont _ _ S2) as K2.
    assert (E : decode_ignore (b1 :: b2 :: t2) =
                match t2 with
                | [] => []
                | b3 :: t3 =>
                    if negb (is_continuation b3) then decode_ignore t2
                    else
                      match t3 with
                      | [] => []
                      | b4 :: t4 =>
                          if is_continuation b4
                          then cp4 (Byte.to_N b1) b2 b3 b4 :: decode_ignore t4
                          else decode_ignore t3
                      end
                end).
    { cbn [decode_ignore].
      destruct (N.ltb_spec (Byte.to_N b1) 128); [lia|].
      destruct (N.ltb_spec (Byte.to_N b1) 194); [lia|].
      destruct (N.ltb_spec (Byte.to_N b1) 224); [lia|].
      destruct (N.ltb_spec (Byte.to_N b1) 240); [lia|].
      destruct (N.ltb_spec (Byte.to_N b1) 245); [|lia].
      rewrite S2. destruct t2 as [|b3 [|b4 t4]]; reflexivity. }
    destruct t2 as [|b3 t3].
    + left. rewrite E, (decode_continuation b2 [] K2). reflexivity.
    + destruct (is_continuation b3) eqn:K3; cbn [negb] in E.
      * destruct t3 as [|b4 t4].
        -- left. rewrite E, (decode_continuation b2 _ K2),
             (decode_continuation b3 _ K3). reflexivity.
        -- destruct (is_continuation b4) eqn:K4.
           ++ apply (Keep [b1; b2; b3; b4] (cp4 (Byte.to_N b1) b2 b3 b4) t4);
                [|reflexivity].
              apply well_formed_cp4; [lia|exact S2|exact K3|exact K4].
           ++ left. rewrite E, (decode_continuation b2 _ K2),
                (decode_continuation b3 _ K3). reflexivity.
      * left. rewrite E, (decode_continuation b2 _ K2). reflexivity.
Qed.

(** No well-formed form starts where the decoder drops a byte. *)
Lemma dropped_starts_no_form (b : byte) (rest : Py.bytes) :
  decode_ignore (b :: rest) = decode_ignore rest ->
  forall form c tail, well_formed form c -> b :: rest <> form ++ tail.
Proof.
  intros Hd form c tail W E.
  destruct (well_formed_shape form c W) as (b' & conts & -> & Hc).
  cbn [app] in E. injection E as <- ->.
  assert (Hk : decode_ignore ((b :: conts) ++ tail) = c :: decode_ignore tail).
  { apply decode_encode_char; [|apply W].
    destruct W as [W _]. apply is_scalar_spec in W. apply W. }
  cbn [app] in Hk. rewrite Hd, (decode_continuations conts tail Hc) in Hk.
  apply (f_equal (@List.length N)) in Hk. cbn [List.length] in Hk. lia.
Qed.

(** The decoder does what the definition of a lossy decoding says. *)
Lemma decode_ignore_lossy (data : Py.bytes) : lossy data (decode_ignore data).
Proof.
  remember (List.length data) as n eqn:Hn. revert data Hn.
  induction n as [n IH] using (well_founded_induction Wf_nat.lt_wf).
  intros [|b1 t1] Hn; [constructor|].
  destruct (decode_step b1 t1) as [Hd|(form & c & rest & W & E & Hk)].
  - rewrite Hd. apply lossy_drop.
    + now apply dropped_starts_no_form.
    + apply (IH (List.length t1)); [subst n; cbn; lia|reflexivity].
  - rewrite Hk, E. apply lossy_keep; [exact W|].
    apply (IH (List.length rest)); [|reflexivity].
    destruct (well_formed_shape form c W) as (b' & conts & -> & _).
    subst n. rewrite E, length_app. cbn [List.length]. lia.
Qed.

(** And it is the only one: a lossy decoding of the data is what the
    decoder returns. *)
Lemma lossy_is_decode_ignore (data : Py.bytes) (s : Py.str) :
  lossy data s -> s = decode_ignore data.
Proof.
  induction 1 as [|form c rest s W _ IH|b rest s Hno _ IH].
  - reflexivity.
  - rewrite IH. symmetry. apply decode_encode_char; [|apply W].
    destruct W as [W _]. apply is_scalar_spec in W. apply W.
  - destruct (decode_step b rest) as [Hd|(form & c & tail & W & E & _)].
    + now rewrite Hd.
    + exfalso. exact (Hno form c tail W E).
Qed.

End Utf8Facts.

(* ================================================================== *)
(** ** The receiver: the final decode *)

Module DecodeFacts.
Import Env Send Obs MonadFacts Utf8 Utf8Facts.
Local Open Scope py_scope.

(** C7. The decode at the end of [receive_data] cannot fail: whatever
    the buffer, lines 66-70 return after printing its best-effort
    decoding, and when the loop is left [receive_data] returns with that
    print as its last call. The decoding drops exactly the bytes that
    are not UTF-8 and keeps the text. It is the lossy decoding of the
    buffer, and the only one: read from the left, every well-formed form
    (the encoding of a scalar value) gives its scalar value, and every
    byte at which no well-formed form starts is dropped, be it a byte
    that can start no form, a lead byte without its continuation bytes,
    or the start of an overlong form, of a surrogate or of a value
    beyond U+10FFFF. ASCII bytes after any bytes at all come out
    unchanged, and so does any well-formed text after any bytes at
    all. *)
Theorem lossy_decode_never_fails (script : Script) :
  (forall st tr,
     rx_finish st tr =
       (Ok tt, EvPrint (Text (decode_ignore (received_data st))) :: tr)) /\
  (forall fuel tr st tr1,
     (st0 <- rx_init script ;; receive_loop script fuel st0) tr = (Ok st, tr1) ->
     receive_data script fuel tr =
       (Ok tt, EvPrint (Text (decode_ignore (received_data st))) :: tr1)) /\
  (forall b rest,
     is_invalid_start b = true ->
     decode_ignore (b :: rest) = decode_ignore rest) /\
  (forall bad text,
     Forall (fun b => is_ascii_byte b = true) text ->
     decode_ignore (bad ++ text) = decode_ignore bad ++ map Byte.to_N text) /\
  (forall bad s enc,
     Forall is_code_point s ->
     encode s = Some enc ->
     decode_ignore (bad ++ enc) = decode_ignore bad ++ s) /\
  (forall data, lossy data (decode_ignore data)) /\
  (forall data s, lossy data s -> s = decode_ignore data) /\
  (forall b rest,
     (forall form c tail, well_formed form c -> b :: rest <> form ++ tail) ->
     decode_ignore (b :: rest) = decode_ignore rest) /\
  (forall form c rest,
     well_formed form c ->
     decode_ignore (form ++ rest) = c :: decode_ignore rest).
Proof.
  split; [|split; [|split; [|split; [|split; [|split; [|split; [|split]]]]]]].
  - intros st tr. reflexivity.
  - intros fuel tr st tr1 H. unfold receive_data.
    unfold bind in *.
    destruct (rx_init script tr) as [[st0| |] tr0]; try discriminate.
    destruct (receive_loop script fuel st0 tr0) as [[st1| |] tr2];
      try discriminate.
    inversion H; subst. reflexivity.
  - apply decode_invalid_start.
  - intros bad text Ha.
    rewrite (decode_app (List.length bad) bad text (le_n _)).
    + now rewrite (decode_ascii text Ha).
    + destruct Ha as [|a text Ha _]; [exact I|].
      apply ascii_not_continuation. exact Ha.
  - intros bad s enc Hv He.
    rewrite (decode_app (List.length bad) bad enc (le_n _)).
    + rewrite <- (app_nil_r enc), (decode_encode s enc [] Hv He).
      now rewrite app_nil_r.
    + exact (encode_starts_form s enc Hv He).
  - apply decode_ignore_lossy.
  - apply lossy_is_decode_ignore.
  - intros b rest Hno.
    destruct (decode_step b rest) as [Hd|(form & c & tail & W & E & _)];
      [exact Hd|].
    exfalso. exact (Hno form c tail W E).
  - intros form c rest W. apply decode_encode_char; [|apply W].
    destruct W as [W _]. apply is_scalar_spec in W. apply W.
Qed.

Lemma lossy_decode_never_fails_witness :
  ((st0 <- rx_init Scenarios.one_byte_then_quiet ;;
    receive_loop Scenarios.one_byte_then_quiet 3 st0) [] =
     (Ok (mkRx [x41] 0 11 6 12 false),
      snd ((st0 <- rx_init Scenarios.one_byte_then_quiet ;;
            receive_loop Scenarios.one_byte_then_quiet 3 st0) [])) /\
   receive_data Scenarios.one_byte_then_quiet 3 [] =
     (Ok tt,
      EvPrint (Text (decode_ignore
                       (received_data (mkRx [x41] 0 11 6 12 false))))
        :: snd ((st0 <- rx_init Scenarios.one_byte_then_quiet ;;
                 receive_loop Scenarios.one_byte_then_quiet 3 st0) []))) /\
  is_invalid_start xff = true /\
  decode_ignore [xff; x48; x69] = decode_ignore [x48; x69] /\
  Forall (fun b => is_ascii_byte b = true) [x48; x69] /\
  decode_ignore ([xe2; x82] ++ [x48; x69]) =
    decode_ignore [xe2; x82] ++ map Byte.to_N [x48; x69] /\
  decode_ignore ([xe2; x82] ++ [x48; x69]) = [72%N; 105%N] /\
  Forall is_code_point [8364%N; 233%N] /\
  encode [8364%N; 233%N] = Some [xe2; x82; xac; xc3; xa9] /\
  decode_ignore ([xf0; x9f] ++ [xe2; x82; xac; xc3; xa9]) =
    decode_ignore [xf0; x9f] ++ [8364%N; 233%N] /\
  lossy [xed; xa0; x80; x48] [72%N] /\
  [72%N] = decode_ignore [xed; xa0; x80; x48] /\
  (forall form c tail,
     well_formed form c -> xe0 :: [x80; x80; x69] <> form ++ tail) /\
  decode_ignore (xe0 :: [x80; x80; x69]) = decode_ignore [x80; x80; x69] /\
  decode_ignore [xe0; x80; x80; x69] = [105%N] /\
  well_formed [xe2; x82; xac] 8364 /\
  decode_ignore ([xe2; x82; xac] ++ [xc0; x80]) = 8364%N :: decode_ignore [xc0; x80].
Proof.
  assert (Hrun :
    (st0 <- rx_init Scenarios.one_byte_then_quiet ;;
     receive_loop Scenarios.one_byte_then_quiet 3 st0) [] =
      (Ok (mkRx [x41] 0 11 6 12 false),
       snd ((st0 <- rx_init Scenarios.one_byte_then_quiet ;;
             receive_loop Scenarios.one_byte_then_quiet 3 st0) [])))
    by (vm_compute; reflexivity).
  assert (Ha : Forall (fun b => is_ascii_byte b = true) [x48; x69])
    by (repeat constructor).
  assert (Hv : Forall is_code_point [8364%N; 233%N])
    by (repeat constructor).
  assert (Hl : lossy [xed; xa0; x80; x48] [72%N])
    by exact (decode_ignore_lossy [xed; xa0; x80; x48]).
  assert (Hno : forall form c tail,
            well_formed form c -> xe0 :: [x80; x80; x69] <> form ++ tail)
    by exact (dropped_starts_no_form xe0 [x80; x80; x69] eq_refl).
  assert (Hw : well_formed [xe2; x82; xac] 8364) by (split; reflexivity).
  pose proof (lossy_decode_never_fails Scenarios.one_byte_then_quiet)
    as (_ & H2 & H3 & H4 & H5 & _ & H7 & H8 & H9).
  split; [split; [exact Hrun|exact (H2 3%nat [] _ _ Hrun)]|].
  split; [reflexivity|].
  split; [exact (H3 xff [x48; x69] eq_refl)|].
  split; [exact Ha|].
  split; [exact (H4 [xe2; x82] [x48; x69] Ha)|].
  split; [reflexivity|].
  split; [exact Hv|].
  split; [reflexivity|].
  split;
    [exact (H5 [xf0; x9f] [8364%N; 233%N] [xe2; x82; xac; xc3; xa9] Hv eq_refl)|].
  split; [exact Hl|].
  split; [exact (H7 _ _ Hl)|].
  split; [exact Hno|].
  split; [exact (H8 xe0 [x80; x80; x69] Hno)|].
  split; [reflexivity|].
  split; [exact Hw|].
  exact (H9 [xe2; x82; xac] 8364%N [xc0; x80] Hw).
Defined.

End DecodeFacts.

(* ================================================================== *)
(** ** bcount.py: how the tally composes, and its bounds *)

Module BcountMore.
Import Bcount BcountFacts.

Lemma sumZ_app (l1 l2 : list Z) : sumZ (l1 ++ l2) = (sumZ l1 + sumZ l2)%Z.
Proof.
  induction l1 as [|x l1 IH]; [reflexivity|].
  cbn [app sumZ fold_right]. fold (sumZ (l1 ++ l2)). fold (sumZ l1).
  rewrite IH. lia.
Qed.

(** The tally as the three sums of what each character adds. *)
Lemma count_bits_sums (s : Py.str) :
  count_bits_in_paragraph s =
    (sumZ (map char_ones s), sumZ (map char_zeros s),
     Z.of_nat (List.length s)).
Proof.
  unfold count_bits_in_paragraph. rewrite fold_loop_body.
  cbn [ones_count zeros_count count]. now rewrite !Z.add_0_l.
Qed.

(** X12. Counting a paragraph in two pieces and adding the three
    counters gives the tally of the whole paragraph. *)
Theorem count_bits_app (s t : Py.str) :
  count_bits_in_paragraph (s ++ t) =
    (let '(ones1, zeros1, n1) := count_bits_in_paragraph s in
     let '(ones2, zeros2, n2) := count_bits_in_paragraph t in
     (ones1 + ones2, zeros1 + zeros2, n1 + n2))%Z.
Proof.
  rewrite !count_bits_sums, !map_app, !sumZ_app, length_app.
  now rewrite Nat2Z.inj_add.
Qed.

(** The first digit of a positive number is a one. *)
Lemma pos_digits_leading_one (p : positive) : forall acc,
  (1 + Py.count 49%N acc <= Py.count 49%N (Py.pos_digits p acc))%Z.
Proof.
  induction p as [q IH|q IH|]; intro acc; cbn [Py.pos_digits].
  - specialize (IH (49%N :: acc)). rewrite count_cons in IH.
    cbn [N.eqb Pos.eqb] in IH. lia.
  - specialize (IH (48%N :: acc)). rewrite count_cons in IH.
    cbn [N.eqb Pos.eqb] in IH. lia.
  - rewrite count_cons. cbn [N.eqb Pos.eqb]. lia.
Qed.

Lemma char_ones_nonneg (c : N) : (0 <= char_ones c)%Z.
Proof. unfold char_ones, Py.count. lia. Qed.

Lemma char_zeros_nonneg (c : N) : (0 <= char_zeros c)%Z.
Proof. unfold char_zeros, Py.count. lia. Qed.

Lemma char_ones_positive (c : N) : c <> 0%N -> (1 <= char_ones c)%Z.
Proof.
  destruct c as [|p]; [congruence|]. intros _.
  unfold char_ones, Py.bin. cbn [skipn].
  pose proof (pos_digits_leading_one p []) as H.
  change (Py.count 49%N []) with 0%Z in H. lia.
Qed.

(** A code point below [2^k] has at most [k] binary digits. *)
Lemma digits_below_pow2 (c k : N) :
  (c < 2 ^ k)%N -> (1 <= k)%N -> (N.max 1 (Py.bit_length c) <= k)%N.
Proof.
  intros Hc Hk. unfold Py.bit_length.
  destruct (N.eq_dec c 0) as [->|Hnz]; [cbn; lia|].
  rewrite N.size_log2 by exact Hnz.
  assert (N.log2 c < k)%N by (apply N.log2_lt_pow2; lia).
  lia.
Qed.

(** X13. The counters are never negative, and between them ones and
    zeros count at least one digit per character. A paragraph without
    the character of code point 0 has at least one 1-bit per character.
    When every code point is below [2^k], there are at most [k] digits
    per character: 7 for ASCII text, so that ones and zeros together
    stay below the [count * 8] that the script prints. *)
Theorem count_bits_bounds (s : Py.str) :
  let '(ones, zeros, n) := count_bits_in_paragraph s in
  (0 <= ones /\ 0 <= zeros /\ n <= ones + zeros)%Z /\
  (Forall (fun c => c <> 0%N) s -> (n <= ones)%Z) /\
  (forall k, (1 <= k)%N -> Forall (fun c => (c < 2 ^ k)%N) s ->
             (ones + zeros <= Z.of_N k * n)%Z).
Proof.
  rewrite count_bits_sums.
  induction s as [|c s IH]; cbn [map sumZ fold_right List.length].
  - repeat split; intros; lia.
  - fold (sumZ (map char_ones s)) in *. fold (sumZ (map char_zeros s)) in *.
    destruct IH as ((H1 & H2 & H3) & H4 & H5).
    pose proof (char_ones_nonneg c). pose proof (char_zeros_nonneg c).
    pose proof (char_digits c) as Hd.
    split; [|split].
    + repeat split; lia.
    + intro F. inversion F; subst.
      pose proof (char_ones_positive c ltac:(assumption)).
      specialize (H4 ltac:(assumption)). lia.
    + intros k Hk F. inversion F; subst.
      pose proof (digits_below_pow2 c k ltac:(assumption) Hk).
      specialize (H5 k Hk ltac:(assumption)). nia.
Qed.

Lemma count_bits_bounds_witness :
  Forall (fun c => c <> 0%N) (Py.lit "AB") /\
  Forall (fun c => (c < 2 ^ 7)%N) (Py.lit "AB") /\
  (2 <= 4)%Z /\ (4 + 10 <= Z.of_N 7 * 2)%Z.
Proof.
  assert (F0 : Forall (fun c => c <> 0%N) (Py.lit "AB"))
    by (repeat constructor; discriminate).
  assert (F7 : Forall (fun c => (c < 2 ^ 7)%N) (Py.lit "AB"))
    by (repeat constructor).
  pose proof (count_bits_bounds (Py.lit "AB")) as H.
  change (count_bits_in_paragraph (Py.lit "AB")) with (4, 10, 2)%Z in H.
  destruct H as (_ & H4 & H5).
  split; [exact F0|]. split; [exact F7|].
  split; [exact (H4 F0)|exact (H5 7%N ltac:(lia) F7)].
Defined.

End BcountMore.

(* ================================================================== *)
(** ** The transmitter: every outcome *)

Module SendMore.
Import Env Send Obs ObsMore MonadFacts SendFacts ReceiveLoop SessionFacts.
Local Open Scope py_scope.

Lemma delivered_app (new old : Trace) :
  delivered (new ++ old) = delivered old ++ delivered new.
Proof.
  induction new as [|ev new IH]; cbn [app delivered].
  - now rewrite app_nil_r.
  - destruct ev as [data [|]| | | | | | |]; try exact IH.
    now rewrite IH, app_assoc.
Qed.

(** [lstrip] leaves nothing, or something that starts with a character
    that is no whitespace. *)
Lemma lstrip_head (s : Py.str) :
  match Utf8.lstrip s with
  | [] => True
  | c :: _ => Utf8.isspace c = false
  end.
Proof.
  induction s as [|c s IH]; cbn [Utf8.lstrip]; [exact I|].
  destruct (Utf8.isspace c) eqn:E; [exact IH|exact E].
Qed.

(** [lstrip] takes a prefix away. *)
Lemma lstrip_suffix (s : Py.str) : exists w, s = w ++ Utf8.lstrip s.
Proof.
  induction s as [|c s (w & IH)]; cbn [Utf8.lstrip]; [now exists []|].
  destruct (Utf8.isspace c).
  - exists (c :: w). cbn [app]. now rewrite <- IH.
  - now exists [].
Qed.

(** What [strip] leaves, if anything, is trimmed. *)
Lemma strip_trimmed (s : Py.str) :
  Utf8.strip s <> [] -> trimmed (Utf8.strip s).
Proof.
  unfold Utf8.strip, trimmed.
  set (u := Utf8.lstrip s). set (v := Utf8.lstrip (rev u)).
  intro Hne. rewrite rev_involutive.
  pose proof (lstrip_head (rev u)) as Hv. fold v in Hv.
  pose proof (lstrip_head s) as Hu. fold u in Hu.
  destruct (lstrip_suffix (rev u)) as (w & Hw). fold v in Hw.
  assert (Eu : u = rev v ++ rev w).
  { rewrite <- (rev_involutive u), Hw, rev_app_distr. reflexivity. }
  split.
  - destruct (rev v) as [|c r] eqn:Er; [congruence|].
    rewrite Eu in Hu. exact Hu.
  - destruct v as [|c v']; [exfalso; apply Hne; reflexivity|exact Hv].
Qed.

Section Transmit.
Variable script : Script.

(** Lines 27-33 return, neither write nor sleep, and print nothing
    but a trimmed line. *)
Lemma drain_response_quiet (tr : Trace) :
  exists new,
    drain_response script tr = (Ok tt, new ++ tr) /\
    Forall (fun ev => is_write ev = false /\ is_sleep ev = false) new /\
    Forall tx_print_ok new.
Proof.
  unfold drain_response, bind, ser_in_waiting.
  destruct (in_waiting (reply script tr) >? 0)%Z.
  - unfold try_except, bind, ser_readline.
    set (line := readline (reply script (EvInWaiting _ :: tr))).
    pose proof (strip_trimmed (Utf8.decode_ignore line)) as Ht.
    destruct (Utf8.strip (Utf8.decode_ignore line)) as [|c text].
    + eexists [_; _]. split; [reflexivity|].
      split; repeat constructor.
    + eexists [_; _; _]. split; [reflexivity|].
      split; [repeat constructor|].
      constructor; [|repeat constructor].
      cbn [tx_print_ok]. right. right. apply Ht. discriminate.
  - eexists [_]. split; [reflexivity|]. split; repeat constructor.
Qed.

(** One character of the loop of lines 21-33: the encoding fails, or
    the write fails, or the loop goes on with the next character after
    the write, the settle delay if this was the last character, and the
    look at the device's answer. *)
Lemma send_loop_step (len count : Z) (char : N) (rest : Py.str)
    (st : TxState) (tr : Trace) r tr' :
  send_loop script len count (char :: rest) st tr = (r, tr') ->
  match Utf8.encode_char char with
  | None => r = Raise UnicodeEncodeError /\ tr' = tr
  | Some data =>
      (r = Raise SerialException /\ tr' = EvWrite data false :: tr) \/
      exists newd,
        send_loop script len (count + 1) rest
          (mkTx (chara st ++ [char]) (sent_bytes st + 1))
          (newd ++ (if (count =? len - 1)%Z then [EvSleep 1%Q] else [])
                ++ EvWrite data true :: tr) = (r, tr') /\
        Forall (fun ev => is_write ev = false /\ is_sleep ev = false) newd /\
        Forall tx_print_ok newd
  end.
Proof.
  cbn [send_loop]. unfold bind at 1. unfold encode_utf8.
  destruct (Utf8.encode_char char) as [data|]; cbn.
  2:{ intro H. inversion H. split; reflexivity. }
  unfold bind at 1. unfold ser_write.
  destruct (write_fails (reply script tr)).
  { intro H. inversion H. left. split; reflexivity. }
  unfold bind at 1. intro H. right.
  set (tr1 := EvWrite data true :: tr) in *.
  destruct (count =? len - 1)%Z.
  - unfold time_sleep at 1 in H. unfold bind at 1 in H.
    destruct (drain_response_quiet (EvSleep 1 :: tr1)) as (newd & Ed & Q & P).
    rewrite Ed in H. exists newd. split; [exact H|]. split; assumption.
  - unfold ret at 1 in H. unfold bind at 1 in H.
    destruct (drain_response_quiet tr1) as (newd & Ed & Q & P).
    rewrite Ed in H. exists newd. split; [exact H|]. split; assumption.
Qed.

Lemma quiet_writes_nothing (l : Trace) :
  Forall (fun ev => is_write ev = false /\ is_sleep ev = false) l ->
  written l = [] /\ delivered l = [].
Proof.
  induction 1 as [|ev l [Hw _] _ IH]; [split; reflexivity|].
  destruct ev; cbn in *; try exact IH. discriminate.
Qed.

(** When the loop returns, every character was encoded and written, one
    call each, in order, and every call went through. *)
Lemma send_loop_returned (len : Z) (chars : Py.str) :
  forall count st tr st' tr',
    send_loop script len count chars st tr = (Ok st', tr') ->
    exists new enc,
      tr' = new ++ tr /\
      Utf8.encode chars = Some enc /\
      List.concat (written new) = enc /\
      delivered new = written new /\
      List.length (written new) = List.length chars /\
      sent_bytes st' = (sent_bytes st + Z.of_nat (List.length chars))%Z.
Proof.
  induction chars as [|char rest IH]; intros count st tr st' tr' H.
  - inversion H; subst. exists [], []. cbn. repeat split; lia.
  - apply send_loop_step in H. cbn [Utf8.encode].
    destruct (Utf8.encode_char char) as [data|]; [|destruct H; discriminate].
    destruct H as [[H _]|(newd & H & Q & _)]; [discriminate|].
    apply IH in H. destruct H as (new & enc & -> & Ee & Ew & Ed & El & Es).
    destruct (quiet_writes_nothing newd Q) as [Wd Dd].
    exists (new ++ newd ++ (if (count =? len - 1)%Z then [EvSleep 1%Q] else [])
                ++ [EvWrite data true]), (data ++ enc).
    rewrite Ee. rewrite !written_app, !delivered_app, Wd, Dd, Ed.
    destruct (count =? len - 1)%Z;
      cbn [written delivered app List.concat List.length];
      cbn [sent_bytes] in Es;
      (split; [same_list|]; split; [reflexivity|]; split; [now rewrite Ew|];
       split; [reflexivity|]; split; [now rewrite El|]; lia).
Qed.

(** When the loop returns from a payload that is not empty, it slept
    once, right after its last write. *)
Lemma send_loop_settles (len : Z) (chars : Py.str) :
  forall count st tr st' tr',
    send_loop script len count chars st tr = (Ok st', tr') ->
    (count + Z.of_nat (List.length chars) = len)%Z ->
    match chars with
    | [] => tr' = tr
    | _ :: _ =>
        exists after d before,
          tr' = after ++ EvSleep 1%Q :: EvWrite d true :: before ++ tr /\
          Forall (fun ev => is_write ev = false /\ is_sleep ev = false) after /\
          Forall (fun ev => is_sleep ev = false) before
    end.
Proof.
  induction chars as [|char rest IH]; intros count st tr st' tr' H Hlen.
  - now inversion H.
  - apply send_loop_step in H.
    destruct (Utf8.encode_char char) as [data|]; [|destruct H; discriminate].
    destruct H as [[H _]|(newd & H & Q & _)]; [discriminate|].
    cbn [List.length] in Hlen.
    destruct rest as [|char2 rest2].
    + replace (count =? len - 1)%Z with true in H
        by (symmetry; apply Z.eqb_eq; cbn [List.length] in Hlen; lia).
      inversion H; subst.
      exists newd, data, []. split; [reflexivity|]. split; [exact Q|constructor].
    + replace (count =? len - 1)%Z with false in H
        by (symmetry; apply Z.eqb_neq; cbn [List.length] in Hlen; lia).
      apply IH in H; [|cbn [List.length] in *; lia].
      destruct H as (after & d & before & -> & Qa & Qb).
      exists after, d, (before ++ newd ++ [EvWrite data true]).
      split; [same_list|]. split; [exact Qa|].
      rewrite !Forall_app. split; [exact Qb|]. split.
      * eapply Forall_impl; [|exact Q]. now intros ev [_ Hs].
      * repeat constructor.
Qed.

(** When the loop raises, the exception is a transport error of the
    write at hand or a character without an encoding, and what went
    through before is the encoding of the characters before it. *)
Lemma send_loop_raised (len : Z) (chars : Py.str) :
  forall count st tr e tr',
    send_loop script len count chars st tr = (Raise e, tr') ->
    exists new n,
      tr' = new ++ tr /\
      (n < List.length chars)%nat /\
      Utf8.encode (firstn n chars) = Some (List.concat (delivered new)) /\
      ((e = SerialException /\
        exists d older,
          new = EvWrite d false :: older /\
          Utf8.encode_char (nth n chars 0%N) = Some d) \/
       (e = UnicodeEncodeError /\
        Utf8.encode_char (nth n chars 0%N) = None)).
Proof.
  induction chars as [|char rest IH]; intros count st tr e tr' H.
  - inversion H.
  - apply send_loop_step in H.
    destruct (Utf8.encode_char char) as [data|] eqn:Ec.
    2:{ destruct H as [H ->]. inversion H; subst.
        exists [], 0%nat. cbn [List.length firstn nth app].
        split; [reflexivity|]. split; [lia|]. split; [reflexivity|].
        right. split; [reflexivity|exact Ec]. }
    destruct H as [[H ->]|(newd & H & Q & _)].
    + inversion H; subst.
      exists [EvWrite data false], 0%nat. cbn [List.length firstn nth app].
      split; [reflexivity|]. split; [lia|]. split; [reflexivity|].
      left. split; [reflexivity|]. exists data, []. split; [reflexivity|exact Ec].
    + apply IH in H. destruct H as (new & n & -> & Hn & Ee & Hcase).
      destruct (quiet_writes_nothing newd Q) as [_ Dd].
      exists (new ++ newd ++ (if (count =? len - 1)%Z then [EvSleep 1%Q] else [])
                  ++ [EvWrite data true]), (S n).
      split; [same_list|]. split; [cbn [List.length]; lia|].
      split.
      * cbn [firstn Utf8.encode]. rewrite Ec, Ee.
        rewrite !delivered_app, Dd.
        now destruct (count =? len - 1)%Z.
      * cbn [nth].
        destruct Hcase as [(-> & d & older & -> & Ed)|(-> & En)].
        -- left. split; [reflexivity|]. eexists d, _.
           split; [reflexivity|exact Ed].
        -- right. split; [reflexivity|exact En].
Qed.

(** Whatever the outcome of the loop, what it printed are trimmed lines
    of the device. *)
Lemma send_loop_prints (len : Z) (chars : Py.str) :
  forall count st tr r tr',
    send_loop script len count chars st tr = (r, tr') ->
    exists new, tr' = new ++ tr /\ Forall tx_print_ok new.
Proof.
  induction chars as [|char rest IH]; intros count st tr r tr' H.
  - inversion H. exists []. split; [reflexivity|constructor].
  - apply send_loop_step in H.
    destruct (Utf8.encode_char char) as [data|].
    2:{ destruct H as [_ ->]. exists []. split; [reflexivity|constructor]. }
    destruct H as [[_ ->]|(newd & H & _ & P)].
    + exists [EvWrite data false]. split; [reflexivity|].
      repeat constructor.
    + apply IH in H. destruct H as (new & -> & Pn).
      exists (new ++ newd ++ (if (count =? len - 1)%Z then [EvSleep 1%Q] else [])
                  ++ [EvWrite data true]).
      split; [same_list|].
      rewrite !Forall_app. repeat split; auto.
      * destruct (count =? len - 1)%Z; repeat constructor.
      * repeat constructor.
Qed.

End Transmit.

(** [send_data], by the outcome of its loop. *)
Lemma send_data_unfold (script : Script) (P : Py.str) (tr : Trace) :
  send_data script P tr =
    match send_loop script (Z.of_nat (List.length P)) 0 P (mkTx [] 0)
            (EvPrint (Text banner_start) :: tr) with
    | (Ok st, tr2) => (Ok (sent_bytes st), EvPrint (Text banner_done) :: tr2)
    | (Raise e, tr2) => (Raise e, tr2)
    | (Running, tr2) => (Running, tr2)
    end.
Proof.
  unfold send_data, bind, print, ret, banner_start, banner_done.
  destruct (send_loop script (Z.of_nat (List.length P)) 0 P (mkTx [] 0)
              (EvPrint (Text (Py.lit "Sending data to MCU...")) :: tr))
    as [[st|e|] tr2]; reflexivity.
Qed.

(** X1. [send_data] returns only when the whole payload is out: if it
    returns [k], whatever the port did, then [k] is [len(P)], every
    character had an encoding, there was one [ser.write] call per
    character, each went through, and their payloads in order are the
    UTF-8 bytes of [P]. No partial send is reported as a success. *)
Theorem send_returns_only_when_complete
    (script : Script) (P : Py.str) (tr : Trace) (k : Z) (tr' : Trace) :
  send_data script P tr = (Ok k, tr') ->
  k = Z.of_nat (List.length P) /\
  exists new enc,
    tr' = new ++ tr /\
    Utf8.encode P = Some enc /\
    List.concat (written new) = enc /\
    delivered new = written new /\
    List.length (written new) = List.length P.
Proof.
  rewrite send_data_unfold.
  destruct (send_loop script (Z.of_nat (List.length P)) 0 P (mkTx [] 0)
              (EvPrint (Text banner_start) :: tr)) as [[st| |] tr2] eqn:El;
    try discriminate.
  intro H. inversion H; subst.
  apply send_loop_returned in El.
  destruct El as (new & enc & -> & Ee & Ew & Ed & Eln & Es).
  cbn [sent_bytes] in Es. split; [lia|].
  exists (EvPrint (Text banner_done) :: new ++ [EvPrint (Text banner_start)]),
         enc.
  split; [same_list|]. split; [exact Ee|].
  cbn [written delivered]. rewrite written_app, delivered_app.
  cbn [written delivered app]. auto.
Qed.

Lemma send_returns_only_when_complete_witness :
  send_data Scenarios.chatty (Py.lit "AB") [] =
    (Ok 2%Z, snd (send_data Scenarios.chatty (Py.lit "AB") [])) /\
  2%Z = Z.of_nat (List.length (Py.lit "AB")) /\
  exists new enc,
    snd (send_data Scenarios.chatty (Py.lit "AB") []) = new ++ [] /\
    Utf8.encode (Py.lit "AB") = Some enc /\
    List.concat (written new) = enc /\
    delivered new = written new /\
    List.length (written new) = List.length (Py.lit "AB").
Proof.
  split; [reflexivity|].
  apply (send_returns_only_when_complete Scenarios.chatty (Py.lit "AB") []).
  reflexivity.
Defined.

(** X2. When [send_data] is left by a write that fails or by a
    character that cannot be encoded, what went through to the port
    before is exactly the encoding of the first [n] characters, for some
    [n] short of the length of the payload: nothing of the rest is
    written. A failed write is the write of the character at [n] and
    raises the transport error; an encoding error is that of the
    character at [n]. (The world of this embedding has no failing
    [ser.in_waiting] or [ser.readline()]: an exit of such a call, which
    lines 27-29 do not catch either, is not among the exits the
    statement is about.) *)
Theorem send_failure_leaves_a_prefix
    (script : Script) (P : Py.str) (tr : Trace) (e : Exn) (tr' : Trace) :
  send_data script P tr = (Raise e, tr') ->
  (e = UnicodeEncodeError \/ exists d older, tr' = EvWrite d false :: older) ->
  exists new n,
    tr' = new ++ tr /\
    (n < List.length P)%nat /\
    Utf8.encode (firstn n P) = Some (List.concat (delivered new)) /\
    ((e = SerialException /\
      exists d older,
        new = EvWrite d false :: older /\
        Utf8.encode_char (nth n P 0%N) = Some d) \/
     (e = UnicodeEncodeError /\
      Utf8.encode_char (nth n P 0%N) = None)).
Proof.
  rewrite send_data_unfold.
  destruct (send_loop script (Z.of_nat (List.length P)) 0 P (mkTx [] 0)
              (EvPrint (Text banner_start) :: tr)) as [[st|e1|] tr2] eqn:El;
    try discriminate.
  intros H _. inversion H; subst.
  apply send_loop_raised in El.
  destruct El as (new & n & -> & Hn & Ee & Hcase).
  exists (new ++ [EvPrint (Text banner_start)]), n.
  split; [same_list|]. split; [exact Hn|].
  rewrite delivered_app. cbn [delivered app]. split; [exact Ee|].
  destruct Hcase as [(-> & d & older & -> & Ed)|(-> & En)].
  - left. split; [reflexivity|]. eexists d, _. split; [reflexivity|exact Ed].
  - right. split; [reflexivity|exact En].
Qed.

Lemma send_failure_leaves_a_prefix_witness :
  send_data ScenariosMore.second_write_fails (Py.lit "AB") [] =
    (Raise SerialException,
     snd (send_data ScenariosMore.second_write_fails (Py.lit "AB") [])) /\
  (exists d older,
     snd (send_data ScenariosMore.second_write_fails (Py.lit "AB") [])
       = EvWrite d false :: older) /\
  delivered (snd (send_data ScenariosMore.second_write_fails (Py.lit "AB") []))
    = [[x41]] /\
  exists new n,
    snd (send_data ScenariosMore.second_write_fails (Py.lit "AB") [])
      = new ++ [] /\
    (n < List.length (Py.lit "AB"))%nat /\
    Utf8.encode (firstn n (Py.lit "AB")) = Some (List.concat (delivered new)) /\
    ((SerialException = SerialException /\
      exists d older,
        new = EvWrite d false :: older /\
        Utf8.encode_char (nth n (Py.lit "AB") 0%N) = Some d) \/
     (SerialException = UnicodeEncodeError /\
      Utf8.encode_char (nth n (Py.lit "AB") 0%N) = None)).
Proof.
  assert (Hlast : exists d older,
    snd (send_data ScenariosMore.second_write_fails (Py.lit "AB") [])
      = EvWrite d false :: older).
  { eexists _, _. vm_compute. reflexivity. }
  split; [reflexivity|]. split; [exact Hlast|]. split; [reflexivity|].
  apply (send_failure_leaves_a_prefix ScenariosMore.second_write_fails
           (Py.lit "AB") []).
  - reflexivity.
  - right. exact Hlast.
Defined.

(** X3. The settle delay. When [send_data] returns from a payload that
    is not empty, it slept exactly once, for one time unit, right after
    its last write and before its last look at the device; an empty
    payload is sent without a call to the port: the two banners are all
    that happens. *)
Theorem settle_delay_follows_last_write
    (script : Script) (P : Py.str) (tr : Trace) (k : Z) (tr' : Trace) :
  send_data script P tr = (Ok k, tr') ->
  match P with
  | [] =>
      tr' = EvPrint (Text banner_done) :: EvPrint (Text banner_start) :: tr
  | _ :: _ =>
      exists after d before,
        tr' = EvPrint (Text banner_done) :: after
                ++ EvSleep 1%Q :: EvWrite d true :: before
                ++ EvPrint (Text banner_start) :: tr /\
        Forall (fun ev => is_write ev = false /\ is_sleep ev = false) after /\
        Forall (fun ev => is_sleep ev = false) before
  end.
Proof.
  rewrite send_data_unfold.
  destruct (send_loop script (Z.of_nat (List.length P)) 0 P (mkTx [] 0)
              (EvPrint (Text banner_start) :: tr)) as [[st| |] tr2] eqn:El;
    try discriminate.
  intro H. inversion H; subst.
  apply send_loop_settles in El; [|lia].
  destruct P as [|c P'].
  - now rewrite El.
  - destruct El as (after & d & before & -> & Qa & Qb).
    exists after, d, before. repeat split; assumption.
Qed.

Lemma settle_delay_follows_last_write_witness :
  send_data Scenarios.steady (Py.lit "AB") [] =
    (Ok 2%Z, snd (send_data Scenarios.steady (Py.lit "AB") [])) /\
  exists after d before,
    snd (send_data Scenarios.steady (Py.lit "AB") []) =
      EvPrint (Text banner_done) :: after
        ++ EvSleep 1%Q :: EvWrite d true :: before
        ++ EvPrint (Text banner_start) :: [] /\
    Forall (fun ev => is_write ev = false /\ is_sleep ev = false) after /\
    Forall (fun ev => is_sleep ev = false) before.
Proof.
  split; [reflexivity|].
  exact (settle_delay_follows_last_write Scenarios.steady (Py.lit "AB") []
           2%Z _ eq_refl).
Defined.

(** X4. Whatever its outcome, [send_data] prints its two banners and,
    in between, lines of the device that are not empty and have no
    whitespace at either end: blank answers are skipped. *)
Theorem transmitter_prints_trimmed_lines
    (script : Script) (P : Py.str) (tr : Trace) r (tr' : Trace) :
  send_data script P tr = (r, tr') ->
  exists new, tr' = new ++ tr /\ Forall tx_print_ok new.
Proof.
  rewrite send_data_unfold.
  destruct (send_loop script (Z.of_nat (List.length P)) 0 P (mkTx [] 0)
              (EvPrint (Text banner_start) :: tr)) as [r1 tr2] eqn:El.
  apply send_loop_prints in El. destruct El as (new & -> & Pn).
  assert (P1 : Forall tx_print_ok (new ++ [EvPrint (Text banner_start)])).
  { apply Forall_app. split; [exact Pn|]. constructor; [|constructor].
    cbn. now left. }
  destruct r1 as [st|e|]; intro H; inversion H; subst.
  - exists (EvPrint (Text banner_done) :: new ++ [EvPrint (Text banner_start)]).
    split; [same_list|]. constructor; [|exact P1]. cbn. right. now left.
  - exists (new ++ [EvPrint (Text banner_start)]). split; [same_list|exact P1].
  - exists (new ++ [EvPrint (Text banner_start)]). split; [same_list|exact P1].
Qed.

Lemma transmitter_prints_trimmed_lines_witness :
  send_data ScenariosMore.padded_answers (Py.lit "A") [] =
    (Ok 1%Z,
     [EvPrint (Text banner_done); EvPrint (Text (Py.lit "OK"));
      EvReadline [x20; x4f; x4b; x20; x0d; x0a]; EvInWaiting 1;
      EvSleep 1%Q; EvWrite [x41] true; EvPrint (Text banner_start)]) /\
  exists new,
    [EvPrint (Text banner_done); EvPrint (Text (Py.lit "OK"));
     EvReadline [x20; x4f; x4b; x20; x0d; x0a]; EvInWaiting 1;
     EvSleep 1%Q; EvWrite [x41] true; EvPrint (Text banner_start)]
      = new ++ [] /\
    Forall tx_print_ok new.
Proof.
  split; [reflexivity|].
  exact (transmitter_prints_trimmed_lines ScenariosMore.padded_answers
           (Py.lit "A") [] _ _ eq_refl).
Defined.

End SendMore.

(* ================================================================== *)
(** ** The session and the receiver: what else they keep *)

Module ReceiveMore.
Import Env Send Obs ObsMore MonadFacts SendFacts ReceiveSteps ReceiveLoop.
Import SessionFacts TimeoutFacts ReportFacts.
Local Open Scope py_scope.

Lemma rx_keeps_port_quiet (ev : Event) :
  rx_event ev = true -> is_write ev = false /\ is_sleep ev = false.
Proof. destruct ev; cbn; intro H; split; congruence. Qed.

(** X5. The two phases do not mix. In any session, whatever its outcome,
    the calls split in two: first the transmitter's, with no
    [ser.read(1)], no clock reading and no [ser.close()] among them;
    then the rest, with no [ser.write], no [time.sleep] and no
    [ser.readline] among them. Nothing is written once receiving has
    begun. *)
Theorem session_phases_do_not_mix
    (script : Script) (P : Py.str) (fuel : nat) (tr : Trace) r (tr' : Trace) :
  main script P fuel tr = (r, tr') ->
  exists rest tx,
    tr' = rest ++ tx ++ tr /\
    Forall (fun ev => rx_only ev = false /\ is_close ev = false) tx /\
    Forall (fun ev => is_write ev = false /\ is_sleep ev = false) rest /\
    drained rest = [].
Proof.
  unfold main.
  destruct (send_data script P tr) as [r1 tr1] eqn:Es.
  destruct (send_data_events _ _ _ _ _ Es) as (tx & -> & Ftx).
  assert (Ctx : Forall (fun ev => rx_only ev = false /\ is_close ev = false) tx).
  { eapply Forall_impl; [|exact Ftx]. intros ev H.
    split; [now apply tx_not_rx_only|now apply tx_not_close]. }
  destruct r1 as [k|e|].
  - rewrite (bind_ok _ _ _ _ _ _ _ Es).
    destruct (receive_data_result script fuel (tx ++ tr))
      as (r2 & seg & Er & Hr & Frx).
    assert (Qrx : Forall (fun ev => is_write ev = false /\ is_sleep ev = false)
                    seg).
    { eapply Forall_impl; [|exact Frx]. apply rx_keeps_port_quiet. }
    pose proof (rx_drains_nothing seg Frx) as Drx.
    destruct Hr as [-> | ->].
    + rewrite (bind_ok _ _ _ _ _ _ _ Er). unfold ser_close.
      intro H. inversion H; subst.
      exists (EvClose :: seg), tx. split; [reflexivity|].
      split; [exact Ctx|]. split; [|exact Drx].
      constructor; [split; reflexivity|exact Qrx].
    + rewrite (bind_running _ _ _ _ _ _ Er).
      intro H. inversion H; subst.
      exists seg, tx. repeat split; assumption.
  - rewrite (bind_raise _ _ _ _ _ _ _ Es). intro H. inversion H; subst.
    exists [], tx. split; [reflexivity|]. split; [exact Ctx|].
    split; [constructor|reflexivity].
  - rewrite (bind_running _ _ _ _ _ _ Es). intro H. inversion H; subst.
    exists [], tx. split; [reflexivity|]. split; [exact Ctx|].
    split; [constructor|reflexivity].
Qed.

Lemma session_phases_do_not_mix_witness :
  main Scenarios.answer_after_send (Py.lit "AB") 3 [] =
    (Ok tt, snd (main Scenarios.answer_after_send (Py.lit "AB") 3 [])) /\
  exists rest tx,
    snd (main Scenarios.answer_after_send (Py.lit "AB") 3 [])
      = rest ++ tx ++ [] /\
    Forall (fun ev => rx_only ev = false /\ is_close ev = false) tx /\
    Forall (fun ev => is_write ev = false /\ is_sleep ev = false) rest /\
    drained rest = [].
Proof.
  split; [reflexivity|].
  exact (session_phases_do_not_mix Scenarios.answer_after_send (Py.lit "AB")
           3 [] _ _ eq_refl).
Defined.

Lemma rx_bytes_app (new old : Trace) :
  rx_bytes (new ++ old) = rx_bytes old ++ rx_bytes new.
Proof.
  induction new as [|ev new IH]; cbn [app rx_bytes].
  - now rewrite app_nil_r.
  - destruct ev; try exact IH. now rewrite IH, app_assoc.
Qed.

(** One turn of the loop, from any locals: the buffer gets the bytes
    read in the turn at its end, and that is one byte at most. *)
Lemma receive_iter_grows (script : Script) (st : RxState) (tr : Trace) :
  exists s new,
    receive_iter script st tr = (Ok s, new ++ tr) /\
    received_data (step_state s) = received_data st ++ rx_bytes new /\
    (List.length (rx_bytes new) <= 1)%nat.
Proof.
  unfold receive_iter.
  assert (H1 : exists st1 new1,
    rx_poll script st tr = (Ok st1, new1 ++ tr) /\
    received_data st1 = received_data st ++ rx_bytes new1 /\
    (List.length (rx_bytes new1) <= 1)%nat).
  { destruct (rx_poll_spec script st tr)
      as [(new & E & n & [->| ->])|(n & b & t & E & _)].
    - exists st, [EvInWaiting n]. cbn. rewrite app_nil_r. auto.
    - exists st, [EvRead []; EvInWaiting n]. cbn. rewrite app_nil_r. auto.
    - do 2 eexists. split; [exact E|]. cbn. auto. }
  destruct H1 as (st1 & new1 & E1 & D1 & L1).
  rewrite (bind_ok _ _ _ _ _ _ _ E1).
  destruct (rx_timed_out_spec script st1 (new1 ++ tr)) as (t & stop & E2 & _).
  rewrite (bind_ok _ _ _ _ _ _ _ E2).
  destruct stop.
  - exists (Break st1), (EvTime L54 t :: new1).
    split; [reflexivity|]. cbn [step_state rx_bytes]. auto.
  - destruct (rx_report_spec script st1 (EvTime L54 t :: new1 ++ tr))
      as [(t57 & E & _)
         |(t57 & t58 & t63 & t64 & out & E & _ & _ & [[-> _]|[-> _]])];
      rewrite (bind_ok _ _ _ _ _ _ _ E).
    + exists (Continue st1), (EvTime L57 t57 :: EvTime L54 t :: new1).
      split; [reflexivity|]. cbn [step_state rx_bytes]. auto.
    + eexists (Continue _),
        ([EvTime L64 t64; EvTime L63 t63; EvTime L58 t58; EvTime L57 t57;
          EvTime L54 t] ++ new1).
      split; [reflexivity|]. cbn [step_state received_data rx_bytes app]. auto.
    + eexists (Continue _),
        ([EvTime L64 t64; EvTime L63 t63;
          EvPrint (SpeedRx (inject_Z (total_received_bytes st1 * 8)
                            / (t58 - start_receive_time st1)));
          EvTime L58 t58; EvTime L57 t57; EvTime L54 t] ++ new1).
      split; [reflexivity|]. cbn [step_state received_data rx_bytes app]. auto.
Qed.

(** Running [n + m] turns is running [n] turns and, if the loop was not
    left, [m] more. *)
Lemma receive_iters_add (script : Script) (n m : nat) :
  forall st tr,
    receive_iters script (n + m) st tr =
      match receive_iters script n st tr with
      | (Ok (Continue st1), tr1) => receive_iters script m st1 tr1
      | other => other
      end.
Proof.
  induction n as [|n IH]; intros st tr; [reflexivity|].
  cbn [Nat.add receive_iters]. unfold bind.
  destruct (receive_iter script st tr) as [[[st1|st1]|e|] tr1];
    try reflexivity.
  apply IH.
Qed.

Lemma receive_iters_grows (script : Script) (n : nat) :
  forall st tr,
    exists s new,
      receive_iters script n st tr = (Ok s, new ++ tr) /\
      received_data (step_state s) = received_data st ++ rx_bytes new /\
      (List.length (rx_bytes new) <= n)%nat.
Proof.
  induction n as [|n IH]; intros st tr.
  - exists (Continue st), []. cbn. rewrite app_nil_r. auto.
  - cbn [receive_iters].
    destruct (receive_iter_grows script st tr) as (s & new & E & D & L).
    rewrite (bind_ok _ _ _ _ _ _ _ E).
    destruct s as [st1|st1]; cbn [step_state] in D.
    + destruct (IH st1 (new ++ tr)) as (s2 & new2 & E2 & D2 & L2).
      exists s2, (new2 ++ new). split; [rewrite E2; f_equal; same_list|].
      rewrite rx_bytes_app, length_app, D2, D, <- app_assoc.
      split; [reflexivity|lia].
    + exists (Break st1), new. split; [reflexivity|].
      cbn [step_state]. split; [exact D|lia].
Qed.

(** X6. The buffer only grows, by what [ser.read(1)] hands over and by
    one byte per turn at most. From any locals, after [n] turns of the
    loop the buffer is the old one followed by the bytes read in these
    turns, at most [n] of them; and after [m] more turns it is the
    buffer after [n] turns followed by at most [m] bytes. Nothing
    received is dropped, changed or moved. *)
Theorem buffer_only_grows
    (script : Script) (n m : nat) (st : RxState) (tr : Trace) :
  exists s1 new1 s2 more,
    receive_iters script n st tr = (Ok s1, new1 ++ tr) /\
    received_data (step_state s1) = received_data st ++ rx_bytes new1 /\
    (List.length (rx_bytes new1) <= n)%nat /\
    fst (receive_iters script (n + m) st tr) = Ok s2 /\
    received_data (step_state s2) = received_data (step_state s1) ++ more /\
    (List.length more <= m)%nat.
Proof.
  destruct (receive_iters_grows script n st tr) as (s1 & new1 & E1 & D1 & L1).
  rewrite receive_iters_add, E1.
  destruct s1 as [st1|st1].
  - destruct (receive_iters_grows script m st1 (new1 ++ tr))
      as (s2 & new2 & E2 & D2 & L2).
    exists (Continue st1), new1, s2, (rx_bytes new2).
    rewrite E2. cbn [fst step_state] in *. auto 10.
  - exists (Break st1), new1, (Break st1), [].
    cbn [fst step_state List.length] in *. rewrite app_nil_r.
    repeat split; auto; lia.
Qed.

(** X7. The flag and the buffer agree. In any run of the receiver, after
    any number of turns, [no_data] is up exactly when the buffer is
    empty. *)
Theorem no_data_means_empty_buffer (script : Script) (n : nat) (tr0 : Trace) :
  exists s seg,
    (st0 <- rx_init script ;; receive_iters script n st0) tr0
      = (Ok s, seg ++ tr0) /\
    (no_data (step_state s) = true <-> received_data (step_state s) = []).
Proof.
  destruct (receive_run_inv script n tr0) as (s & seg & E & Is).
  exists s, seg. split; [exact E|].
  assert (H : exists older, RxInv (step_state s) older).
  { destruct s as [st|st]; cbn [StepInv step_state] in *.
    - now exists seg.
    - destruct Is as (t & older & _ & Io & _). now exists older. }
  destruct H as (older & [Id _ _ _ In _ _ _]).
  rewrite In, Id. unfold got_byte.
  destruct (rx_bytes older); cbn; split; congruence.
Qed.

(** X8. How [receive_data] returns. When it returns, its last two calls
    are the inactivity test that found it timed out and the print of
    the decoded buffer: the turn that leaves the loop makes no report.
    The buffer is what [ser.read(1)] handed over, and it is not empty:
    the receiver never returns without a byte. *)
Theorem receiver_returns_with_bytes
    (script : Script) (fuel : nat) (tr tr' : Trace) :
  receive_data script fuel tr = (Ok tt, tr') ->
  exists t older,
    tr' = EvPrint (Text (Utf8.decode_ignore (rx_bytes older)))
            :: EvTime L54 t :: older ++ tr /\
    rx_bytes older <> [] /\
    timed_out_at older t.
Proof.
  unfold receive_data.
  destruct (rx_init_inv script tr) as (st0 & seg0 & E0 & I0 & _).
  rewrite (bind_ok _ _ _ _ _ _ _ E0).
  destruct (receive_iters_inv script fuel st0 seg0 tr I0) as (s & new & E & Is).
  unfold receive_loop. unfold bind at 1. unfold bind at 1. rewrite E.
  destruct s as [st|st]; cbn [StepInv] in Is.
  - unfold running. discriminate.
  - destruct Is as (t & older & Eo & Io & Hto).
    unfold ret, rx_finish, try_except, print. intro H. inversion H; subst.
    exists t, older. rewrite (inv_data _ _ Io).
    split; [|split; [|exact Hto]].
    + f_equal. rewrite app_assoc, Eo. reflexivity.
    + destruct Hto as [Hg _]. unfold got_byte in Hg.
      destruct (rx_bytes older); [discriminate|discriminate].
Qed.

Lemma receiver_returns_with_bytes_witness :
  receive_data Scenarios.one_byte_then_quiet 3 [] =
    (Ok tt, snd (receive_data Scenarios.one_byte_then_quiet 3 [])) /\
  exists t older,
    snd (receive_data Scenarios.one_byte_then_quiet 3 []) =
      EvPrint (Text (Utf8.decode_ignore (rx_bytes older)))
        :: EvTime L54 t :: older ++ [] /\
    rx_bytes older <> [] /\
    timed_out_at older t.
Proof.
  split; [reflexivity|].
  exact (receiver_returns_with_bytes Scenarios.one_byte_then_quiet 3 [] _
           eq_refl).
Defined.

(** With a byte ready at every look and a clock that advances by at
    most 3 from call to call, polling takes one byte in and the
    inactivity test right after it fails. *)
Lemma receive_iter_fed (script : Script) (st : RxState) (tr : Trace) :
  always_sending script ->
  exists st' new,
    receive_iter script st tr = (Ok (Continue st'), new ++ tr) /\
    List.length (received_data st') = S (List.length (received_data st)) /\
    no_data st' = false.
Proof.
  intro Hs. unfold receive_iter.
  assert (H1 : exists b n,
    rx_poll script st tr =
      (Ok (mkRx (received_data st ++ [b]) (total_received_bytes st + 1)
                (start_receive_time st)
                (time_now (script (2 + List.length tr)))
                (last_report_time st) false),
       [EvTime L53 (time_now (script (2 + List.length tr)));
        EvRead [b]; EvInWaiting n] ++ tr)).
  { unfold rx_poll, bind, ser_in_waiting, ser_read1, time_time, ret, reply.
    cbv beta. cbn [List.length].
    destruct (Hs (List.length tr)) as (Hw & _ & _).
    destruct (Hs (S (List.length tr))) as (_ & Hr & _).
    apply Z.gtb_lt in Hw. rewrite Hw. cbn [List.length].
    destruct (read1 (script (S (List.length tr)))) as [b|]; [|congruence].
    exists b, (in_waiting (script (List.length tr))). reflexivity. }
  destruct H1 as (b & n & E1). rewrite (bind_ok _ _ _ _ _ _ _ E1).
  match type of E1 with _ = (Ok ?x, ?y) => set (st1 := x) in *; set (tr1 := y) in * end.
  destruct (rx_timed_out_spec script st1 tr1) as (t & stop & E2 & Et & H2).
  rewrite (bind_ok _ _ _ _ _ _ _ E2).
  assert (Hstop : stop = false).
  { destruct stop; [|reflexivity]. exfalso.
    destruct H2 as [H2 _]. destruct (H2 eq_refl) as [_ Hlt].
    destruct (Hs (2 + List.length tr)%nat) as (_ & _ & Hstep).
    subst t. unfold tr1 in Hlt. cbn [app List.length last_activity_time st1] in Hlt.
    change (S (2 + List.length tr)) with (S (S (S (List.length tr)))) in Hstep.
    set (a := time_now (script (S (S (S (List.length tr)))))) in *.
    set (c := time_now (script (2 + List.length tr)%nat)) in *.
    lra. }
  subst stop.
  destruct (TimeoutFacts.rx_report_keeps script st1 (EvTime L54 t :: tr1))
    as (st2 & new2 & E3 & Hn & _ & Hd & _).
  rewrite (bind_ok _ _ _ _ _ _ _ E3).
  exists st2, (new2 ++ [EvTime L54 t;
                        EvTime L53 (time_now (script (2 + List.length tr)));
                        EvRead [b]; EvInWaiting n]).
  split; [unfold ret; f_equal; unfold tr1; same_list|].
  rewrite Hd, Hn. cbn [received_data no_data st1].
  rewrite length_app. cbn [List.length]. split; [lia|reflexivity].
Qed.

(** X10. A device that never pauses is never done with. With a byte
    ready at every look and a clock that advances by at most 3 time
    units from call to call, the loop is not left whatever the number of
    turns: each turn takes one more byte in, and the inactivity test
    fails each time. *)
Theorem steady_traffic_keeps_receiving
    (script : Script) (n : nat) (st : RxState) (tr : Trace) :
  always_sending script ->
  exists st' new,
    receive_iters script n st tr = (Ok (Continue st'), new ++ tr) /\
    List.length (received_data st')
      = (List.length (received_data st) + n)%nat.
Proof.
  intro Hs. revert st tr.
  induction n as [|n IH]; intros st tr.
  - exists st, []. split; [reflexivity|lia].
  - cbn [receive_iters].
    destruct (receive_iter_fed script st tr Hs) as (st1 & new1 & E1 & L1 & _).
    rewrite (bind_ok _ _ _ _ _ _ _ E1).
    destruct (IH st1 (new1 ++ tr)) as (st' & new & E & L).
    exists st', (new ++ new1). split; [rewrite E; f_equal; same_list|lia].
Qed.

Lemma steady_traffic_keeps_receiving_witness :
  always_sending Scenarios.chatty /\
  exists st' new,
    receive_iters Scenarios.chatty 40 Scenarios.after_one_byte []
      = (Ok (Continue st'), new ++ []) /\
    List.length (received_data st')
      = (List.length (received_data Scenarios.after_one_byte) + 40)%nat.
Proof.
  assert (Hs : always_sending Scenarios.chatty).
  { intro k. cbn [Scenarios.chatty in_waiting read1 time_now].
    split; [lia|]. split; [discriminate|].
    rewrite Nat2Z.inj_succ. unfold Z.succ. rewrite inject_Z_plus.
    change (inject_Z 1) with 1%Q. lra. }
  split; [exact Hs|].
  exact (steady_traffic_keeps_receiving Scenarios.chatty 40
           Scenarios.after_one_byte [] Hs).
Defined.

End ReceiveMore.

(* ------------------------------------------------------------------ *)
(** * The session as a loopback test *)

Module LoopbackMore.
Import Env Send Obs ObsMore MonadFacts SendFacts ReceiveLoop SessionFacts.
Import ReportFacts Utf8Facts.
Local Open Scope py_scope.

(** When [receive_data] returns, its last call prints the decoding of
    the bytes its own [ser.read(1)] calls handed over. *)
Lemma receive_data_returned
    (script : Script) (fuel : nat) (tr tr' : Trace) :
  receive_data script fuel tr = (Ok tt, tr') ->
  exists seg,
    tr' = EvPrint (Text (Utf8.decode_ignore (rx_bytes seg))) :: seg ++ tr /\
    Forall (fun ev => rx_event ev = true) seg.
Proof.
  unfold receive_data.
  destruct (rx_init_inv script tr) as (st0 & seg0 & E0 & I0 & _).
  rewrite (bind_ok _ _ _ _ _ _ _ E0).
  destruct (receive_iters_inv script fuel st0 seg0 tr I0) as (s & new & E & Is).
  unfold receive_loop. unfold bind at 1. unfold bind at 1. rewrite E.
  destruct s as [st|st]; cbn [StepInv] in Is.
  - unfold running. discriminate.
  - destruct Is as (t & older & Eo & Io & _).
    unfold ret, rx_finish, try_except, print. intro H. inversion H; subst.
    exists (EvTime L54 t :: older). rewrite (inv_data _ _ Io).
    split.
    + cbn [rx_bytes]. f_equal. rewrite app_assoc, Eo. reflexivity.
    + constructor; [reflexivity|apply (inv_events _ _ Io)].
Qed.

Lemma rx_writes_nothing (seg : Trace) :
  Forall (fun ev => rx_event ev = true) seg -> written seg = [].
Proof.
  induction 1 as [|ev seg Hev _ IH]; [reflexivity|].
  destruct ev; cbn in *; try exact IH. discriminate.
Qed.

(** X11. The session as a loopback test. In a session that runs to its
    end from the start of the program, if the bytes the receiver read
    are exactly the bytes the transmitter wrote, in order, then the last
    thing printed before the port is closed is the payload itself, whole
    and untrimmed: encoding character by character, echoing and decoding
    the buffer in one go give the text back. *)
Theorem loopback_prints_the_payload
    (script : Script) (P : Py.str) (fuel : nat) (tr' : Trace) :
  Forall Utf8.is_code_point P ->
  main script P fuel [] = (Ok tt, tr') ->
  rx_bytes tr' = List.concat (written tr') ->
  exists older, tr' = EvClose :: EvPrint (Text P) :: older.
Proof.
  intros HP. unfold main.
  destruct (send_data script P []) as [r1 tr1] eqn:Es.
  destruct r1 as [k|e|];
    [|rewrite (bind_raise _ _ _ _ _ _ _ Es); discriminate
     |rewrite (bind_running _ _ _ _ _ _ Es); discriminate].
  rewrite (bind_ok _ _ _ _ _ _ _ Es).
  destruct (send_data_events _ _ _ _ _ Es) as (tx & Etx & Ftx).
  rewrite app_nil_r in Etx. subst tr1.
  rewrite SendMore.send_data_unfold in Es.
  destruct (send_loop script (Z.of_nat (List.length P)) 0 P (mkTx [] 0)
              [EvPrint (Text banner_start)]) as [[st| |] tr2] eqn:El;
    try discriminate.
  apply SendMore.send_loop_returned in El.
  destruct El as (new & enc & -> & Ee & Ew & _).
  assert (Wtx : List.concat (written tx) = enc).
  { inversion Es as [[Hk Htx]]. cbn [written]. rewrite written_app.
    cbn [written app]. exact Ew. }
  clear Es.
  destruct (receive_data script fuel tx) as [r2 tr3] eqn:Er.
  destruct r2 as [[]|e|];
    [|rewrite (bind_raise _ _ _ _ _ _ _ Er); discriminate
     |rewrite (bind_running _ _ _ _ _ _ Er); discriminate].
  rewrite (bind_ok _ _ _ _ _ _ _ Er).
  apply receive_data_returned in Er. destruct Er as (seg & -> & Frx).
  unfold ser_close. intro H. inversion H; subst tr'. clear H.
  cbn [rx_bytes written].
  rewrite ReceiveMore.rx_bytes_app, written_app.
  rewrite (tx_reads_nothing tx Ftx), (rx_writes_nothing seg Frx).
  rewrite app_nil_r. cbn [app]. intro Hecho.
  exists (seg ++ tx). do 3 f_equal.
  rewrite Hecho, Wtx.
  pose proof (decode_encode P enc [] HP Ee) as Hd.
  rewrite app_nil_r in Hd. rewrite Hd.
  change (Utf8.decode_ignore []) with (@nil N). now rewrite app_nil_r.
Qed.

Lemma loopback_prints_the_payload_witness :
  Forall Utf8.is_code_point (Py.lit "A ") /\
  main ScenariosMore.echo_of_A_blank (Py.lit "A ") 3 [] =
    (Ok tt, snd (main ScenariosMore.echo_of_A_blank (Py.lit "A ") 3 [])) /\
  rx_bytes (snd (main ScenariosMore.echo_of_A_blank (Py.lit "A ") 3 []))
    = List.concat
        (written (snd (main ScenariosMore.echo_of_A_blank (Py.lit "A ") 3 []))) /\
  exists older,
    snd (main ScenariosMore.echo_of_A_blank (Py.lit "A ") 3 [])
      = EvClose :: EvPrint (Text (Py.lit "A ")) :: older.
Proof.
  assert (HP : Forall Utf8.is_code_point (Py.lit "A ")).
  { repeat constructor. }
  assert (Hrun : main ScenariosMore.echo_of_A_blank (Py.lit "A ") 3 [] =
    (Ok tt, snd (main ScenariosMore.echo_of_A_blank (Py.lit "A ") 3 [])))
    by (vm_compute; reflexivity).
  assert (Hecho :
    rx_bytes (snd (main ScenariosMore.echo_of_A_blank (Py.lit "A ") 3 []))
    = List.concat
        (written (snd (main ScenariosMore.echo_of_A_blank (Py.lit "A ") 3 []))))
    by (vm_compute; reflexivity).
  split; [exact HP|]. split; [exact Hrun|]. split; [exact Hecho|].
  exact (loopback_prints_the_payload ScenariosMore.echo_of_A_blank
           (Py.lit "A ") 3 _ HP Hrun Hecho).
Defined.

End LoopbackMore.
